(** * sso-switch: authentication state machine and session lifecycle

    A shallow embedding of the Go sources of the proxy (configuration
    defaults, session cookies, header injection, the in-memory cache, the
    OIDC and SAML providers, the CSRF and authentication middleware, the
    flow handlers and the route table) together with the properties the
    specification states about them.

    Conventions.
    - Go [string] is [string]; [[]byte] is [list Byte.byte].
    - [time.Time] is an instant in nanoseconds since the Unix epoch and
      [time.Duration] is the int64 nanosecond count, both in [Z].
    - Go [error] values are carried as their message text.
    - Code of third-party packages (JSON and XML codecs, the OAuth2 client,
      the ID-token verifier, the SAML service provider, the clock, the
      random sources) is not part of the repository; it appears as fields of
      the class [Lib] and of the provider records, and the definitions that
      call it take these as parameters. *)

From stdpp Require Import gmap strings list fin_maps pretty.
From Stdlib Require Import ZArith Ascii String.

Set Warnings "-register-all".

Local Open Scope string_scope.
Local Open Scope Z_scope.

(** ** Results of fallible calls *)

Inductive Result (A : Type) : Type :=
| Ok (a : A)
| Err (msg : string).
Arguments Ok {A} a.
Arguments Err {A} msg.

Definition bytes := list Byte.byte.

Definition bytes_of (s : string) : bytes := list_byte_of_string s.

(** ** package time *)

Module time.

Definition Time := Z.
Definition Duration := Z.

Definition Nanosecond : Duration := 1.
Definition Second : Duration := 1000000000.
Definition Minute : Duration := 60 * Second.
Definition Hour : Duration := 60 * Minute.

Definition minDuration : Duration := - 2 ^ 63.
Definition maxDuration : Duration := 2 ^ 63 - 1.

(** [t.Sub(u)]: the difference, saturated to the int64 range. *)
Definition Sub (t u : Time) : Duration :=
  if t - u <? minDuration then minDuration
  else if maxDuration <? t - u then maxDuration
  else t - u.

Definition Add (t : Time) (d : Duration) : Time := t + d.

(** [t.After(u)] *)
Definition After (t u : Time) : bool := u <? t.

(** The zero [Time] is January 1, year 1, 00:00:00 UTC. *)
Definition zero : Time := -62135596800 * Second.

Definition IsZero (t : Time) : bool := t =? zero.

(** [int(d.Seconds())].  [Seconds] returns
    [float64(d / Second) + float64(d % Second) / 1e9]; the conversion to
    [int] truncates towards zero.  While the whole part is below 2^24
    seconds the float sum is short of the next integer by more than half
    a unit in the last place, so the result is the truncated quotient. *)
Definition Seconds_int (d : Duration) : Z := Z.quot d Second.

Definition exact_seconds_range (d : Duration) : Prop :=
  Z.abs d < 2 ^ 24 * Second.

End time.

(** ** package auth: sessions and transient flow state *)

(** Dynamic claim values ([interface{}]), as [formatHeaderValue]
    distinguishes them.  A value of any other dynamic type (number, bool,
    nil, nested object) is carried as the text that the [%v] verb of
    [fmt.Sprintf] prints for it. *)
Inductive Value : Type :=
| VString (s : string)
| VStrings (l : list string)
| VSlice (l : list Value)
| VOther (repr : string).

Module Session.
Record t : Type := mk {
  ID : string;
  ProviderID : string;
  ProviderType : string;
  UserInfo : gmap string Value;
  CreatedAt : time.Time;
  ExpiresAt : time.Time;
  AccessToken : string;
  RefreshToken : string;
  IDToken : string;
  TokenExpiry : time.Time;
  Assertion : string;
  CSRFToken : string
}.

Definition set_ID (v : string) (s : t) : t :=
  mk v (ProviderID s) (ProviderType s) (UserInfo s) (CreatedAt s)
     (ExpiresAt s) (AccessToken s) (RefreshToken s) (IDToken s)
     (TokenExpiry s) (Assertion s) (CSRFToken s).
Definition set_UserInfo (v : gmap string Value) (s : t) : t :=
  mk (ID s) (ProviderID s) (ProviderType s) v (CreatedAt s)
     (ExpiresAt s) (AccessToken s) (RefreshToken s) (IDToken s)
     (TokenExpiry s) (Assertion s) (CSRFToken s).
Definition set_ExpiresAt (v : time.Time) (s : t) : t :=
  mk (ID s) (ProviderID s) (ProviderType s) (UserInfo s) (CreatedAt s)
     v (AccessToken s) (RefreshToken s) (IDToken s)
     (TokenExpiry s) (Assertion s) (CSRFToken s).
Definition set_AccessToken (v : string) (s : t) : t :=
  mk (ID s) (ProviderID s) (ProviderType s) (UserInfo s) (CreatedAt s)
     (ExpiresAt s) v (RefreshToken s) (IDToken s)
     (TokenExpiry s) (Assertion s) (CSRFToken s).
Definition set_RefreshToken (v : string) (s : t) : t :=
  mk (ID s) (ProviderID s) (ProviderType s) (UserInfo s) (CreatedAt s)
     (ExpiresAt s) (AccessToken s) v (IDToken s)
     (TokenExpiry s) (Assertion s) (CSRFToken s).
Definition set_IDToken (v : string) (s : t) : t :=
  mk (ID s) (ProviderID s) (ProviderType s) (UserInfo s) (CreatedAt s)
     (ExpiresAt s) (AccessToken s) (RefreshToken s) v
     (TokenExpiry s) (Assertion s) (CSRFToken s).
Definition set_TokenExpiry (v : time.Time) (s : t) : t :=
  mk (ID s) (ProviderID s) (ProviderType s) (UserInfo s) (CreatedAt s)
     (ExpiresAt s) (AccessToken s) (RefreshToken s) (IDToken s)
     v (Assertion s) (CSRFToken s).
End Session.

Module OIDCState.
Record t : Type := mk {
  State : string;
  ProviderID : string;
  CodeVerifier : string;
  RedirectURL : string;
  CreatedAt : time.Time
}.
End OIDCState.

Module SAMLRequest.
Record t : Type := mk {
  ID : string;
  ProviderID : string;
  RelayState : string;
  CreatedAt : time.Time
}.
End SAMLRequest.

(** [CacheData] is an [interface{}]; both providers put the marshalled
    [[]byte] there, [nil] is the absent case. *)
Module AuthRedirect.
Record t : Type := mk {
  URL : string;
  Method : string;
  FormData : list (string * string);
  CacheKey : string;
  CacheData : option bytes;
  CacheTTL : time.Duration
}.
End AuthRedirect.

(** ** package config *)

Module ServerConfig.
Record t : Type := mk {
  Host : string;
  Port : Z;
  BaseURL : string;
  CookieName : string;
  CookieDomain : string;
  CookieSecure : bool;
  CookieHTTPOnly : bool;
  CookieSameSite : string;
  SessionTTL : time.Duration
}.
End ServerConfig.

Module BackendConfig.
Record t : Type := mk {
  URL : string;
  Timeout : time.Duration;
  PreserveHost : bool
}.
End BackendConfig.

Module RedisConfig.
Record t : Type := mk {
  Address : string;
  Password : string;
  DB : Z;
  PoolSize : Z;
  MaxRetries : Z
}.
End RedisConfig.

Module CacheConfig.
Record t : Type := mk {
  Type_ : string;
  Redis : option RedisConfig.t
}.
End CacheConfig.

Module OIDCConfig.
Record t : Type := mk {
  Issuer : string;
  ClientID : string;
  ClientSecret : string;
  Scopes : list string;
  HD : string
}.
End OIDCConfig.

Module SAMLConfig.
Record t : Type := mk {
  IDPMetadataURL : string;
  IDPMetadataXML : string;
  SPEntityID : string;
  ACSURL : string;
  CertificatePath : string;
  PrivateKeyPath : string
}.
End SAMLConfig.

Module ProviderConfig.
Record t : Type := mk {
  ID : string;
  Name : string;
  Type_ : string;
  OIDC : option OIDCConfig.t;
  SAML : option SAMLConfig.t;
  HeaderMappings : gmap string string
}.
End ProviderConfig.

Module LoggingConfig.
Record t : Type := mk {
  Level : string;
  Format : string;
  Output : string
}.
End LoggingConfig.

Module UIConfig.
Record t : Type := mk {
  Enable : option bool;
  Title : string;
  GradientStart : string;
  GradientEnd : string;
  LogoPath : string
}.
End UIConfig.

Module Config.
Record t : Type := mk {
  Server : ServerConfig.t;
  Backend : BackendConfig.t;
  Cache : CacheConfig.t;
  Providers : list ProviderConfig.t;
  Logging : LoggingConfig.t;
  UI : UIConfig.t
}.
End Config.

(** [if s == "" { s = d }] *)
Definition default_string (d s : string) : string :=
  if String.eqb s "" then d else s.

(** [if n == 0 { n = d }] *)
Definition default_Z (d n : Z) : Z :=
  if n =? 0 then d else n.

Module config.

Definition setDefaults_Server (s : ServerConfig.t) : ServerConfig.t :=
  ServerConfig.mk
    (default_string "0.0.0.0" (ServerConfig.Host s))
    (default_Z 8080 (ServerConfig.Port s))
    (ServerConfig.BaseURL s)
    (default_string "sso-switch-session" (ServerConfig.CookieName s))
    (ServerConfig.CookieDomain s)
    (ServerConfig.CookieSecure s)
    (if Bool.eqb (ServerConfig.CookieHTTPOnly s) false then true
     else ServerConfig.CookieHTTPOnly s)
    (default_string "lax" (ServerConfig.CookieSameSite s))
    (default_Z (24 * time.Hour) (ServerConfig.SessionTTL s)).

Definition setDefaults_Backend (b : BackendConfig.t) : BackendConfig.t :=
  BackendConfig.mk
    (BackendConfig.URL b)
    (default_Z (30 * time.Second) (BackendConfig.Timeout b))
    (BackendConfig.PreserveHost b).

Definition setDefaults_Redis (r : RedisConfig.t) : RedisConfig.t :=
  RedisConfig.mk
    (RedisConfig.Address r) (RedisConfig.Password r) (RedisConfig.DB r)
    (default_Z 10 (RedisConfig.PoolSize r))
    (default_Z 3 (RedisConfig.MaxRetries r)).

Definition setDefaults_Cache (c : CacheConfig.t) : CacheConfig.t :=
  let ty := default_string "memory" (CacheConfig.Type_ c) in
  CacheConfig.mk ty
    (if String.eqb ty "redis"
     then setDefaults_Redis <$> CacheConfig.Redis c
     else CacheConfig.Redis c).

Definition setDefaults_Logging (l : LoggingConfig.t) : LoggingConfig.t :=
  LoggingConfig.mk
    (default_string "info" (LoggingConfig.Level l))
    (default_string "json" (LoggingConfig.Format l))
    (default_string "stdout" (LoggingConfig.Output l)).

Definition setDefaults_UI (u : UIConfig.t) : UIConfig.t :=
  UIConfig.mk
    (match UIConfig.Enable u with None => Some true | Some b => Some b end)
    (default_string "Sign In" (UIConfig.Title u))
    (default_string "#667eea" (UIConfig.GradientStart u))
    (default_string "#764ba2" (UIConfig.GradientEnd u))
    (UIConfig.LogoPath u).

(** The method [setDefaults] of [Config]; it never fails. *)
Definition setDefaults (c : Config.t) : Config.t :=
  Config.mk
    (setDefaults_Server (Config.Server c))
    (setDefaults_Backend (Config.Backend c))
    (setDefaults_Cache (Config.Cache c))
    (Config.Providers c)
    (setDefaults_Logging (Config.Logging c))
    (setDefaults_UI (Config.UI c)).

Section Env.
(** [os.Getenv] *)
Variable Getenv : string -> string.

Definition env_override (name old : string) : string :=
  if String.eqb (Getenv name) "" then old else Getenv name.

Definition loadSecrets_OIDC (id : string) (o : OIDCConfig.t) : OIDCConfig.t :=
  OIDCConfig.mk
    (OIDCConfig.Issuer o)
    (env_override (id ++ "_CLIENT_ID") (OIDCConfig.ClientID o))
    (env_override (id ++ "_CLIENT_SECRET") (OIDCConfig.ClientSecret o))
    (OIDCConfig.Scopes o)
    (OIDCConfig.HD o).

Definition loadSecrets_Provider (p : ProviderConfig.t) : ProviderConfig.t :=
  ProviderConfig.mk
    (ProviderConfig.ID p) (ProviderConfig.Name p) (ProviderConfig.Type_ p)
    (loadSecrets_OIDC (ProviderConfig.ID p) <$> ProviderConfig.OIDC p)
    (ProviderConfig.SAML p)
    (ProviderConfig.HeaderMappings p).

Definition loadSecrets_Redis (r : RedisConfig.t) : RedisConfig.t :=
  RedisConfig.mk
    (RedisConfig.Address r)
    (env_override "REDIS_PASSWORD" (RedisConfig.Password r))
    (RedisConfig.DB r) (RedisConfig.PoolSize r) (RedisConfig.MaxRetries r).

Definition loadSecrets_Cache (c : CacheConfig.t) : CacheConfig.t :=
  CacheConfig.mk (CacheConfig.Type_ c)
    (if String.eqb (CacheConfig.Type_ c) "redis"
     then loadSecrets_Redis <$> CacheConfig.Redis c
     else CacheConfig.Redis c).

(** The method [loadSecretsFromEnv] of [Config]. *)
Definition loadSecretsFromEnv (c : Config.t) : Config.t :=
  Config.mk
    (Config.Server c)
    (Config.Backend c)
    (loadSecrets_Cache (Config.Cache c))
    (loadSecrets_Provider <$> Config.Providers c)
    (Config.Logging c)
    (Config.UI c).

(** [os.ReadFile] and [yaml.Unmarshal] into a zero [Config]. *)
Variable ReadFile : string -> Result bytes.
Variable yaml_Unmarshal : bytes -> Result Config.t.

Definition Load (path : string) : Result Config.t :=
  match ReadFile path with
  | Err e => Err ("failed to read config file: " ++ e)
  | Ok data =>
      match yaml_Unmarshal data with
      | Err e => Err ("failed to parse config: " ++ e)
      | Ok cfg => Ok (loadSecretsFromEnv (setDefaults cfg))
      end
  end.
End Env.

End config.

(** ** package strings, net/textproto, net/http: the parts the proxy uses *)

Module strings.
(** [strings.Join(elems, sep)] *)
Definition Join (elems : list string) (sep : string) : string :=
  String.concat sep elems.
End strings.

Module textproto.

Definition byte_in (lo hi : nat) (c : ascii) : bool :=
  (Nat.leb lo (nat_of_ascii c) && Nat.leb (nat_of_ascii c) hi)%bool.

Definition is_lower (c : ascii) : bool := byte_in 97 122 c.
Definition is_upper (c : ascii) : bool := byte_in 65 90 c.
Definition is_digit (c : ascii) : bool := byte_in 48 57 c.

Fixpoint mem_byte (c : ascii) (s : string) : bool :=
  match s with
  | EmptyString => false
  | String d rest => (Ascii.eqb c d || mem_byte c rest)%bool
  end.

(** The token bytes of RFC 7230, the bitmap of [validHeaderFieldByte]. *)
Definition validHeaderFieldByte (c : ascii) : bool :=
  (is_digit c || is_lower c || is_upper c
   || mem_byte c "!#$%&'*+-.^_`|~")%bool.

Fixpoint all_bytes (f : ascii -> bool) (s : string) : bool :=
  match s with
  | EmptyString => true
  | String c rest => (f c && all_bytes f rest)%bool
  end.

(** First letter and every letter after a dash in upper case, the others
    in lower case. *)
Fixpoint canonical_case (upper : bool) (s : string) : string :=
  match s with
  | EmptyString => EmptyString
  | String c rest =>
      let c' :=
        if (upper && is_lower c)%bool
        then ascii_of_nat (nat_of_ascii c - 32)
        else if (negb upper && is_upper c)%bool
             then ascii_of_nat (nat_of_ascii c + 32)
             else c in
      String c' (canonical_case (Ascii.eqb c' "-") rest)
  end.

(** [textproto.CanonicalMIMEHeaderKey]: a key with a byte that is not a
    token byte is returned unchanged. *)
Definition CanonicalMIMEHeaderKey (s : string) : string :=
  if all_bytes validHeaderFieldByte s then canonical_case true s else s.

End textproto.

(** [http.Header] is [map[string][]string]. *)
Module Header.
Definition Set_ (h : gmap string (list string)) (key value : string)
  : gmap string (list string) :=
  <[textproto.CanonicalMIMEHeaderKey key := [value]]> h.

Definition Get (h : gmap string (list string)) (key : string) : string :=
  match h !! textproto.CanonicalMIMEHeaderKey key with
  | Some (v :: _) => v
  | _ => ""
  end.
End Header.

Inductive SameSite : Type :=
| SameSiteLaxMode
| SameSiteStrictMode
| SameSiteNoneMode.

Module Cookie.
Record t : Type := mk {
  Name : string;
  Value : string;
  Path : string;
  Domain : string;
  MaxAge : Z;
  Secure : bool;
  HttpOnly : bool;
  SameSite_ : SameSite
}.

Definition set_MaxAge (v : Z) (c : t) : t :=
  mk (Name c) (Value c) (Path c) (Domain c) v (Secure c) (HttpOnly c)
     (SameSite_ c).
End Cookie.

(** Values of a URL query or of a parsed form: [Get] is the first value
    under the key, or the empty string. *)
Fixpoint Values_Get (vs : list (string * string)) (key : string) : string :=
  match vs with
  | [] => ""
  | (k, v) :: rest => if String.eqb k key then v else Values_Get rest key
  end.

Module Request.
Record t : Type := mk {
  Method : string;
  Path : string;                      (* r.URL.Path *)
  Query : list (string * string);     (* r.URL.Query() *)
  PostForm : list (string * string);  (* the parsed body parameters *)
  ParseFormError : option string;     (* what r.ParseForm() reports *)
  Header_ : gmap string (list string);
  Cookies : list (string * string);   (* the Cookie header, parsed *)
  Host : string;
Context : option Session.t          (* the value under SessionContextKey *)
}.

Definition set_Header (h : gmap string (list string)) (r : t) : t :=
  mk (Method r) (Path r) (Query r) (PostForm r) (ParseFormError r) h
     (Cookies r) (Host r) (Context r).
Definition set_Host (v : string) (r : t) : t :=
  mk (Method r) (Path r) (Query r) (PostForm r) (ParseFormError r)
     (Header_ r) (Cookies r) v (Context r).
Definition set_Context (s : Session.t) (r : t) : t :=
  mk (Method r) (Path r) (Query r) (PostForm r) (ParseFormError r)
     (Header_ r) (Cookies r) (Host r) (Some s).

(** [r.FormValue(key)]: body parameters take precedence over the query. *)
Definition FormValue (r : t) (key : string) : string :=
  Values_Get (PostForm r ++ Query r) key.

(** [r.Cookie(name)] *)
Definition Cookie_ (r : t) (name : string) : Result (string * string) :=
  if String.eqb name "" then Err "http: named cookie not present"
  else match List.find (fun c => String.eqb (fst c) name) (Cookies r) with
       | Some c => Ok c
       | None => Err "http: named cookie not present"
       end.
End Request.

(** What a handler has written to its [http.ResponseWriter].  A cookie
    added by [http.SetCookie] is kept as the [http.Cookie] value; net/http
    serialises it into a [Set-Cookie] header line. *)
Module ResponseWriter.
Record t : Type := mk {
  Header_ : gmap string (list string);
  Status : option Z;
  Body : string;
  SetCookies : list Cookie.t
}.

Definition empty : t := mk ∅ None "" [].

Definition set_Header (key value : string) (w : t) : t :=
  mk (Header.Set_ (Header_ w) key value) (Status w) (Body w) (SetCookies w).

(** [w.WriteHeader(code)]: only the first call takes effect. *)
Definition WriteHeader (code : Z) (w : t) : t :=
  match Status w with
  | Some _ => w
  | None => mk (Header_ w) (Some code) (Body w) (SetCookies w)
  end.

Definition Write (s : string) (w : t) : t :=
  let w' := WriteHeader 200 w in
  mk (Header_ w') (Status w') (Body w' ++ s) (SetCookies w').

Definition add_cookie (c : Cookie.t) (w : t) : t :=
  mk (Header_ w) (Status w) (Body w) (SetCookies w ++ [c]).
End ResponseWriter.

Definition StatusFound : Z := 302.
Definition StatusBadRequest : Z := 400.
Definition StatusUnauthorized : Z := 401.
Definition StatusForbidden : Z := 403.
Definition StatusMethodNotAllowed : Z := 405.
Definition StatusInternalServerError : Z := 500.
Definition StatusBadGateway : Z := 502.

(** ** package security: the session cookie *)

Module security.
Section WithToLower.
(** [strings.ToLower] *)
Variable ToLower : string -> string.

Definition CreateSessionCookie (cfg : ServerConfig.t) (sessionID : string)
    (maxAge : time.Duration) : Cookie.t :=
  let sameSite :=
    if String.eqb (ToLower (ServerConfig.CookieSameSite cfg)) "strict"
    then SameSiteStrictMode
    else if String.eqb (ToLower (ServerConfig.CookieSameSite cfg)) "none"
         then SameSiteNoneMode
         else SameSiteLaxMode in
  Cookie.mk
    (ServerConfig.CookieName cfg)
    sessionID
    "/"
    (ServerConfig.CookieDomain cfg)
    (time.Seconds_int maxAge)
    (ServerConfig.CookieSecure cfg)
    (ServerConfig.CookieHTTPOnly cfg)
    sameSite.

Definition ClearSessionCookie (cfg : ServerConfig.t) : Cookie.t :=
  Cookie.set_MaxAge (-1) (CreateSessionCookie cfg "" 0).
End WithToLower.

Definition GetSessionCookie (req : Request.t) (cookieName : string)
  : Result (string * string) :=
  Request.Cookie_ req cookieName.
End security.

(** ** package proxy: header injection *)

Module proxy.

(** [fmt.Sprintf("%v", v)]: a slice prints as its elements between
    brackets, separated by spaces. *)
Fixpoint Sprintf_v (v : Value) : string :=
  match v with
  | VString s => s
  | VStrings l => "[" ++ strings.Join l " " ++ "]"
  | VSlice l => "[" ++ strings.Join (List.map Sprintf_v l) " " ++ "]"
  | VOther repr => repr
  end.

Definition formatHeaderValue (value : Value) : string :=
  match value with
  | VString v => v
  | VStrings v => strings.Join v ","
  | VSlice v =>
      strings.Join
        (List.map (fun item => match item with
                               | VString str => str
                               | _ => Sprintf_v item
                               end) v)
        ","
  | VOther _ => Sprintf_v value
  end.

(** One iteration of the loop over the header mappings. *)
Definition inject_one (session : Session.t)
    (h : gmap string (list string)) (m : string * string)
  : gmap string (list string) :=
  let '(claim, header) := m in
  match Session.UserInfo session !! claim with
  | None => h
  | Some value =>
      let headerValue := formatHeaderValue value in
      if String.eqb headerValue "" then h
      else Header.Set_ h header headerValue
  end.

(** [InjectHeaders], on the header map of the request.  [order] is the
    sequence in which the [range] statement visits the mappings, which Go
    leaves unspecified.  The function never returns an error. *)
Definition InjectHeaders (order : list (string * string))
    (h : gmap string (list string)) (session : Session.t)
  : gmap string (list string) :=
  let h1 := fold_left (inject_one session) order h in
  let h2 := Header.Set_ h1 "X-Auth-Provider" (Session.ProviderID session) in
  let h3 := Header.Set_ h2 "X-Auth-Provider-Type" (Session.ProviderType session) in
  Header.Set_ h3 "X-Auth-Session-ID" (Session.ID session).

End proxy.

(** ** The SAML assertion, as [HandleCallback] reads it *)

Module NameID.
Record t : Type := mk {
  Value : string;
  Format : string
}.
End NameID.

Module Subject.
Record t : Type := mk {
  NameID_ : option NameID.t
}.
End Subject.

Module Attribute.
Record t : Type := mk {
  Name : string;
  Values : list string   (* the [Value] of each [AttributeValue] *)
}.
End Attribute.

Module Conditions.
Record t : Type := mk {
  NotBefore : time.Time;
  NotOnOrAfter : time.Time
}.
End Conditions.

Module Assertion.
Record t : Type := mk {
  Subject_ : option Subject.t;
  Conditions_ : option Conditions.t;
  AttributeStatements : list (list Attribute.t)
}.
End Assertion.

(** ** The environment of third-party code *)

Module HealthResponse.
Record t : Type := mk {
  Status : string;
  Uptime : time.Duration;
  Cache_Type : string;
  Cache_Status : string;
  Backend_URL : string;
  Backend_Status : string;
  Providers : gmap string string
}.
End HealthResponse.

Module SelectPageData.
Record t : Type := mk {
  Providers : list (string * string * string);  (* ID, Name, Type *)
  CSRFToken : string;
  PageTitle : string;
  GradientStart : string;
  GradientEnd : string;
  LogoURL : string
}.
End SelectPageData.

Class Lib : Type := mkLib {
  (** [strings.ToLower] *)
  ToLower : string -> string;
  (** the n-th reading of [time.Now()] *)
  Now : nat -> time.Time;
  (** the n-th draw of the random source, as [uuid.New().String()] *)
  uuid_String : nat -> string;
  (** the n-th draw, as 32 bytes of [rand.Read] in base64url *)
  rand_token : nat -> Result string;
  (** [base64url(sha256(verifier))] *)
  sha256_base64 : string -> string;
  (** the order in which a [range] statement visits a map *)
  range_ : forall V : Type, gmap string V -> list (string * V);
  json_Marshal_Session : Session.t -> Result bytes;
  json_Unmarshal_Session : bytes -> Result Session.t;
  json_Marshal_OIDCState : OIDCState.t -> Result bytes;
  json_Unmarshal_OIDCState : bytes -> Result OIDCState.t;
  json_Marshal_SAMLRequest : SAMLRequest.t -> Result bytes;
  xml_Marshal_Assertion : Assertion.t -> Result string;
  (** executing the embedded selection template *)
  template_Execute : SelectPageData.t -> Result string;
  (** parsing the embedded selection template *)
  template_ParseFS : Result unit;
  (** [url.Parse], as the scheme and host of the result *)
  url_Parse : string -> Result (string * string);
  (** the round trip of a forwarded request to the backend: status and body *)
  RoundTrip : Request.t -> Result (Z * string);
  (** [http.Get], as success or failure *)
  http_Get : string -> Result unit;
  json_Encode_Health : HealthResponse.t -> string
}.

(** [range_] visits every entry of the map exactly once. *)
Definition range_complete (L : Lib) : Prop :=
  forall (V : Type) (m : gmap string V), @range_ L V m ≡ₚ map_to_list m.

(** ** Program state and the operations on it *)

Module cacheItem.
Record t : Type := mk {
  value : bytes;
  expiresAt : time.Time
}.
End cacheItem.

(** The operations whose order the properties speak about.  A handler
    records each one as it performs it; the record has no effect on what
    the handler does. *)
Inductive Event : Type :=
| CacheGet (key : string)
| CacheSet (key : string) (value : bytes) (ttl : time.Duration)
| CacheDelete (key : string)
| CacheExists (key : string)
| SetCookie (c : Cookie.t)
| CallInitiateAuth (provider redirectURL : string)
| CallHandleCallback (provider : string)
| CallValidateSession (provider : string)
| CallRefreshSession (provider : string)
| TokenExchange (code : string)
| TokenRefresh (refreshToken : string)
| Forward (r : Request.t).

(** [data] is the map of the [MemoryCache]; [ticks] and [draws] count the
    clock readings and random draws taken so far; [trace] lists the
    operations performed, oldest first; [resp] is the response writer of the
    request being served. *)
Record State : Type := mkState {
  data : gmap string cacheItem.t;
  ticks : nat;
  draws : nat;
  trace : list Event;
  resp : ResponseWriter.t
}.

Definition M (A : Type) : Type := State -> A * State.

Definition ret {A : Type} (a : A) : M A := fun s => (a, s).

Definition bind {A B : Type} (m : M A) (k : A -> M B) : M B :=
  fun s => let (a, s') := m s in k a s'.

Declare Scope prog_scope.
Delimit Scope prog_scope with prog.
Notation "'let*' x ':=' m 'in' k" := (bind m (fun x => k))
  (at level 62, x name, m at next level, right associativity) : prog_scope.
Notation "m ';;;' k" := (bind m (fun _ => k))
  (at level 62, right associativity) : prog_scope.
Local Open Scope prog_scope.

Definition emit (e : Event) : M unit :=
  fun s => (tt, mkState (data s) (ticks s) (draws s) (trace s ++ [e]) (resp s)).

Definition modify_resp (f : ResponseWriter.t -> ResponseWriter.t) : M unit :=
  fun s => (tt, mkState (data s) (ticks s) (draws s) (trace s) (f (resp s))).

Definition modify_data (f : gmap string cacheItem.t -> gmap string cacheItem.t)
  : M unit :=
  fun s => (tt, mkState (f (data s)) (ticks s) (draws s) (trace s) (resp s)).

Definition read_data : M (gmap string cacheItem.t) := fun s => (data s, s).

Arguments ret {A} a s /.
Arguments bind {A B} m k s /.
Arguments emit e s /.
Arguments modify_resp f s /.
Arguments modify_data f s /.
Arguments read_data s /.

(** *** Clock, random source, net/http helpers *)

Section Runtime.

Context {L : Lib}.

(** [time.Now()] *)
Definition time_Now : M time.Time :=
  fun s => (Now (ticks s),
            mkState (data s) (S (ticks s)) (draws s) (trace s) (resp s)).

(** [time.Until(t)] *)
Definition time_Until (t : time.Time) : M time.Duration :=
  let* now := time_Now in ret (time.Sub t now).

(** [uuid.New().String()] *)
Definition uuid_New_String : M string :=
  fun s => (uuid_String (draws s),
            mkState (data s) (ticks s) (S (draws s)) (trace s) (resp s)).

Definition rand_Read_base64 : M (Result string) :=
  fun s => (rand_token (draws s),
            mkState (data s) (ticks s) (S (draws s)) (trace s) (resp s)).

Definition http_Error (msg : string) (code : Z) : M unit :=
  modify_resp (fun w =>
    ResponseWriter.Write (msg ++ String "010"%char "")
      (ResponseWriter.WriteHeader code
        (ResponseWriter.set_Header "X-Content-Type-Options" "nosniff"
          (ResponseWriter.set_Header "Content-Type" "text/plain; charset=utf-8" w)))).

(** [http.Redirect].  The target is written to [Location] as it is.
    net/http first resolves a target without scheme and host against the
    request path, cleans its path and escapes the bytes outside ASCII, which
    is not shown: this leaves [/auth/select], [/] and the absolute URLs of
    the IdP as they are, so that the [Location] is the one of the code for
    these, and for a posted relay state only when it is such a target.  The
    short HTML body added to the answer of a GET is left out. *)
Definition http_Redirect (url : string) (code : Z) : M unit :=
  modify_resp (fun w =>
    ResponseWriter.WriteHeader code (ResponseWriter.set_Header "Location" url w)).

Definition http_SetCookie (c : Cookie.t) : M unit :=
  emit (SetCookie c) ;;;
  modify_resp (ResponseWriter.add_cookie c).

End Runtime.

Arguments time_Now {L} s /.
Arguments time_Until {L} t s /.
Arguments uuid_New_String {L} s /.
Arguments rand_Read_base64 {L} s /.
Arguments http_Error msg code s /.
Arguments http_Redirect url code s /.
Arguments http_SetCookie c s /.

(** *** package cache: the in-memory variant

    The Redis variant hands every operation to an external server and is
    not modelled; [cache.type] defaults to [memory]. *)

Definition ErrNotFound : string := "key not found".

Module cache.
Section WithLib.
Context {L : Lib}.

Definition Get (key : string) : M (Result bytes) :=
  emit (CacheGet key) ;;;
  let* d := read_data in
  match d !! key with
  | None => ret (Err ErrNotFound)
  | Some item =>
      let* now := time_Now in
      if time.After now (cacheItem.expiresAt item)
      then ret (Err ErrNotFound)
      else ret (Ok (cacheItem.value item))
  end.

Definition Set_ (key : string) (value : bytes) (ttl : time.Duration)
  : M (Result unit) :=
  emit (CacheSet key value ttl) ;;;
  let* now := time_Now in
  modify_data (insert key (cacheItem.mk value (time.Add now ttl))) ;;;
  ret (Ok tt).

Definition Delete (key : string) : M (Result unit) :=
  emit (CacheDelete key) ;;;
  modify_data (delete key) ;;;
  ret (Ok tt).

Definition Exists_ (key : string) : M (Result bool) :=
  emit (CacheExists key) ;;;
  let* d := read_data in
  match d !! key with
  | None => ret (Ok false)
  | Some item =>
      let* now := time_Now in
      if time.After now (cacheItem.expiresAt item)
      then ret (Ok false)
      else ret (Ok true)
  end.

(** The reclaimer's sweep. *)
Definition cleanup : M unit :=
  let* now := time_Now in
  modify_data
    (filter (fun kv => time.After now (cacheItem.expiresAt (snd kv)) = false)).
End WithLib.

Arguments Get {L} key s /.
Arguments Set_ {L} key value ttl s /.
Arguments Delete key s /.
Arguments Exists_ {L} key s /.
(** Which implementation of the [Cache] interface [New] has built. *)
Inductive Kind : Type :=
| Memory
| Redis.

Section Construction.
(** [client.Ping(ctx).Err()] on a client built from the configuration *)
Variable Ping : RedisConfig.t -> Result unit.

Definition NewRedisCache (cfg : RedisConfig.t) : Result Kind :=
  match Ping cfg with
  | Err e => Err ("failed to connect to Redis: " ++ e)
  | Ok _ => Ok Redis
  end.

Definition New (cfg : CacheConfig.t) : Result Kind :=
  if String.eqb (CacheConfig.Type_ cfg) "memory" then Ok Memory
  else if String.eqb (CacheConfig.Type_ cfg) "redis"
  then
    match CacheConfig.Redis cfg with
    | None => Err "redis config is required for redis cache type"
    | Some redis => NewRedisCache redis
    end
  else Err ("unsupported cache type: " ++ CacheConfig.Type_ cfg).
End Construction.
End cache.

(** ** package oidc *)

Module Token.
(** [oauth2.Token]; [id_token] is [Extra("id_token").(string)]. *)
Record t : Type := mk {
  AccessToken : string;
  RefreshToken : string;
  Expiry : time.Time;
  id_token : option string
}.
End Token.

Module oidc.

(** The provider, with the OAuth2 client and the ID-token verifier it
    holds.  [AuthCodeURL], [Exchange] and [TokenSource_Token] are the
    calls on [oauth2Config] (the redirect URL assigned just before the
    call is their first argument); [Verify] is the verifier and [Claims]
    decodes the claims of a verified ID token.  What the IdP answers is
    taken as a function of what it is sent. *)
Record Provider : Type := mkProvider {
  id : string;
  name : string;
  cfg : OIDCConfig.t;
  headerMappings : gmap string string;
  AuthCodeURL : string -> string -> string -> string;
  Exchange : string -> string -> string -> Result Token.t;
  TokenSource_Token : string -> Result Token.t;
  Verify : string -> Result bytes;
  Claims : bytes -> Result (gmap string Value)
}.

Section WithLib.
Context {L : Lib}.

Definition generateCodeVerifier : M (Result string) := rand_Read_base64.

Definition generateCodeChallenge (verifier : string) : string :=
  sha256_base64 verifier.

Definition InitiateAuth (p : Provider) (redirectURL : string)
  : M (Result AuthRedirect.t) :=
  let* cv := generateCodeVerifier in
  match cv with
  | Err e => ret (Err ("failed to generate code verifier: " ++ e))
  | Ok codeVerifier =>
      let codeChallenge := generateCodeChallenge codeVerifier in
      let* state := uuid_New_String in
      let authURL := AuthCodeURL p redirectURL state codeChallenge in
      let authURL :=
        if String.eqb (OIDCConfig.HD (cfg p)) "" then authURL
        else authURL ++ "&hd=" ++ OIDCConfig.HD (cfg p) in
      let* now := time_Now in
      let oidcState :=
        OIDCState.mk state (id p) codeVerifier redirectURL now in
      match json_Marshal_OIDCState oidcState with
      | Err e => ret (Err ("failed to marshal state: " ++ e))
      | Ok stateData =>
          ret (Ok (AuthRedirect.mk authURL "GET" []
                     ("oidc:state:" ++ state) (Some stateData)
                     (5 * time.Minute)))
      end
  end.

(** The tail of [HandleCallback], from the token exchange on. *)
Definition exchange_and_verify (p : Provider) (code : string)
    (oidcState : OIDCState.t) : M (Result Session.t) :=
  emit (TokenExchange code) ;;;
  match Exchange p (OIDCState.RedirectURL oidcState) code
                 (OIDCState.CodeVerifier oidcState) with
  | Err e => ret (Err ("failed to exchange code: " ++ e))
  | Ok oauth2Token =>
      match Token.id_token oauth2Token with
      | None => ret (Err "no id_token in token response")
      | Some rawIDToken =>
          match Verify p rawIDToken with
          | Err e => ret (Err ("failed to verify ID token: " ++ e))
          | Ok idToken =>
              match Claims p idToken with
              | Err e => ret (Err ("failed to parse claims: " ++ e))
              | Ok claims =>
                  let* sessionID := uuid_New_String in
                  let* now := time_Now in
                  let* csrf := uuid_New_String in
                  ret (Ok (Session.mk
                             sessionID
                             (id p)
                             "oidc"
                             claims
                             now
                             (Token.Expiry oauth2Token)
                             (Token.AccessToken oauth2Token)
                             (Token.RefreshToken oauth2Token)
                             rawIDToken
                             (Token.Expiry oauth2Token)
                             ""
                             csrf))
              end
          end
      end
  end.

Definition HandleCallback (p : Provider) (req : Request.t)
  : M (Result Session.t) :=
  let code := Values_Get (Request.Query req) "code" in
  let state := Values_Get (Request.Query req) "state" in
  if String.eqb code "" then ret (Err "missing code parameter")
  else if String.eqb state "" then ret (Err "missing state parameter")
  else
    let* got := cache.Get ("oidc:state:" ++ state) in
    match got with
    | Err e => ret (Err ("invalid or expired state: " ++ e))
    | Ok stateData =>
        match json_Unmarshal_OIDCState stateData with
        | Err e => ret (Err ("failed to unmarshal state: " ++ e))
        | Ok oidcState =>
            if negb (String.eqb (OIDCState.ProviderID oidcState) (id p))
            then ret (Err "provider mismatch")
            else
              cache.Delete ("oidc:state:" ++ state) ;;;
              exchange_and_verify p code oidcState
        end
    end.

Definition ValidateSession (p : Provider) (session : Session.t)
  : M (Result unit) :=
  if negb (String.eqb (Session.ProviderID session) (id p))
  then ret (Err "provider mismatch")
  else
    let* now := time_Now in
    if time.After now (Session.ExpiresAt session)
    then ret (Err "session expired")
    else ret (Ok tt).

(** The updates [RefreshSession] makes to the session once the new
    token has arrived. *)
Definition apply_token (p : Provider) (session : Session.t)
    (newToken : Token.t) : Result Session.t :=
  let verified :=
    match Token.id_token newToken with
    | Some rawIDToken =>
        match Verify p rawIDToken with
        | Err e => Err ("failed to verify refreshed ID token: " ++ e)
        | Ok idToken =>
            match Claims p idToken with
            | Err e => Err ("failed to parse refreshed claims: " ++ e)
            | Ok claims =>
                Ok (Session.set_IDToken rawIDToken
                      (Session.set_UserInfo claims session))
            end
        end
    | None => Ok session
    end in
  match verified with
  | Err e => Err e
  | Ok session =>
      let session := Session.set_AccessToken (Token.AccessToken newToken) session in
      let session :=
        if negb (String.eqb (Token.RefreshToken newToken) "")
        then Session.set_RefreshToken (Token.RefreshToken newToken) session
        else session in
      let session := Session.set_TokenExpiry (Token.Expiry newToken) session in
      Ok (Session.set_ExpiresAt (Token.Expiry newToken) session)
  end.

Definition RefreshSession (p : Provider) (session : Session.t)
  : M (Result Session.t) :=
  if String.eqb (Session.RefreshToken session) ""
  then ret (Err "no refresh token available")
  else
    emit (TokenRefresh (Session.RefreshToken session)) ;;;
    match TokenSource_Token p (Session.RefreshToken session) with
    | Err e => ret (Err ("failed to refresh token: " ++ e))
    | Ok newToken => ret (apply_token p session newToken)
    end.
End WithLib.

(** The calls an OAuth2 client and its ID-token verifier offer. *)
Record Client : Type := mkClient {
  client_AuthCodeURL : string -> string -> string -> string;
  client_Exchange : string -> string -> string -> Result Token.t;
  client_TokenSource_Token : string -> Result Token.t;
  client_Verify : string -> Result bytes;
  client_Claims : bytes -> Result (gmap string Value)
}.

Section Construction.
(** Discovery at the issuer ([oidc.NewProvider] of go-oidc).  The result
    gives, for a client id, a client secret and a list of scopes, the calls
    of the OAuth2 configuration with the discovered endpoint and of the
    verifier for that client id. *)
Variable Discover : string -> Result (string -> string -> list string -> Client).

Definition NewProvider (providerCfg : ProviderConfig.t) : Result Provider :=
  match ProviderConfig.OIDC providerCfg with
  | None => Err "OIDC config is required"
  | Some o =>
      match Discover (OIDCConfig.Issuer o) with
      | Err e => Err ("failed to create OIDC provider: " ++ e)
      | Ok provider =>
          let client :=
            provider (OIDCConfig.ClientID o) (OIDCConfig.ClientSecret o)
                     (OIDCConfig.Scopes o) in
          Ok (mkProvider
                (ProviderConfig.ID providerCfg)
                (ProviderConfig.Name providerCfg)
                o
                (ProviderConfig.HeaderMappings providerCfg)
                (client_AuthCodeURL client)
                (client_Exchange client)
                (client_TokenSource_Token client)
                (client_Verify client)
                (client_Claims client))
      end
  end.
End Construction.

End oidc.

(** ** package saml *)

Module saml.

(** The provider, with the service provider object it holds:
    [MakeAuthenticationRequest] and [Redirect] build the request and its
    redirect URL for a request id, [ParseResponse] validates a response
    and returns its assertion, [Metadata] is the rendered descriptor. *)
Record Provider : Type := mkProvider {
  id : string;
  name : string;
  cfg : SAMLConfig.t;
  headerMappings : gmap string string;
  MakeAuthenticationRequest : Result unit;
  Redirect : string -> Result string;
  ParseResponse : Request.t -> Result Assertion.t;
  Metadata : string
}.

(** One attribute of an attribute statement. *)
Definition add_attribute (claims : gmap string Value) (attr : Attribute.t)
  : gmap string Value :=
  match Attribute.Values attr with
  | [] => claims
  | [v] => <[Attribute.Name attr := VString v]> claims
  | vs => <[Attribute.Name attr := VStrings vs]> claims
  end.

Definition extract_claims (assertion : Assertion.t) : gmap string Value :=
  let claims : gmap string Value :=
    match Assertion.Subject_ assertion with
    | Some (Subject.mk (Some nid)) =>
        <["name_id_format" := VString (NameID.Format nid)]>
          (<["name_id" := VString (NameID.Value nid)]> ∅)
    | _ => ∅
    end in
  fold_left (fun claims stmt => fold_left add_attribute stmt claims)
            (Assertion.AttributeStatements assertion) claims.

Section WithLib.
Context {L : Lib}.

Definition InitiateAuth (p : Provider) (redirectURL : string)
  : M (Result AuthRedirect.t) :=
  let* requestID := uuid_New_String in
  match MakeAuthenticationRequest p with
  | Err e => ret (Err ("failed to create authentication request: " ++ e))
  | Ok _ =>
      let* now := time_Now in
      let samlReq := SAMLRequest.mk requestID (id p) redirectURL now in
      match json_Marshal_SAMLRequest samlReq with
      | Err e => ret (Err ("failed to marshal request: " ++ e))
      | Ok reqData =>
          match Redirect p requestID with
          | Err e => ret (Err ("failed to create redirect: " ++ e))
          | Ok url =>
              ret (Ok (AuthRedirect.mk url "GET" []
                         ("saml:request:" ++ requestID) (Some reqData)
                         (5 * time.Minute)))
          end
      end
  end.

Definition HandleCallback (p : Provider) (req : Request.t)
  : M (Result Session.t) :=
  match Request.ParseFormError req with
  | Some e => ret (Err ("failed to parse form: " ++ e))
  | None =>
      if String.eqb (Values_Get (Request.PostForm req) "SAMLResponse") ""
      then ret (Err "missing SAMLResponse")
      else
        match ParseResponse p req with
        | Err e => ret (Err ("failed to parse SAML response: " ++ e))
        | Ok assertion =>
            let claims := extract_claims assertion in
            match xml_Marshal_Assertion assertion with
            | Err e => ret (Err ("failed to marshal assertion: " ++ e))
            | Ok assertionData =>
                let* now1 := time_Now in
                let expiresAt :=
                  match Assertion.Conditions_ assertion with
                  | Some c =>
                      if negb (time.IsZero (Conditions.NotOnOrAfter c))
                      then Conditions.NotOnOrAfter c
                      else time.Add now1 (24 * time.Hour)
                  | None => time.Add now1 (24 * time.Hour)
                  end in
                let* sessionID := uuid_New_String in
                let* now2 := time_Now in
                let* csrf := uuid_New_String in
                ret (Ok (Session.mk
                           sessionID
                           (id p)
                           "saml"
                           claims
                           now2
                           expiresAt
                           "" "" ""
                           time.zero
                           assertionData
                           csrf))
            end
        end
  end.

Definition ValidateSession (p : Provider) (session : Session.t)
  : M (Result unit) :=
  if negb (String.eqb (Session.ProviderID session) (id p))
  then ret (Err "provider mismatch")
  else
    let* now := time_Now in
    if time.After now (Session.ExpiresAt session)
    then ret (Err "session expired")
    else ret (Ok tt).

Definition RefreshSession (p : Provider) (session : Session.t)
  : M (Result Session.t) :=
  ret (Err "SAML sessions cannot be refreshed").

Definition GetMetadata (p : Provider) : Result string := Ok (Metadata p).
End WithLib.

(** The calls of a service provider that the provider uses. *)
Record Calls : Type := mkCalls {
  sp_MakeAuthenticationRequest : Result unit;
  sp_Redirect : string -> Result string;
  sp_ParseResponse : Request.t -> Result Assertion.t;
  sp_Metadata : string
}.

Section Construction.
Context {L : Lib}.

(** Parsed certificates, RSA keys and entity descriptors. *)
Variable Certificate PrivateKey EntityDescriptor : Type.

(** [os.ReadFile] *)
Variable ReadFile : string -> Result bytes.
(** [pem.Decode], as the bytes of the first block if there is one *)
Variable pem_Decode : bytes -> option bytes.
Variable x509_ParseCertificate : bytes -> Result Certificate.
Variable x509_ParsePKCS1PrivateKey : bytes -> Result PrivateKey.
(** [x509.ParsePKCS8PrivateKey]; [None] is a key that is not an RSA key *)
Variable x509_ParsePKCS8PrivateKey : bytes -> Result (option PrivateKey).
(** [xml.Unmarshal] into an entity descriptor *)
Variable xml_Unmarshal : string -> Result EntityDescriptor.
(** [http.NewRequestWithContext] for a GET of the URL *)
Variable http_NewRequest : string -> Result unit.
(** [http.DefaultClient.Do]: status code and body *)
Variable http_Do : string -> Result (Z * string).
(** [xml.NewDecoder(body).Decode] into an entity descriptor *)
Variable xml_Decode : string -> Result EntityDescriptor.

(** [saml.ServiceProvider], the fields [NewProvider] sets; the two URLs
    are kept as the text that was parsed. *)
Record ServiceProvider : Type := mkServiceProvider {
  EntityID : string;
  Key : PrivateKey;
  Certificate_ : Certificate;
  MetadataURL : string;
  AcsURL : string;
  IDPMetadata : EntityDescriptor;
  AllowIDPInitiated : bool
}.

(** The methods of a service provider *)
Variable service : ServiceProvider -> Calls.

Definition fetchIDPMetadata (cfg : SAMLConfig.t) : Result EntityDescriptor :=
  if negb (String.eqb (SAMLConfig.IDPMetadataXML cfg) "")
  then
    match xml_Unmarshal (SAMLConfig.IDPMetadataXML cfg) with
    | Err e => Err ("failed to parse IdP metadata XML: " ++ e)
    | Ok metadata => Ok metadata
    end
  else if negb (String.eqb (SAMLConfig.IDPMetadataURL cfg) "")
  then
    match http_NewRequest (SAMLConfig.IDPMetadataURL cfg) with
    | Err e => Err ("failed to create metadata request: " ++ e)
    | Ok _ =>
        match http_Do (SAMLConfig.IDPMetadataURL cfg) with
        | Err e => Err ("failed to fetch metadata: " ++ e)
        | Ok (status, body) =>
            if negb (status =? 200)
            then Err ("metadata request returned status " ++ pretty status)
            else
              match xml_Decode body with
              | Err e => Err ("failed to decode metadata: " ++ e)
              | Ok metadata => Ok metadata
              end
        end
    end
  else Err "either idp_metadata_url or idp_metadata_xml must be provided".

(** The private key of [NewProvider]: PKCS#1, or else PKCS#8 with an RSA
    key. *)
Definition parse_key (keyBlock : bytes) : Result PrivateKey :=
  match x509_ParsePKCS1PrivateKey keyBlock with
  | Ok key => Ok key
  | Err e =>
      match x509_ParsePKCS8PrivateKey keyBlock with
      | Err e8 =>
          Err ("failed to parse private key: " ++ e8 ++ " (PKCS1: " ++ e ++ ")")
      | Ok None => Err "private key is not RSA"
      | Ok (Some key) => Ok key
      end
  end.

Definition NewProvider (providerCfg : ProviderConfig.t) (baseURL : string)
  : Result Provider :=
  match ProviderConfig.SAML providerCfg with
  | None => Err "SAML config is required"
  | Some m =>
      match ReadFile (SAMLConfig.CertificatePath m) with
      | Err e => Err ("failed to read certificate: " ++ e)
      | Ok certData =>
          match ReadFile (SAMLConfig.PrivateKeyPath m) with
          | Err e => Err ("failed to read private key: " ++ e)
          | Ok keyData =>
              match pem_Decode certData with
              | None => Err "failed to decode certificate PEM"
              | Some certBlock =>
                  match x509_ParseCertificate certBlock with
                  | Err e => Err ("failed to parse certificate: " ++ e)
                  | Ok cert =>
                      match pem_Decode keyData with
                      | None => Err "failed to decode private key PEM"
                      | Some keyBlock =>
                          match parse_key keyBlock with
                          | Err e => Err e
                          | Ok key =>
                              match fetchIDPMetadata m with
                              | Err e =>
                                  Err ("failed to fetch IdP metadata: " ++ e)
                              | Ok idpMetadata =>
                                  match url_Parse (SAMLConfig.ACSURL m) with
                                  | Err e => Err ("invalid ACS URL: " ++ e)
                                  | Ok _ =>
                                      let metadataURL :=
                                        baseURL ++ "/auth/saml/"
                                          ++ ProviderConfig.ID providerCfg
                                          ++ "/metadata" in
                                      match url_Parse metadataURL with
                                      | Err e =>
                                          Err ("invalid metadata URL: " ++ e)
                                      | Ok _ =>
                                          let sp :=
                                            mkServiceProvider
                                              (SAMLConfig.SPEntityID m)
                                              key cert metadataURL
                                              (SAMLConfig.ACSURL m)
                                              idpMetadata true in
                                          Ok (mkProvider
                                                (ProviderConfig.ID providerCfg)
                                                (ProviderConfig.Name providerCfg)
                                                m
                                                (ProviderConfig.HeaderMappings
                                                   providerCfg)
                                                (sp_MakeAuthenticationRequest
                                                   (service sp))
                                                (sp_Redirect (service sp))
                                                (sp_ParseResponse (service sp))
                                                (sp_Metadata (service sp)))
                                      end
                                  end
                              end
                          end
                      end
                  end
              end
          end
      end
  end.
End Construction.

End saml.

(** ** The provider interface and its two implementations *)

Inductive Provider : Type :=
| OIDCProvider (p : oidc.Provider)
| SAMLProvider (p : saml.Provider).

Module auth.
Definition ID (p : Provider) : string :=
  match p with OIDCProvider q => oidc.id q | SAMLProvider q => saml.id q end.

Definition Name (p : Provider) : string :=
  match p with OIDCProvider q => oidc.name q | SAMLProvider q => saml.name q end.

Definition Type_ (p : Provider) : string :=
  match p with OIDCProvider _ => "oidc" | SAMLProvider _ => "saml" end.

Definition GetHeaderMappings (p : Provider) : gmap string string :=
  match p with
  | OIDCProvider q => oidc.headerMappings q
  | SAMLProvider q => saml.headerMappings q
  end.

Section WithLib.
Context {L : Lib}.

(** A call of an interface method is recorded and dispatched. *)
Definition InitiateAuth (p : Provider) (redirectURL : string)
  : M (Result AuthRedirect.t) :=
  emit (CallInitiateAuth (ID p) redirectURL) ;;;
  match p with
  | OIDCProvider q => oidc.InitiateAuth q redirectURL
  | SAMLProvider q => saml.InitiateAuth q redirectURL
  end.

Definition HandleCallback (p : Provider) (req : Request.t)
  : M (Result Session.t) :=
  emit (CallHandleCallback (ID p)) ;;;
  match p with
  | OIDCProvider q => oidc.HandleCallback q req
  | SAMLProvider q => saml.HandleCallback q req
  end.

Definition ValidateSession (p : Provider) (session : Session.t)
  : M (Result unit) :=
  emit (CallValidateSession (ID p)) ;;;
  match p with
  | OIDCProvider q => oidc.ValidateSession q session
  | SAMLProvider q => saml.ValidateSession q session
  end.

Definition RefreshSession (p : Provider) (session : Session.t)
  : M (Result Session.t) :=
  emit (CallRefreshSession (ID p)) ;;;
  match p with
  | OIDCProvider q => oidc.RefreshSession q session
  | SAMLProvider q => saml.RefreshSession q session
  end.
End WithLib.
End auth.

(** ** package middleware *)

Definition Handler : Type := Request.t -> M unit.

Module middleware.
Section WithLib.
Context {L : Lib}.

Definition ValidateCSRF (next : Handler) : Handler := fun r =>
  if (String.eqb (Request.Method r) "POST"
      || String.eqb (Request.Method r) "PUT"
      || String.eqb (Request.Method r) "DELETE")%bool
  then
    let token := Request.FormValue r "csrf_token" in
    let token :=
      if String.eqb token ""
      then Header.Get (Request.Header_ r) "X-CSRF-Token"
      else token in
    if String.eqb token ""
    then http_Error "Missing CSRF token" StatusForbidden
    else
      let* found := cache.Exists_ ("csrf:" ++ token) in
      match found with
      | Err _ => http_Error "Internal server error" StatusInternalServerError
      | Ok false => http_Error "Invalid or expired CSRF token" StatusForbidden
      | Ok true =>
          cache.Delete ("csrf:" ++ token) ;;;
          next r
      end
  else next r.

Definition GenerateCSRFToken : M (Result string) :=
  let* tok := rand_Read_base64 in
  match tok with
  | Err e => ret (Err ("failed to generate CSRF token: " ++ e))
  | Ok token =>
      let* stored :=
        cache.Set_ ("csrf:" ++ token) (bytes_of "1") (10 * time.Minute) in
      match stored with
      | Err e => ret (Err e)
      | Ok _ => ret (Ok token)
      end
  end.

(** The refresh branch of [RequireAuth], entered when validation has
    failed. *)
Definition refresh_or_redirect (provider : Provider) (cookieValue : string)
    (session : Session.t) (next : Handler) (r : Request.t) : M unit :=
  if String.eqb (Session.ProviderType session) "oidc"
  then
    let* remaining := time_Until (Session.TokenExpiry session) in
    if remaining <? 5 * time.Minute
    then
      let* refreshed := auth.RefreshSession provider session in
      match refreshed with
      | Err _ => http_Redirect "/auth/select" StatusFound
      | Ok newSession =>
          match json_Marshal_Session newSession with
          | Err _ => http_Redirect "/auth/select" StatusFound
          | Ok sessionData =>
              let* ttl := time_Until (Session.ExpiresAt newSession) in
              cache.Set_ ("session:" ++ cookieValue) sessionData ttl ;;;
              next (Request.set_Context newSession r)
          end
      end
    else http_Redirect "/auth/select" StatusFound
  else http_Redirect "/auth/select" StatusFound.

Definition RequireAuth (cfg : ServerConfig.t)
    (providers : gmap string Provider) (next : Handler) : Handler := fun r =>
  match security.GetSessionCookie r (ServerConfig.CookieName cfg) with
  | Err _ => http_Redirect "/auth/select" StatusFound
  | Ok cookie =>
      let* got := cache.Get ("session:" ++ snd cookie) in
      match got with
      | Err _ => http_Redirect "/auth/select" StatusFound
      | Ok sessionData =>
          match json_Unmarshal_Session sessionData with
          | Err _ => http_Redirect "/auth/select" StatusFound
          | Ok session =>
              match providers !! Session.ProviderID session with
              | None => http_Redirect "/auth/select" StatusFound
              | Some provider =>
                  let* valid := auth.ValidateSession provider session in
                  match valid with
                  | Ok _ => next (Request.set_Context session r)
                  | Err _ =>
                      refresh_or_redirect provider (snd cookie) session next r
                  end
              end
          end
      end
  end.

(** [GetSession(ctx)] *)
Definition GetSession (r : Request.t) : option Session.t := Request.Context r.
End WithLib.
End middleware.

(** ** package proxy: the reverse proxy *)

Module ReverseProxy.
Record t : Type := mk {
  backendScheme : string;
  backendHost : string;
  cfg : BackendConfig.t;
  providers : gmap string Provider
}.

Section WithLib.
Context {L : Lib}.

Definition NewReverseProxy (cfg : BackendConfig.t)
    (providers : gmap string Provider) : Result t :=
  match url_Parse (BackendConfig.URL cfg) with
  | Err e => Err e
  | Ok (scheme, host) => Ok (mk scheme host cfg providers)
  end.

(** [Forward out] records the request as the director leaves it (host
    set to the backend's); the transport's own edits are not shown. *)
Definition ServeHTTP (rp : t) : Handler := fun r =>
  match middleware.GetSession r with
  | None => http_Error "Unauthorized" StatusUnauthorized
  | Some session =>
      match providers rp !! Session.ProviderID session with
      | None => http_Error "Internal server error" StatusInternalServerError
      | Some provider =>
          let h :=
            proxy.InjectHeaders
              (range_ _ (auth.GetHeaderMappings provider))
              (Request.Header_ r) session in
          let r := Request.set_Header h r in
          let r :=
            if BackendConfig.PreserveHost (cfg rp)
            then
              let host := Header.Get h "X-Forwarded-Host" in
              Request.set_Host
                (if String.eqb host "" then Header.Get h "Host" else host) r
            else r in
          let out := Request.set_Host (backendHost rp) r in
          emit (Forward out) ;;;
          match RoundTrip out with
          | Err _ => http_Error "Bad Gateway" StatusBadGateway
          | Ok (status, body) =>
              modify_resp (fun w =>
                ResponseWriter.Write body (ResponseWriter.WriteHeader status w))
          end
      end
  end.
End WithLib.
End ReverseProxy.

(** ** package handlers *)

Module handlers.
Section WithLib.
Context {L : Lib}.

Variable cfg : Config.t.
Variable providers : gmap string Provider.

(** The part of both callback handlers after the provider's
    [HandleCallback] has returned a session. *)
Definition issue_session (session : Session.t) (after : M unit) : M unit :=
  let* sessionID := uuid_New_String in
  let session := Session.set_ID sessionID session in
  match json_Marshal_Session session with
  | Err _ => http_Error "Internal server error" StatusInternalServerError
  | Ok sessionData =>
      let* ttl := time_Until (Session.ExpiresAt session) in
      let* stored := cache.Set_ ("session:" ++ sessionID) sessionData ttl in
      match stored with
      | Err _ => http_Error "Internal server error" StatusInternalServerError
      | Ok _ =>
          http_SetCookie
            (security.CreateSessionCookie ToLower (Config.Server cfg)
               sessionID ttl) ;;;
          after
      end
  end.

Definition HandleOIDCCallback (providerID : string) : Handler := fun r =>
  match providers !! providerID with
  | None => http_Error "Invalid provider" StatusBadRequest
  | Some provider =>
      let* res := auth.HandleCallback provider r in
      match res with
      | Err e => http_Error ("Authentication failed: " ++ e) StatusUnauthorized
      | Ok session => issue_session session (http_Redirect "/" StatusFound)
      end
  end.

Definition HandleSAMLCallback (providerID : string) : Handler := fun r =>
  match providers !! providerID with
  | None => http_Error "Invalid provider" StatusBadRequest
  | Some provider =>
      let* res := auth.HandleCallback provider r in
      match res with
      | Err e => http_Error ("Authentication failed: " ++ e) StatusUnauthorized
      | Ok session =>
          issue_session session
            (let relayState := Request.FormValue r "RelayState" in
             if negb (String.eqb relayState "")
             then http_Redirect relayState StatusFound
             else http_Redirect "/" StatusFound)
      end
  end.

(** [initiateAuthForProvider].  Both providers put [[]byte] into
    [CacheData], so the marshalling of other dynamic types is not
    reached. *)
Definition initiateAuthForProvider (provider : Provider) : Handler := fun r =>
  let redirectURL :=
    if String.eqb (auth.Type_ provider) "oidc"
    then ServerConfig.BaseURL (Config.Server cfg) ++ "/auth/oidc/"
           ++ auth.ID provider ++ "/callback"
    else ServerConfig.BaseURL (Config.Server cfg) ++ "/auth/saml/"
           ++ auth.ID provider ++ "/acs" in
  let* started := auth.InitiateAuth provider redirectURL in
  match started with
  | Err _ =>
      http_Error "Failed to initiate authentication" StatusInternalServerError
  | Ok authRedirect =>
      match AuthRedirect.CacheData authRedirect with
      | Some data_ =>
          if negb (String.eqb (AuthRedirect.CacheKey authRedirect) "")
          then
            let* stored :=
              cache.Set_ (AuthRedirect.CacheKey authRedirect) data_
                         (AuthRedirect.CacheTTL authRedirect) in
            match stored with
            | Err _ =>
                http_Error "Internal server error" StatusInternalServerError
            | Ok _ => http_Redirect (AuthRedirect.URL authRedirect) StatusFound
            end
          else http_Redirect (AuthRedirect.URL authRedirect) StatusFound
      | None => http_Redirect (AuthRedirect.URL authRedirect) StatusFound
      end
  end.

Definition render_select : Handler := fun r =>
  let* tok := middleware.GenerateCSRFToken in
  match tok with
  | Err _ => http_Error "Internal server error" StatusInternalServerError
  | Ok csrfToken =>
      let infos :=
        List.map (fun e => (auth.ID (snd e), auth.Name (snd e),
                            auth.Type_ (snd e)))
                 (range_ _ providers) in
      let logoURL :=
        if negb (String.eqb (UIConfig.LogoPath (Config.UI cfg)) "")
        then "/auth/select/logo" else "" in
      let page :=
        SelectPageData.mk infos csrfToken
          (UIConfig.Title (Config.UI cfg))
          (UIConfig.GradientStart (Config.UI cfg))
          (UIConfig.GradientEnd (Config.UI cfg))
          logoURL in
      modify_resp (ResponseWriter.set_Header "Content-Type"
                     "text/html; charset=utf-8") ;;;
      match template_Execute page with
      | Err _ => http_Error "Internal server error" StatusInternalServerError
      | Ok html => modify_resp (ResponseWriter.Write html)
      end
  end.

Definition handleGet : Handler := fun r =>
  if (Nat.eqb (size providers) 1
      && match UIConfig.Enable (Config.UI cfg) with
         | Some false => true
         | _ => false
         end)%bool
  then
    match range_ _ providers with
    | (_, provider) :: _ => initiateAuthForProvider provider r
    | [] => render_select r
    end
  else render_select r.

Definition handlePost : Handler := fun r =>
  match Request.ParseFormError r with
  | Some _ => http_Error "Invalid form data" StatusBadRequest
  | None =>
      let providerID := Request.FormValue r "provider" in
      if String.eqb providerID ""
      then http_Error "Provider is required" StatusBadRequest
      else
        match providers !! providerID with
        | None => http_Error "Invalid provider" StatusBadRequest
        | Some provider => initiateAuthForProvider provider r
        end
  end.

(** [SelectHandler.ServeHTTP] *)
Definition Select_ServeHTTP : Handler := fun r =>
  if String.eqb (Request.Method r) "GET" then handleGet r
  else if String.eqb (Request.Method r) "POST" then handlePost r
  else http_Error "Method not allowed" StatusMethodNotAllowed.

(** [LogoutHandler.ServeHTTP] *)
Definition Logout_ServeHTTP : Handler := fun r =>
  if negb (String.eqb (Request.Method r) "POST")
  then http_Error "Method not allowed" StatusMethodNotAllowed
  else
    (match security.GetSessionCookie r
             (ServerConfig.CookieName (Config.Server cfg)) with
     | Ok cookie =>
         cache.Delete ("session:" ++ snd cookie) ;;; ret tt
     | Err _ => ret tt
     end) ;;;
    http_SetCookie (security.ClearSessionCookie ToLower (Config.Server cfg)) ;;;
    http_Redirect "/auth/select" StatusFound.

(** [HealthHandler.ServeHTTP]; [startTime] is the clock reading taken
    when the handler was built. *)
Definition Health_ServeHTTP (startTime : time.Time) : Handler := fun r =>
  let* now := time_Now in
  let uptime := time.Sub now startTime in
  let* stored := cache.Set_ "health:check" (bytes_of "ok") (1 * time.Minute) in
  let* cacheStatus :=
    match stored with
    | Err e => ret ("error: " ++ e)
    | Ok _ => cache.Delete "health:check" ;;; ret "connected"
    end in
  let backendStatus :=
    match http_Get (BackendConfig.URL (Config.Backend cfg)) with
    | Err _ => "unreachable"
    | Ok _ => "reachable"
    end in
  let healthy :=
    (match stored with Ok _ => true | Err _ => false end
     && String.eqb backendStatus "reachable")%bool in
  let response :=
    HealthResponse.mk
      (if healthy then "healthy" else "degraded")
      uptime
      (CacheConfig.Type_ (Config.Cache cfg))
      cacheStatus
      (BackendConfig.URL (Config.Backend cfg))
      backendStatus
      ((fun p => auth.Name p ++ " (" ++ auth.Type_ p ++ ")") <$> providers) in
  modify_resp (ResponseWriter.set_Header "Content-Type" "application/json") ;;;
  (if healthy then ret tt
   else modify_resp (ResponseWriter.WriteHeader 503)) ;;;
  modify_resp (ResponseWriter.Write (json_Encode_Health response)).
End WithLib.
End handlers.

(** ** package server: the route table *)

Module server.
Section WithLib.
Context {L : Lib}.

Variable cfg : Config.t.
Variable providers : gmap string Provider.

Definition addSecurityHeaders (next : Handler) : Handler := fun r =>
  modify_resp (fun w =>
    ResponseWriter.set_Header "Referrer-Policy" "strict-origin-when-cross-origin"
      (ResponseWriter.set_Header "Strict-Transport-Security"
         "max-age=31536000; includeSubDomains"
         (ResponseWriter.set_Header "X-XSS-Protection" "1; mode=block"
            (ResponseWriter.set_Header "X-Content-Type-Options" "nosniff"
               (ResponseWriter.set_Header "X-Frame-Options" "DENY" w))))) ;;;
  next r.

Definition to_select : Handler := fun _ =>
  http_Redirect "/auth/select" StatusFound.

Definition serve_metadata (p : saml.Provider) : Handler := fun _ =>
  match saml.GetMetadata p with
  | Err _ =>
      http_Error "Failed to generate metadata" StatusInternalServerError
  | Ok xml =>
      modify_resp (ResponseWriter.set_Header "Content-Type" "application/xml") ;;;
      modify_resp (ResponseWriter.Write xml)
  end.

(** The patterns registered for one provider in the loop of
    [setupRoutes]; [Type()] is "oidc" for the one implementation and
    "saml" for the other. *)
Definition provider_routes (entry : string * Provider)
  : list (string * Handler) :=
  let '(id, provider) := entry in
  match provider with
  | OIDCProvider _ =>
      [ ("/auth/oidc/" ++ id ++ "/login", to_select);
        ("/auth/oidc/" ++ id ++ "/callback",
         handlers.HandleOIDCCallback cfg providers id) ]
  | SAMLProvider q =>
      [ ("/auth/saml/" ++ id ++ "/login", to_select);
        ("/auth/saml/" ++ id ++ "/acs",
         handlers.HandleSAMLCallback cfg providers id);
        ("/auth/saml/" ++ id ++ "/metadata", serve_metadata q) ]
  end.

Definition routes (rp : ReverseProxy.t) (startTime : time.Time)
  : list (string * Handler) :=
  [ ("/auth/select", handlers.Select_ServeHTTP cfg providers) ]
  ++ flat_map provider_routes (range_ _ providers)
  ++ [ ("/auth/logout",
        middleware.ValidateCSRF (handlers.Logout_ServeHTTP cfg));
       ("/health", handlers.Health_ServeHTTP cfg providers startTime);
       ("/", middleware.RequireAuth (Config.Server cfg) providers
               (ReverseProxy.ServeHTTP rp)) ].

(** [http.ServeMux] over patterns without wildcards, on a clean path: a
    pattern other than ["/"] matches the equal path only, ["/"] matches
    every path left. *)
Definition ServeMux (table : list (string * Handler)) : Handler := fun r =>
  match List.find (fun e => (String.eqb (fst e) (Request.Path r)
                             && negb (String.eqb (fst e) "/"))%bool) table with
  | Some e => snd e r
  | None =>
      match List.find (fun e => String.eqb (fst e) "/") table with
      | Some e => snd e r
      | None => http_Error "404 page not found" 404
      end
  end.

(** [setupRoutes].  The logging and recovery wrappers pass the request
    and the response through. *)
Definition setupRoutes : M (Result Handler) :=
  match template_ParseFS with
  | Err e => ret (Err e)
  | Ok _ =>
      let* startTime := time_Now in
      match ReverseProxy.NewReverseProxy (Config.Backend cfg) providers with
      | Err e => ret (Err e)
      | Ok rp => ret (Ok (addSecurityHeaders (ServeMux (routes rp startTime))))
      end
  end.
End WithLib.
End server.

(** Serving one request: the handler runs on a fresh response writer. *)
Definition begin (s : State) : State :=
  mkState (data s) (ticks s) (draws s) (trace s) ResponseWriter.empty.

Definition serve (h : Handler) (r : Request.t) (s : State) : State :=
  snd (h r (begin s)).

(** The events [s'] has after those of [s]. *)
Definition events_since (s s' : State) : list Event :=
  drop (List.length (trace s)) (trace s').

(** ** package config: validation

    The methods of [validation.go].  An [error] result is [Err] with the
    message; [fmt.Errorf] with [%w] puts the message of the wrapped error in
    its place. *)

Module validation.
Section WithLib.
Context {L : Lib}.

Definition validateServer (c : Config.t) : Result unit :=
  let s := Config.Server c in
  if ((ServerConfig.Port s <? 1) || (65535 <? ServerConfig.Port s))%bool
  then Err ("invalid port: " ++ pretty (ServerConfig.Port s))
  else if String.eqb (ServerConfig.BaseURL s) ""
  then Err "base_url is required"
  else
    match url_Parse (ServerConfig.BaseURL s) with
    | Err e => Err ("invalid base_url: " ++ e)
    | Ok _ =>
        let sameSite := ToLower (ServerConfig.CookieSameSite s) in
        if (negb (String.eqb sameSite "lax")
            && negb (String.eqb sameSite "strict")
            && negb (String.eqb sameSite "none"))%bool
        then Err ("invalid cookie_same_site: " ++ ServerConfig.CookieSameSite s
                  ++ " (must be lax, strict, or none)")
        else if ServerConfig.SessionTTL s <? time.Minute
        then Err "session_ttl must be at least 1 minute"
        else Ok tt
    end.

Definition validateBackend (c : Config.t) : Result unit :=
  let b := Config.Backend c in
  if String.eqb (BackendConfig.URL b) "" then Err "url is required"
  else
    match url_Parse (BackendConfig.URL b) with
    | Err e => Err ("invalid url: " ++ e)
    | Ok _ =>
        if BackendConfig.Timeout b <? 0 then Err "timeout must be positive"
        else Ok tt
    end.

Definition validateCache (c : Config.t) : Result unit :=
  let ca := Config.Cache c in
  if (negb (String.eqb (CacheConfig.Type_ ca) "memory")
      && negb (String.eqb (CacheConfig.Type_ ca) "redis"))%bool
  then Err ("invalid type: " ++ CacheConfig.Type_ ca
            ++ " (must be memory or redis)")
  else if String.eqb (CacheConfig.Type_ ca) "redis"
  then
    match CacheConfig.Redis ca with
    | None => Err "redis config is required when type is redis"
    | Some redis =>
        if String.eqb (RedisConfig.Address redis) ""
        then Err "redis address is required"
        else Ok tt
    end
  else Ok tt.

Definition validateOIDCConfig (providerID : string) (cfg : option OIDCConfig.t)
  : Result unit :=
  match cfg with
  | None => Err ("provider " ++ providerID ++ ": oidc config is required")
  | Some cfg =>
      if String.eqb (OIDCConfig.Issuer cfg) ""
      then Err ("provider " ++ providerID ++ ": issuer is required")
      else
        match url_Parse (OIDCConfig.Issuer cfg) with
        | Err e =>
            Err ("provider " ++ providerID ++ ": invalid issuer URL: " ++ e)
        | Ok _ =>
            if String.eqb (OIDCConfig.ClientID cfg) ""
            then Err ("provider " ++ providerID ++ ": client_id is required")
            else if String.eqb (OIDCConfig.ClientSecret cfg) ""
            then Err ("provider " ++ providerID ++ ": client_secret is required")
            else if Nat.eqb (List.length (OIDCConfig.Scopes cfg)) 0
            then Err ("provider " ++ providerID
                      ++ ": at least one scope is required")
            else
              let hasOpenID :=
                existsb (fun scope => String.eqb scope "openid")
                        (OIDCConfig.Scopes cfg) in
              if negb hasOpenID
              then Err ("provider " ++ providerID
                        ++ ": 'openid' scope is required")
              else Ok tt
        end
  end.

Definition validateSAMLConfig (providerID : string) (cfg : option SAMLConfig.t)
  : Result unit :=
  match cfg with
  | None => Err ("provider " ++ providerID ++ ": saml config is required")
  | Some cfg =>
      if (String.eqb (SAMLConfig.IDPMetadataURL cfg) ""
          && String.eqb (SAMLConfig.IDPMetadataXML cfg) "")%bool
      then Err ("provider " ++ providerID
                ++ ": either idp_metadata_url or idp_metadata_xml is required")
      else
        match (if negb (String.eqb (SAMLConfig.IDPMetadataURL cfg) "")
               then url_Parse (SAMLConfig.IDPMetadataURL cfg)
               else Ok ("", "")) with
        | Err e =>
            Err ("provider " ++ providerID ++ ": invalid idp_metadata_url: " ++ e)
        | Ok _ =>
            if String.eqb (SAMLConfig.SPEntityID cfg) ""
            then Err ("provider " ++ providerID ++ ": sp_entity_id is required")
            else if String.eqb (SAMLConfig.ACSURL cfg) ""
            then Err ("provider " ++ providerID ++ ": acs_url is required")
            else
              match url_Parse (SAMLConfig.ACSURL cfg) with
              | Err e =>
                  Err ("provider " ++ providerID ++ ": invalid acs_url: " ++ e)
              | Ok _ =>
                  if String.eqb (SAMLConfig.CertificatePath cfg) ""
                  then Err ("provider " ++ providerID
                            ++ ": certificate_path is required")
                  else if String.eqb (SAMLConfig.PrivateKeyPath cfg) ""
                  then Err ("provider " ++ providerID
                            ++ ": private_key_path is required")
                  else Ok tt
              end
        end
  end.

(** The loop of [validateProviders] from index [i] on; [ids] is the map
    of the ids seen so far. *)
Fixpoint validateProviders_loop (i : nat) (ids : gmap string bool)
    (providers : list ProviderConfig.t) : Result unit :=
  match providers with
  | [] => Ok tt
  | provider :: rest =>
      let id := ProviderConfig.ID provider in
      if String.eqb id ""
      then Err ("provider " ++ pretty i ++ ": id is required")
      else if default false (ids !! id)
      then Err ("provider " ++ pretty i ++ ": duplicate id: " ++ id)
      else
        let ids := <[id := true]> ids in
        if String.eqb (ProviderConfig.Name provider) ""
        then Err ("provider " ++ id ++ ": name is required")
        else if (negb (String.eqb (ProviderConfig.Type_ provider) "oidc")
                 && negb (String.eqb (ProviderConfig.Type_ provider) "saml"))%bool
        then Err ("provider " ++ id ++ ": invalid type: "
                  ++ ProviderConfig.Type_ provider ++ " (must be oidc or saml)")
        else
          match (if String.eqb (ProviderConfig.Type_ provider) "oidc"
                 then validateOIDCConfig id (ProviderConfig.OIDC provider)
                 else Ok tt) with
          | Err e => Err e
          | Ok _ =>
              match (if String.eqb (ProviderConfig.Type_ provider) "saml"
                     then validateSAMLConfig id (ProviderConfig.SAML provider)
                     else Ok tt) with
              | Err e => Err e
              | Ok _ =>
                  if Nat.eqb (size (ProviderConfig.HeaderMappings provider)) 0
                  then Err ("provider " ++ id
                            ++ ": at least one header mapping is required")
                  else validateProviders_loop (S i) ids rest
              end
          end
  end.

Definition validateProviders (c : Config.t) : Result unit :=
  if Nat.eqb (List.length (Config.Providers c)) 0
  then Err "at least one provider is required"
  else validateProviders_loop 0 ∅ (Config.Providers c).

Definition validateLogging (c : Config.t) : Result unit :=
  let level := ToLower (LoggingConfig.Level (Config.Logging c)) in
  if (negb (String.eqb level "debug") && negb (String.eqb level "info")
      && negb (String.eqb level "warn") && negb (String.eqb level "error"))%bool
  then Err ("invalid level: " ++ LoggingConfig.Level (Config.Logging c)
            ++ " (must be debug, info, warn, or error)")
  else
    let format := ToLower (LoggingConfig.Format (Config.Logging c)) in
    if (negb (String.eqb format "json") && negb (String.eqb format "text"))%bool
    then Err ("invalid format: " ++ LoggingConfig.Format (Config.Logging c)
              ++ " (must be json or text)")
    else Ok tt.

Definition Validate (c : Config.t) : Result unit :=
  match validateServer c with
  | Err e => Err ("server config: " ++ e)
  | Ok _ =>
      match validateBackend c with
      | Err e => Err ("backend config: " ++ e)
      | Ok _ =>
          match validateCache c with
          | Err e => Err ("cache config: " ++ e)
          | Ok _ =>
              match validateProviders c with
              | Err e => Err ("providers config: " ++ e)
              | Ok _ =>
                  match validateLogging c with
                  | Err e => Err ("logging config: " ++ e)
                  | Ok _ => Ok tt
                  end
              end
          end
      end
  end.

End WithLib.
End validation.

(** ** package main: start-up

    [run], up to the call of [server.New]: the configuration and the
    provider registry the server is built from.  [server.New] does not fail;
    [Start] then serves the handler of [setupRoutes]. *)

Module main.
Section WithLib.
Context {L : Lib}.

Variable Getenv : string -> string.
Variable ReadFile : string -> Result bytes.
Variable yaml_Unmarshal : bytes -> Result Config.t.
Variable Ping : RedisConfig.t -> Result unit.
Variable Discover : string -> Result (string -> string -> list string -> oidc.Client).
Variable Certificate PrivateKey EntityDescriptor : Type.
Variable pem_Decode : bytes -> option bytes.
Variable x509_ParseCertificate : bytes -> Result Certificate.
Variable x509_ParsePKCS1PrivateKey : bytes -> Result PrivateKey.
Variable x509_ParsePKCS8PrivateKey : bytes -> Result (option PrivateKey).
Variable xml_Unmarshal : string -> Result EntityDescriptor.
Variable http_NewRequest : string -> Result unit.
Variable http_Do : string -> Result (Z * string).
Variable xml_Decode : string -> Result EntityDescriptor.
Variable service :
  saml.ServiceProvider Certificate PrivateKey EntityDescriptor -> saml.Calls.

(** The loop of [run] over [cfg.Providers]; [providers] is the registry
    built so far. *)
Fixpoint run_providers (baseURL : string) (l : list ProviderConfig.t)
    (providers : gmap string Provider) : Result (gmap string Provider) :=
  match l with
  | [] => Ok providers
  | providerCfg :: rest =>
      if String.eqb (ProviderConfig.Type_ providerCfg) "oidc"
      then
        match oidc.NewProvider Discover providerCfg with
        | Err e =>
            Err ("failed to create OIDC provider "
                 ++ ProviderConfig.ID providerCfg ++ ": " ++ e)
        | Ok provider =>
            run_providers baseURL rest
              (<[ProviderConfig.ID providerCfg := OIDCProvider provider]>
                 providers)
        end
      else if String.eqb (ProviderConfig.Type_ providerCfg) "saml"
      then
        match saml.NewProvider Certificate PrivateKey EntityDescriptor
                ReadFile pem_Decode x509_ParseCertificate
                x509_ParsePKCS1PrivateKey x509_ParsePKCS8PrivateKey
                xml_Unmarshal http_NewRequest http_Do xml_Decode service
                providerCfg baseURL with
        | Err e =>
            Err ("failed to create SAML provider "
                 ++ ProviderConfig.ID providerCfg ++ ": " ++ e)
        | Ok provider =>
            run_providers baseURL rest
              (<[ProviderConfig.ID providerCfg := SAMLProvider provider]>
                 providers)
        end
      else Err ("unsupported provider type: " ++ ProviderConfig.Type_ providerCfg)
  end.

Definition run (configPath : string)
  : Result (Config.t * gmap string Provider) :=
  match config.Load Getenv ReadFile yaml_Unmarshal configPath with
  | Err e => Err ("failed to load config: " ++ e)
  | Ok cfg =>
      match validation.Validate cfg with
      | Err e => Err ("invalid config: " ++ e)
      | Ok _ =>
          match cache.New Ping (Config.Cache cfg) with
          | Err e => Err ("failed to create cache: " ++ e)
          | Ok _ =>
              match run_providers (ServerConfig.BaseURL (Config.Server cfg))
                      (Config.Providers cfg) ∅ with
              | Err e => Err e
              | Ok providers => Ok (cfg, providers)
              end
          end
      end
  end.

End WithLib.
End main.

(** * A concrete environment

    One IdP of each kind, a clock that advances by a millisecond per
    reading, and codecs that know the few values the examples store. *)

Module Demo.

Definition T0 : time.Time := 1700000000 * time.Second.

Definition clock (n : nat) : time.Time := T0 + Z.of_nat n * 1000000.

Definition lower_ascii (c : ascii) : ascii :=
  if textproto.is_upper c then ascii_of_nat (nat_of_ascii c + 32) else c.

Fixpoint lower (s : string) : string :=
  match s with
  | EmptyString => EmptyString
  | String c rest => String (lower_ascii c) (lower rest)
  end.

Definition ids (n : nat) : string := "id-" ++ String.concat "" (replicate n "x").

Definition alice : gmap string Value :=
  {[ "email" := VString "alice@x.com" ]}.

(** A stored OIDC session whose deadline [T0] has just passed. *)
Definition expired_session : Session.t :=
  Session.mk "s1" "azure" "oidc" alice (T0 - time.Hour) T0
             "at-old" "rt-old" "idt" T0 "" "c1".

Definition expired_blob : bytes := bytes_of "session s1 of azure".

Definition flow_state : OIDCState.t :=
  OIDCState.mk "S" "azure" "verifier"
               "https://sso.example.com/auth/oidc/azure/callback" T0.

Definition flow_blob : bytes := bytes_of "flow state S of azure".

Definition bytes_eqb (a b : bytes) : bool :=
  String.eqb (string_of_list_byte a) (string_of_list_byte b).

#[local] Instance lib : Lib := {|
  ToLower := lower;
  Now := clock;
  uuid_String := ids;
  rand_token := fun n => Ok ("rnd-" ++ ids n);
  sha256_base64 := fun v => "h(" ++ v ++ ")";
  range_ := fun V m => map_to_list m;
  json_Marshal_Session := fun s =>
    Ok (bytes_of ("session " ++ Session.ID s ++ " of " ++ Session.ProviderID s));
  json_Unmarshal_Session := fun b =>
    if bytes_eqb b expired_blob then Ok expired_session
    else Err "unexpected end of JSON input";
  json_Marshal_OIDCState := fun st =>
    Ok (bytes_of ("flow state " ++ OIDCState.State st ++ " of "
                  ++ OIDCState.ProviderID st));
  json_Unmarshal_OIDCState := fun b =>
    if bytes_eqb b flow_blob then Ok flow_state
    else Err "unexpected end of JSON input";
  json_Marshal_SAMLRequest := fun rq =>
    Ok (bytes_of ("request " ++ SAMLRequest.ID rq));
  xml_Marshal_Assertion := fun _ => Ok "<Assertion/>";
  template_Execute := fun _ => Ok "<html/>";
  template_ParseFS := Ok tt;
  url_Parse := fun _ => Ok ("http", "backend:8000");
  RoundTrip := fun _ => Ok (200, "ok");
  http_Get := fun _ => Ok tt;
  json_Encode_Health := fun _ => "{}"
|}.

Definition token (expiry : time.Time) (rt : string) : Token.t :=
  Token.mk "at-new" rt expiry (Some "idt-new").

Definition azure : oidc.Provider :=
  oidc.mkProvider "azure" "Azure"
    (OIDCConfig.mk "https://login.example.com" "client" "secret" ["openid"] "")
    {[ "email" := "X-User-Email" ]}
    (fun redirect state challenge =>
       "https://login.example.com/authorize?state=" ++ state)
    (fun _ _ _ => Ok (token (T0 + time.Hour) "rt-1"))
    (fun _ => Ok (token (T0 + time.Hour) ""))
    (fun _ => Ok (bytes_of "claims"))
    (fun _ => Ok alice).

Definition assertion (notOnOrAfter : option time.Time) : Assertion.t :=
  Assertion.mk
    (Some (Subject.mk (Some (NameID.mk "bob" "emailAddress"))))
    (match notOnOrAfter with
     | Some t => Some (Conditions.mk T0 t)
     | None => None
     end)
    [[Attribute.mk "urn:oid:0.9.2342.19200300.100.1.3" ["bob@x.com"];
      Attribute.mk "groups" ["dev"; "ops"]]].

Definition okta (notOnOrAfter : option time.Time) : saml.Provider :=
  saml.mkProvider "okta" "Okta"
    (SAMLConfig.mk "" "<EntityDescriptor/>" "sp"
                   "https://sso.example.com/auth/saml/okta/acs" "c.pem" "k.pem")
    {[ "urn:oid:0.9.2342.19200300.100.1.3" := "X-User-Email" ]}
    (Ok tt)
    (fun id => Ok ("https://idp.example.com/sso?SAMLRequest=" ++ id))
    (fun _ => Ok (assertion notOnOrAfter))
    "<EntityDescriptor/>".

Definition providers : gmap string Provider :=
  {[ "azure" := OIDCProvider azure ]}.

Definition server_cfg : ServerConfig.t :=
  ServerConfig.mk "0.0.0.0" 8080 "https://sso.example.com" "sso-session" ""
                  false true "lax" (24 * time.Hour).

Definition cfg : Config.t :=
  Config.mk server_cfg
    (BackendConfig.mk "http://backend:8000" (30 * time.Second) false)
    (CacheConfig.mk "memory" None)
    []
    (LoggingConfig.mk "info" "json" "stdout")
    (UIConfig.mk (Some true) "Sign In" "#667eea" "#764ba2" "").

(** What the YAML decoder yields for a file that sets
    [cookie_http_only: false] and leaves the other cookie options out. *)
Definition file_cfg : Config.t :=
  Config.mk
    (ServerConfig.mk "" 0 "https://sso.example.com" "" "" false false "" 0)
    (Config.Backend cfg) (Config.Cache cfg) []
    (Config.Logging cfg) (Config.UI cfg).

Definition request (method path : string) (query form : list (string * string))
    (header : gmap string (list string)) (cookies : list (string * string))
  : Request.t :=
  Request.mk method path query form None header cookies "sso.example.com" None.

(** The callback of the flow [S], and a cache in which that flow is
    pending. *)
Definition callback_req : Request.t :=
  request "GET" "/auth/oidc/azure/callback" [("code", "C"); ("state", "S")]
          [] ∅ [].

Definition flow_pending : gmap string cacheItem.t :=
  {[ "oidc:state:S" := cacheItem.mk flow_blob (T0 + 5 * time.Minute) ]}.

Definition acs_req : Request.t :=
  request "POST" "/auth/saml/okta/acs" [] [("SAMLResponse", "PHNhbWw+")] ∅ [].

Definition state0 (d : gmap string cacheItem.t) : State :=
  mkState d 0 0 [] ResponseWriter.empty.

(** A request with the cookie of session [abc].  The stored session has
    the deadline [T0]; its cache entry, written one clock reading after its
    ttl was computed, lives a millisecond longer and is still there. *)
Definition dashboard_req : Request.t :=
  request "GET" "/dashboard" [] [] {[ "X-User-Email" := ["evil@x.com"] ]}
          [("sso-session", "abc")].

Definition session_stale : gmap string cacheItem.t :=
  {[ "session:abc" := cacheItem.mk expired_blob (T0 + 1000000) ]}.

Definition s_stale : State := state0 session_stale.

(** The reverse proxy that [NewReverseProxy] builds for the backend. *)
Definition backend : ReverseProxy.t :=
  ReverseProxy.mk "http" "backend:8000" (Config.Backend cfg) providers.

(** A provider pick and a logout, both without any CSRF token. *)
Definition select_post : Request.t :=
  request "POST" "/auth/select" [] [("provider", "azure")] ∅ [].

Definition logout_post : Request.t :=
  request "POST" "/auth/logout" [] [] ∅ [("sso-session", "abc")].

(** The state in which the callback of flow [S] arrives. *)
Definition s_pending : State := state0 flow_pending.

Definition oidc_callback : Handler :=
  handlers.HandleOIDCCallback (L := lib) cfg providers "azure".

End Demo.

(** * A second environment: one login from the provider pick to a proxied
    request

    The environment of [Demo], with codecs that know the flow state and the
    session of this login. *)

Module Tour.

(** The flow state the pick of [azure] stores in the initial state. *)
Definition flow : OIDCState.t :=
  OIDCState.mk "id-x" "azure" "rnd-id-"
               "https://sso.example.com/auth/oidc/azure/callback" Demo.T0.

Definition flow_blob : bytes := bytes_of "flow state id-x of azure".

(** The session the callback of that flow stores. *)
Definition session : Session.t :=
  Session.mk "id-xxxx" "azure" "oidc" Demo.alice (Demo.clock 3)
             (Demo.T0 + time.Hour) "at-new" "rt-1" "idt-new"
             (Demo.T0 + time.Hour) "" "id-xxx".

Definition session_blob : bytes := bytes_of "session id-xxxx of azure".

#[local] Instance lib : Lib := {|
  ToLower := Demo.lower;
  Now := Demo.clock;
  uuid_String := Demo.ids;
  rand_token := fun n => Ok ("rnd-" ++ Demo.ids n);
  sha256_base64 := fun v => "h(" ++ v ++ ")";
  range_ := fun V m => map_to_list m;
  json_Marshal_Session := fun s =>
    Ok (bytes_of ("session " ++ Session.ID s ++ " of " ++ Session.ProviderID s));
  json_Unmarshal_Session := fun b =>
    if Demo.bytes_eqb b session_blob then Ok session
    else Err "unexpected end of JSON input";
  json_Marshal_OIDCState := fun st =>
    Ok (bytes_of ("flow state " ++ OIDCState.State st ++ " of "
                  ++ OIDCState.ProviderID st));
  json_Unmarshal_OIDCState := fun b =>
    if Demo.bytes_eqb b flow_blob then Ok flow
    else Err "unexpected end of JSON input";
  json_Marshal_SAMLRequest := fun rq =>
    Ok (bytes_of ("request " ++ SAMLRequest.ID rq));
  xml_Marshal_Assertion := fun _ => Ok "<Assertion/>";
  template_Execute := fun _ => Ok "<html/>";
  template_ParseFS := Ok tt;
  url_Parse := fun _ => Ok ("http", "backend:8000");
  RoundTrip := fun _ => Ok (200, "ok");
  http_Get := fun _ => Ok tt;
  json_Encode_Health := fun _ => "{}"
|}.

(** The callback of the flow, and a later request with the cookie of the
    session. *)
Definition callback_req : Request.t :=
  Demo.request "GET" "/auth/oidc/azure/callback"
               [("code", "C"); ("state", "id-x")] [] ∅ [].

Definition dashboard_req : Request.t :=
  Demo.request "GET" "/dashboard" [] [] ∅ [("sso-session", "id-xxxx")].

(** A store that holds the session. *)
Definition logged_in : gmap string cacheItem.t :=
  {[ "session:id-xxxx" := cacheItem.mk session_blob (Demo.T0 + time.Hour) ]}.

(** An IdP that has revoked the refresh token. *)
Definition azure_revoked : oidc.Provider :=
  oidc.mkProvider "azure" "Azure" (oidc.cfg Demo.azure)
    (oidc.headerMappings Demo.azure) (oidc.AuthCodeURL Demo.azure)
    (oidc.Exchange Demo.azure) (fun _ => Err "invalid_grant")
    (oidc.Verify Demo.azure) (oidc.Claims Demo.azure).

(** A POST with a CSRF token, and a store that holds the token. *)
Definition csrf_post : Request.t :=
  Demo.request "POST" "/auth/logout" [] [("csrf_token", "tok")] ∅ [].

Definition csrf_store : gmap string cacheItem.t :=
  {[ "csrf:tok" := cacheItem.mk (bytes_of "1") (Demo.T0 + 10 * time.Minute) ]}.

(** The registry with the SAML provider, and the configuration with the
    selection page switched off. *)
Definition saml_providers : gmap string Provider :=
  {[ "okta" := SAMLProvider (Demo.okta (Some (Demo.T0 + time.Hour))) ]}.

Definition cfg_direct : Config.t :=
  Config.mk (Config.Server Demo.cfg) (Config.Backend Demo.cfg)
    (Config.Cache Demo.cfg) []
    (Config.Logging Demo.cfg)
    (UIConfig.mk (Some false) "Sign In" "#667eea" "#764ba2" "").

(** What the YAML decoder yields for a file that names the base URL, the
    backend and one OIDC provider and leaves everything else out; and the
    same after [Load]. *)
Definition azure_entry : ProviderConfig.t :=
  ProviderConfig.mk "azure" "Azure" "oidc"
    (Some (OIDCConfig.mk "https://login.example.com" "client" "secret"
                         ["openid"; "email"] ""))
    None
    {[ "email" := "X-User-Email" ]}.

Definition okta_entry : ProviderConfig.t :=
  ProviderConfig.mk "okta" "Okta" "saml" None
    (Some (SAMLConfig.mk "" "<EntityDescriptor/>" "sp"
                         "https://sso.example.com/auth/saml/okta/acs"
                         "c.pem" "k.pem"))
    {[ "urn:oid:0.9.2342.19200300.100.1.3" := "X-User-Email" ]}.

Definition minimal_file : Config.t :=
  Config.mk
    (ServerConfig.mk "" 0 "https://sso.example.com" "" "" false false "" 0)
    (BackendConfig.mk "http://backend:8000" 0 false)
    (CacheConfig.mk "" None)
    [azure_entry; okta_entry]
    (LoggingConfig.mk "" "" "")
    (UIConfig.mk None "" "" "" "").

Definition loaded : Config.t := config.setDefaults minimal_file.

(** The platform of the start-up: every file and every endpoint answers. *)
Definition client : oidc.Client :=
  oidc.mkClient (oidc.AuthCodeURL Demo.azure) (oidc.Exchange Demo.azure)
    (oidc.TokenSource_Token Demo.azure) (oidc.Verify Demo.azure)
    (oidc.Claims Demo.azure).

Definition calls (sp : saml.ServiceProvider unit unit string) : saml.Calls :=
  saml.mkCalls (Ok tt)
    (fun id => Ok ("https://idp.example.com/sso?SAMLRequest=" ++ id))
    (fun _ => Ok (Demo.assertion None))
    (saml.MetadataURL _ _ _ sp).

Definition start (path : string)
  : Result (Config.t * gmap string Provider) :=
  main.run (L := lib)
    (fun _ => "") (fun _ => Ok (bytes_of "pem")) (fun _ => Ok minimal_file)
    (fun _ => Ok tt) (fun _ => Ok (fun _ _ _ => client))
    unit unit string
    (fun b => Some b) (fun _ => Ok tt) (fun _ => Ok tt) (fun _ => Ok (Some tt))
    (fun xml => Ok xml) (fun _ => Ok tt) (fun _ => Ok (200, "<EntityDescriptor/>"))
    (fun body => Ok body) calls path.

Definition okta_built : Result saml.Provider :=
  saml.NewProvider (L := lib) unit unit string
    (fun _ => Ok (bytes_of "pem")) (fun b => Some b) (fun _ => Ok tt)
    (fun _ => Ok tt) (fun _ => Ok (Some tt)) (fun xml => Ok xml)
    (fun _ => Ok tt) (fun _ => Ok (200, "<EntityDescriptor/>"))
    (fun body => Ok body) calls okta_entry "https://sso.example.com".

End Tour.

(** * Vocabulary of the properties *)

(** The mapping entry [m] makes the loop set the header stored under
    [key]. *)
Definition sets_key (session : Session.t) (key : string) (m : string * string)
  : Prop :=
  exists value,
    Session.UserInfo session !! fst m = Some value
    /\ proxy.formatHeaderValue value <> ""
    /\ textproto.CanonicalMIMEHeaderKey (snd m) = key.

(** A downstream handler that only adds events and never refreshes. *)
Definition quiet (next : Handler) : Prop :=
  forall (r : Request.t) (s : State),
    exists evs : list Event,
      trace (snd (next r s)) = (trace s ++ evs)%list
      /\ forall pid : string, CallRefreshSession pid ∉ evs.

(** The events of a refresh attempt. *)
Definition is_refresh (e : Event) : bool :=
  match e with
  | CallRefreshSession _ | TokenRefresh _ => true
  | _ => false
  end.

(** Every cookie a handler adds to a response without cookies carries
    HttpOnly. *)
Definition http_only_cookies (h : Handler) : Prop :=
  forall (r : Request.t) (s : State) (c : Cookie.t),
    ResponseWriter.SetCookies (resp s) = [] ->
    c ∈ ResponseWriter.SetCookies (resp (snd (h r s))) ->
    Cookie.HttpOnly c = true.

(** The token a request presents to the CSRF gate: the form field, or
    failing that the header. *)
Definition presented_token (r : Request.t) : string :=
  if String.eqb (Request.FormValue r "csrf_token") ""
  then Header.Get (Request.Header_ r) "X-CSRF-Token"
  else Request.FormValue r "csrf_token".

(** The methods the CSRF gate checks. *)
Definition gated (r : Request.t) : bool :=
  (String.eqb (Request.Method r) "POST"
   || String.eqb (Request.Method r) "PUT"
   || String.eqb (Request.Method r) "DELETE")%bool.

(** The cache operations that look at or remove an entry. *)
Definition is_cache_read (e : Event) : bool :=
  match e with
  | CacheGet _ | CacheExists _ | CacheDelete _ => true
  | _ => false
  end.

(** The claim value an attribute with values yields. *)
Definition attribute_claim (attr : Attribute.t) : Value :=
  match Attribute.Values attr with
  | [v] => VString v
  | vs => VStrings vs
  end.

(** The attribute named [name] carries at least one value. *)
Definition names_claim (name : string) (attr : Attribute.t) : bool :=
  (String.eqb (Attribute.Name attr) name
   && match Attribute.Values attr with [] => false | _ => true end)%bool.

(** The claims of the subject's NameID. *)
Definition subject_claims (assertion : Assertion.t) : gmap string Value :=
  match Assertion.Subject_ assertion with
  | Some (Subject.mk (Some nid)) =>
      {[ "name_id" := VString (NameID.Value nid);
         "name_id_format" := VString (NameID.Format nid) ]}
  | _ => ∅
  end.

(** The header names [InjectHeaders] may write. *)
Definition written_keys (order : list (string * string)) : list string :=
  List.map (fun m => textproto.CanonicalMIMEHeaderKey (snd m)) order
  ++ ["X-Auth-Provider"; "X-Auth-Provider-Type"; "X-Auth-Session-Id"].

Section FlowVocabulary.
Context {L : Lib}.
Variable cfg : Config.t.
Variable q : oidc.Provider.

(** The callback URL the selection handler hands to the provider. *)
Definition callback_url : string :=
  ServerConfig.BaseURL (Config.Server cfg) ++ "/auth/oidc/" ++ oidc.id q
    ++ "/callback".

(** The flow state [InitiateAuth] builds in state [s] for the verifier
    drawn there. *)
Definition flow_of (s : State) (verifier : string) : OIDCState.t :=
  OIDCState.mk (uuid_String (S (draws s))) (oidc.id q) verifier callback_url
               (Now (ticks s)).

(** The state a successful provider pick leaves. *)
Definition picked (s : State) (blob : bytes) (location : string) : State :=
  mkState
    (<["oidc:state:" ++ uuid_String (S (draws s)) :=
         cacheItem.mk blob (time.Add (Now (S (ticks s))) (5 * time.Minute))]>
       (data s))
    (S (S (ticks s))) (S (S (draws s)))
    (trace s ++ [CallInitiateAuth (oidc.id q) callback_url;
                 CacheSet ("oidc:state:" ++ uuid_String (S (draws s))) blob
                          (5 * time.Minute)])
    (ResponseWriter.WriteHeader StatusFound
       (ResponseWriter.set_Header "Location" location (resp s))).

End FlowVocabulary.

(** A valid configuration, as [Validate] understands it. *)
Section Valid.
Context {L : Lib}.

Definition parses (u : string) : Prop := exists r, url_Parse u = Ok r.

Definition server_ok (s : ServerConfig.t) : Prop :=
  1 <= ServerConfig.Port s <= 65535
  /\ ServerConfig.BaseURL s <> ""
  /\ parses (ServerConfig.BaseURL s)
  /\ ToLower (ServerConfig.CookieSameSite s) ∈ ["lax"; "strict"; "none"]
  /\ time.Minute <= ServerConfig.SessionTTL s.

Definition backend_ok (b : BackendConfig.t) : Prop :=
  BackendConfig.URL b <> ""
  /\ parses (BackendConfig.URL b)
  /\ 0 <= BackendConfig.Timeout b.

Definition cache_ok (c : CacheConfig.t) : Prop :=
  CacheConfig.Type_ c = "memory"
  \/ (CacheConfig.Type_ c = "redis"
      /\ exists redis, CacheConfig.Redis c = Some redis
                       /\ RedisConfig.Address redis <> "").

Definition oidc_ok (o : OIDCConfig.t) : Prop :=
  OIDCConfig.Issuer o <> ""
  /\ parses (OIDCConfig.Issuer o)
  /\ OIDCConfig.ClientID o <> ""
  /\ OIDCConfig.ClientSecret o <> ""
  /\ "openid" ∈ OIDCConfig.Scopes o.

Definition saml_ok (m : SAMLConfig.t) : Prop :=
  (SAMLConfig.IDPMetadataURL m <> "" \/ SAMLConfig.IDPMetadataXML m <> "")
  /\ (SAMLConfig.IDPMetadataURL m <> "" -> parses (SAMLConfig.IDPMetadataURL m))
  /\ SAMLConfig.SPEntityID m <> ""
  /\ SAMLConfig.ACSURL m <> ""
  /\ parses (SAMLConfig.ACSURL m)
  /\ SAMLConfig.CertificatePath m <> ""
  /\ SAMLConfig.PrivateKeyPath m <> "".

Definition provider_ok (p : ProviderConfig.t) : Prop :=
  ProviderConfig.ID p <> ""
  /\ ProviderConfig.Name p <> ""
  /\ ProviderConfig.HeaderMappings p <> ∅
  /\ ((ProviderConfig.Type_ p = "oidc"
       /\ exists o, ProviderConfig.OIDC p = Some o /\ oidc_ok o)
      \/ (ProviderConfig.Type_ p = "saml"
          /\ exists m, ProviderConfig.SAML p = Some m /\ saml_ok m)).

Definition logging_ok (l : LoggingConfig.t) : Prop :=
  ToLower (LoggingConfig.Level l) ∈ ["debug"; "info"; "warn"; "error"]
  /\ ToLower (LoggingConfig.Format l) ∈ ["json"; "text"].

Definition valid (c : Config.t) : Prop :=
  server_ok (Config.Server c)
  /\ backend_ok (Config.Backend c)
  /\ cache_ok (Config.Cache c)
  /\ Config.Providers c <> []
  /\ NoDup (ProviderConfig.ID <$> Config.Providers c)
  /\ Forall provider_ok (Config.Providers c)
  /\ logging_ok (Config.Logging c).

End Valid.

(** The provider carries what its configuration entry says. *)
Definition built_from (pc : ProviderConfig.t) (p : Provider) : Prop :=
  auth.ID p = ProviderConfig.ID pc
  /\ auth.Name p = ProviderConfig.Name pc
  /\ auth.Type_ p = ProviderConfig.Type_ pc
  /\ auth.GetHeaderMappings p = ProviderConfig.HeaderMappings pc.

(** * Properties *)

(** Case analysis on the innermost scrutinee that is still stuck. *)
Ltac step :=
  match goal with
  | |- context [match ?x with _ => _ end] =>
      lazymatch x with
      | context [match _ with _ => _ end] => fail
      | _ => destruct x eqn:?
      end
  end.

Ltac run := cbn -[String.append Z.mul] in *.

Ltac steps := repeat (step; run; try discriminate).

(** Brings [events_since] of a finished run to the list of its events. *)
Ltac events :=
  unfold events_since; cbn [trace];
  repeat rewrite <- app_assoc;
  rewrite ?drop_app_length; cbn [app].

(** Quick checks of the canonical header key. *)
Example canonical_session_id :
  textproto.CanonicalMIMEHeaderKey "X-Auth-Session-ID" = "X-Auth-Session-Id".
Proof. reflexivity. Qed.

Example canonical_lower :
  textproto.CanonicalMIMEHeaderKey "x-user-email" = "X-User-Email".
Proof. reflexivity. Qed.

Example canonical_space :
  textproto.CanonicalMIMEHeaderKey "x user" = "x user".
Proof. reflexivity. Qed.

(** ** Facts about durations *)

Lemma Sub_lt_iff (t u : time.Time) (d : time.Duration) :
  time.minDuration < d <= time.maxDuration ->
  (time.Sub t u < d <-> t - u < d).
Proof.
  unfold time.Sub, time.minDuration, time.maxDuration.
  intros Hd. repeat case_match; lia.
Qed.

Lemma Sub_exact (t u : time.Time) :
  time.minDuration <= t - u <= time.maxDuration -> time.Sub t u = t - u.
Proof.
  unfold time.Sub, time.minDuration, time.maxDuration.
  intros Hd. repeat case_match; lia.
Qed.

(** ** Configuration defaults and the cookie flags *)

Lemma setDefaults_HTTPOnly (c : Config.t) :
  ServerConfig.CookieHTTPOnly (Config.Server (config.setDefaults c)) = true.
Proof.
  cbn. destruct (ServerConfig.CookieHTTPOnly (Config.Server c)); reflexivity.
Qed.

Lemma loadSecrets_Server (getenv : string -> string) (c : Config.t) :
  Config.Server (config.loadSecretsFromEnv getenv c) = Config.Server c.
Proof. reflexivity. Qed.

(** ** The OIDC provider: refresh and expiry *)

Section OIDC.
Context {L : Lib}.

Lemma apply_token_fields (p : oidc.Provider) (session session' : Session.t)
    (newToken : Token.t) :
  oidc.apply_token p session newToken = Ok session' ->
  Session.AccessToken session' = Token.AccessToken newToken
  /\ Session.TokenExpiry session' = Token.Expiry newToken
  /\ Session.ExpiresAt session' = Token.Expiry newToken
  /\ Session.RefreshToken session' =
       (if String.eqb (Token.RefreshToken newToken) ""
        then Session.RefreshToken session
        else Token.RefreshToken newToken).
Proof.
  unfold oidc.apply_token.
  destruct (Token.id_token newToken) as [raw|].
  - destruct (oidc.Verify p raw) as [idt|e]; [|discriminate].
    destruct (oidc.Claims p idt) as [claims|e]; [|discriminate].
    cbn. intros [= <-]. destruct (String.eqb (Token.RefreshToken newToken) "");
      cbn; auto.
  - cbn. intros [= <-]. destruct (String.eqb (Token.RefreshToken newToken) "");
      cbn; auto.
Qed.

Lemma RefreshSession_ok (p : oidc.Provider) (session session' : Session.t)
    (s : State) :
  fst (oidc.RefreshSession p session s) = Ok session' ->
  exists newToken,
    oidc.TokenSource_Token p (Session.RefreshToken session) = Ok newToken
    /\ oidc.apply_token p session newToken = Ok session'.
Proof.
  unfold oidc.RefreshSession.
  destruct (String.eqb (Session.RefreshToken session) ""); [discriminate|].
  cbn. destruct (oidc.TokenSource_Token p (Session.RefreshToken session))
    as [newToken|e]; [|discriminate].
  cbn. intros Hok. exists newToken. split; [reflexivity|exact Hok].
Qed.

Lemma HandleCallback_expiry (p : oidc.Provider) (req : Request.t) (s : State)
    (session : Session.t) :
  fst (oidc.HandleCallback p req s) = Ok session ->
  Session.ExpiresAt session = Session.TokenExpiry session.
Proof.
  unfold oidc.HandleCallback, oidc.exchange_and_verify.
  repeat case_match; cbn; try discriminate.
  all: repeat case_match; cbn; try discriminate.
  all: intros [= <-]; reflexivity.
Qed.

End OIDC.

(** C7.  When [RefreshSession] succeeds, the IdP has returned a token; the
    session then carries that token's access token and expiry, and its
    refresh token is the new one if the response has a non-empty
    [refresh_token] and the old one otherwise. *)
Theorem C7_refresh_token_rotation
    (p : oidc.Provider) (session session' : Session.t) (s : State) :
  fst (oidc.RefreshSession p session s) = Ok session' ->
  exists newToken,
    oidc.TokenSource_Token p (Session.RefreshToken session) = Ok newToken
    /\ (Token.RefreshToken newToken <> "" ->
        Session.RefreshToken session' = Token.RefreshToken newToken)
    /\ (Token.RefreshToken newToken = "" ->
        Session.RefreshToken session' = Session.RefreshToken session)
    /\ Session.AccessToken session' = Token.AccessToken newToken
    /\ Session.TokenExpiry session' = Token.Expiry newToken.
Proof.
  intros Hok. destruct (RefreshSession_ok p session session' s Hok)
    as (newToken & Htok & Happly).
  exists newToken. split; [exact Htok|].
  destruct (apply_token_fields p session session' newToken Happly)
    as (Hat & Hte & _ & Hrt).
  repeat split; try assumption.
  - intros Hne. rewrite Hrt. apply String.eqb_neq in Hne. now rewrite Hne.
  - intros Heq. rewrite Hrt, Heq. reflexivity.
Qed.

(** The demo IdP answers a refresh without a new refresh token: the old one
    stays, the access token and the expiry are the new ones. *)
Lemma C7_witness :
  exists session',
    fst (oidc.RefreshSession Demo.azure Demo.expired_session (Demo.state0 ∅))
    = Ok session'
    /\ Session.RefreshToken session' = "rt-old"
    /\ Session.AccessToken session' = "at-new"
    /\ Session.TokenExpiry session' = Demo.T0 + time.Hour.
Proof.
  eexists. split; [reflexivity|].
  destruct (C7_refresh_token_rotation Demo.azure Demo.expired_session _
              (Demo.state0 ∅) eq_refl) as (tok & Htok & _ & Hold & Hat & Hte).
  injection Htok as <-.
  split; [exact (Hold eq_refl)|]. split; [exact Hat|exact Hte].
Defined.

(** C9.  Every session that the OIDC provider returns from [HandleCallback]
    or from [RefreshSession] has [ExpiresAt] equal to [TokenExpiry]: both
    are assigned the expiry of the token.  A session whose deadline lies
    after its token expiry does not come out of the provider. *)
Theorem C9_expires_at_is_token_expiry {L : Lib} (p : oidc.Provider) :
  (forall req s session,
     fst (oidc.HandleCallback p req s) = Ok session ->
     Session.ExpiresAt session = Session.TokenExpiry session)
  /\ (forall session s session',
        fst (oidc.RefreshSession p session s) = Ok session' ->
        Session.ExpiresAt session' = Session.TokenExpiry session').
Proof.
  split.
  - intros req s session. apply HandleCallback_expiry.
  - intros session s session' Hok.
    destruct (RefreshSession_ok p session session' s Hok) as (tok & _ & Happly).
    destruct (apply_token_fields p session session' tok Happly)
      as (_ & Hte & Hex & _).
    congruence.
Qed.

(** The demo callback succeeds and the two fields of its session agree. *)
Lemma C9_witness :
  exists session,
    fst (oidc.HandleCallback (L := Demo.lib) Demo.azure Demo.callback_req
           (Demo.state0 Demo.flow_pending)) = Ok session
    /\ Session.ExpiresAt session = Demo.T0 + time.Hour
    /\ Session.ExpiresAt session = Session.TokenExpiry session.
Proof.
  eexists. split; [vm_compute; reflexivity|]. split; [reflexivity|].
  apply (proj1 (C9_expires_at_is_token_expiry (L := Demo.lib) Demo.azure)
           Demo.callback_req (Demo.state0 Demo.flow_pending)).
  vm_compute; reflexivity.
Defined.

(** ** The SAML provider: the session of a callback *)

(** C8.  When the SAML [HandleCallback] succeeds, the response has been
    parsed into an assertion and the session has the provider's id, kind
    [saml], the claims extracted from the assertion, [CreatedAt] equal to
    the clock reading taken when the session is built, and [ExpiresAt]
    equal to [Conditions.NotOnOrAfter] when the assertion has conditions
    with a non-zero [NotOnOrAfter], and to the clock reading taken for the
    default plus 24 hours otherwise. *)
Theorem C8_saml_session_fields {L : Lib}
    (p : saml.Provider) (req : Request.t) (s : State) (session : Session.t) :
  fst (saml.HandleCallback p req s) = Ok session ->
  exists assertion,
    saml.ParseResponse p req = Ok assertion
    /\ Session.ProviderID session = saml.id p
    /\ Session.ProviderType session = "saml"
    /\ Session.UserInfo session = saml.extract_claims assertion
    /\ Session.CreatedAt session = Now (S (ticks s))
    /\ Session.ExpiresAt session =
         match Assertion.Conditions_ assertion with
         | Some c =>
             if time.IsZero (Conditions.NotOnOrAfter c)
             then Now (ticks s) + 24 * time.Hour
             else Conditions.NotOnOrAfter c
         | None => Now (ticks s) + 24 * time.Hour
         end.
Proof.
  unfold saml.HandleCallback.
  destruct (Request.ParseFormError req); [discriminate|].
  destruct (String.eqb _ ""); [discriminate|].
  destruct (saml.ParseResponse p req) as [assertion|e]; [|discriminate].
  destruct (xml_Marshal_Assertion assertion) as [xml|e]; [|discriminate].
  cbn. intros [= <-]. exists assertion. cbn.
  repeat split.
  destruct (Assertion.Conditions_ assertion) as [c|]; [|reflexivity].
  destruct (time.IsZero (Conditions.NotOnOrAfter c)); reflexivity.
Qed.

(** With [NotOnOrAfter] an hour ahead the session ends then; the
    multi-valued attribute stays a list. *)
Lemma C8_witness :
  exists session,
    fst (saml.HandleCallback (L := Demo.lib)
           (Demo.okta (Some (Demo.T0 + time.Hour))) Demo.acs_req
           (Demo.state0 ∅)) = Ok session
    /\ Session.ExpiresAt session = Demo.T0 + time.Hour
    /\ Session.CreatedAt session = Demo.clock 1
    /\ Session.UserInfo session !! "groups" = Some (VStrings ["dev"; "ops"])
    /\ Session.UserInfo session !! "name_id" = Some (VString "bob").
Proof.
  eexists. split; [vm_compute; reflexivity|].
  destruct (C8_saml_session_fields (L := Demo.lib)
              (Demo.okta (Some (Demo.T0 + time.Hour))) Demo.acs_req
              (Demo.state0 ∅) _ eq_refl)
    as (a & Ha & _ & _ & Hui & Hca & Hex).
  injection Ha as <-.
  split; [exact Hex|]. split; [exact Hca|].
  split; vm_compute; reflexivity.
Defined.

(** Without conditions the session ends 24 hours after the reading. *)
Example saml_default_expiry :
  Session.ExpiresAt
    (match fst (saml.HandleCallback (L := Demo.lib) (Demo.okta None)
                  Demo.acs_req (Demo.state0 ∅)) with
     | Ok session => session
     | Err _ => Demo.expired_session
     end)
  = Demo.clock 0 + 24 * time.Hour.
Proof. vm_compute. reflexivity. Qed.

(** ** Header injection *)

Section Injection.

Variable session : Session.t.


Lemma Set_agree (h1 h2 : gmap string (list string)) (key name value : string) :
  h1 !! key = h2 !! key ->
  Header.Set_ h1 name value !! key = Header.Set_ h2 name value !! key.
Proof.
  intros Hagree. unfold Header.Set_.
  destruct (decide (textproto.CanonicalMIMEHeaderKey name = key)) as [->|Hne].
  - now rewrite !lookup_insert_eq.
  - now rewrite !lookup_insert_ne.
Qed.

Lemma inject_one_agree (h1 h2 : gmap string (list string)) (key : string)
    (m : string * string) :
  h1 !! key = h2 !! key ->
  proxy.inject_one session h1 m !! key = proxy.inject_one session h2 m !! key.
Proof.
  intros Hagree. destruct m as [claim header]. unfold proxy.inject_one.
  destruct (Session.UserInfo session !! claim) as [value|]; [|exact Hagree].
  destruct (String.eqb (proxy.formatHeaderValue value) ""); [exact Hagree|].
  now apply Set_agree.
Qed.

Lemma inject_one_sets (h1 h2 : gmap string (list string)) (key : string)
    (m : string * string) :
  sets_key session key m ->
  proxy.inject_one session h1 m !! key = proxy.inject_one session h2 m !! key.
Proof.
  intros (value & Hclaim & Hne & Hkey). destruct m as [claim header].
  cbn in Hclaim, Hkey. unfold proxy.inject_one. rewrite Hclaim.
  apply String.eqb_neq in Hne. rewrite Hne.
  unfold Header.Set_. rewrite Hkey. now rewrite !lookup_insert_eq.
Qed.

Lemma loop_agree (order : list (string * string)) (key : string) :
  forall h1 h2 : gmap string (list string),
    h1 !! key = h2 !! key \/ Exists (sets_key session key) order ->
    fold_left (proxy.inject_one session) order h1 !! key
    = fold_left (proxy.inject_one session) order h2 !! key.
Proof.
  induction order as [|m rest IH]; intros h1 h2 Hcase; cbn.
  - destruct Hcase as [Hagree|Hex]; [exact Hagree|inversion Hex].
  - apply IH. destruct Hcase as [Hagree|Hex].
    + left. now apply inject_one_agree.
    + inversion Hex as [? ? Hhere|? ? Hrest]; subst.
      * left. now apply inject_one_sets.
      * right. exact Hrest.
Qed.

Lemma InjectHeaders_agree (order : list (string * string)) (key : string)
    (h1 h2 : gmap string (list string)) :
  Exists (sets_key session key) order ->
  proxy.InjectHeaders order h1 session !! key
  = proxy.InjectHeaders order h2 session !! key.
Proof.
  intros Hex. unfold proxy.InjectHeaders.
  do 3 apply Set_agree. apply loop_agree. now right.
Qed.

End Injection.

(** C1, as the code has it.  Take a mapping [claim -> header] of the
    provider such that the session's [user_info] holds [claim] with a value
    whose header text is not empty.  Then the value of that header after
    [InjectHeaders] is the same for any two inbound header sets: it is fixed
    by the session and the mappings, and what the client sent under that
    name is gone.  (A mapping whose claim is absent from [user_info], or
    formats to the empty string, is skipped by the loop and leaves the
    inbound header in place.) *)
Theorem C1_mapped_header_overwritten {L : Lib}
    (provider : Provider) (session : Session.t)
    (claim header : string) (value : Value) :
  range_complete L ->
  auth.GetHeaderMappings provider !! claim = Some header ->
  Session.UserInfo session !! claim = Some value ->
  proxy.formatHeaderValue value <> "" ->
  forall inbound1 inbound2 : gmap string (list string),
    proxy.InjectHeaders (range_ _ (auth.GetHeaderMappings provider))
                        inbound1 session
      !! textproto.CanonicalMIMEHeaderKey header
    = proxy.InjectHeaders (range_ _ (auth.GetHeaderMappings provider))
                          inbound2 session
        !! textproto.CanonicalMIMEHeaderKey header.
Proof.
  intros Hrange Hmap Hclaim Hne inbound1 inbound2.
  apply InjectHeaders_agree. apply Exists_exists.
  exists (claim, header). split.
  - rewrite (Hrange string (auth.GetHeaderMappings provider)).
    now apply elem_of_map_to_list.
  - exists value. auto.
Qed.

(** The request that the reverse proxy forwards for an authenticated
    request carries the headers [InjectHeaders] produced. *)
Lemma proxy_forwards_injected {L : Lib} (rp : ReverseProxy.t) (r : Request.t)
    (s : State) (session : Session.t) (provider : Provider) :
  Request.Context r = Some session ->
  ReverseProxy.providers rp !! Session.ProviderID session = Some provider ->
  exists out : Request.t,
    events_since s (snd (ReverseProxy.ServeHTTP rp r s)) = [Forward out]
    /\ Request.Header_ out
       = proxy.InjectHeaders (range_ _ (auth.GetHeaderMappings provider))
                             (Request.Header_ r) session.
Proof.
  intros Hctx Hprov. unfold ReverseProxy.ServeHTTP, middleware.GetSession.
  rewrite Hctx, Hprov. run. steps.
  all: eexists; split; [events; reflexivity|reflexivity].
Qed.

Lemma range_complete_demo : range_complete Demo.lib.
Proof. intros V m. reflexivity. Qed.

(** Scenario S6: a client sends [X-User-Email: evil@x.com] with a session
    that claims [email = alice@x.com]; the header that leaves is the
    session's. *)
Lemma C1_witness :
  let inject :=
    fun inbound =>
      proxy.InjectHeaders (map_to_list (oidc.headerMappings Demo.azure))
                          inbound Demo.expired_session in
  inject {[ "X-User-Email" := ["evil@x.com"] ]} !! "X-User-Email"
    = inject ∅ !! "X-User-Email"
  /\ inject ∅ !! "X-User-Email" = Some ["alice@x.com"].
Proof.
  split; [|vm_compute; reflexivity].
  apply (C1_mapped_header_overwritten (L := Demo.lib) (OIDCProvider Demo.azure)
           Demo.expired_session "email" "X-User-Email" (VString "alice@x.com")
           range_complete_demo).
  - vm_compute; reflexivity.
  - vm_compute; reflexivity.
  - discriminate.
Defined.

(** The claim as the specification words it (every inbound header under a
    mapped name is overwritten) fails: with the same mapping and a session
    whose ID token carried no [email] claim, the client's header passes
    through unchanged, so the outbound value depends on the inbound one. *)
Lemma C1_counterexample :
  let session :=
    Session.mk "s2" "azure" "oidc" {[ "sub" := VString "u-17" ]}
               (Demo.T0 - time.Hour) (Demo.T0 + time.Hour)
               "at" "rt" "idt" (Demo.T0 + time.Hour) "" "c2" in
  let inject :=
    fun inbound =>
      proxy.InjectHeaders
        (@range_ Demo.lib _ (auth.GetHeaderMappings (OIDCProvider Demo.azure)))
        inbound session in
  auth.GetHeaderMappings (OIDCProvider Demo.azure) !! "email" = Some "X-User-Email"
  /\ inject {[ "X-User-Email" := ["evil@x.com"] ]} !! "X-User-Email"
     = Some ["evil@x.com"]
  /\ inject ∅ !! "X-User-Email" = None.
Proof. vm_compute. repeat split; reflexivity. Qed.

(** ** The OIDC callback handler: order of operations *)

(** C5.  In every run of the OIDC callback handler the flow state is
    deleted after it has been read and before the cookie is written.  If
    the events of the run have [SetCookie] at position [i], then they have
    the [CacheGet] of [oidc:state:<state>] at some position [j] and its
    [CacheDelete] at some position [k] with [j < k < i]; the entry is gone
    from the store when the provider's [HandleCallback] returns, which is
    before the handler stores the session and sets the cookie; and it is
    not in the store when the handler returns. *)
Theorem C5_state_deleted_before_cookie {L : Lib}
    (cfg : Config.t) (providers : gmap string Provider) (providerID : string)
    (p : oidc.Provider) (r : Request.t) (s : State) :
  providers !! providerID = Some (OIDCProvider p) ->
  let key := "oidc:state:" ++ Values_Get (Request.Query r) "state" in
  let s' := serve (handlers.HandleOIDCCallback cfg providers providerID) r s in
  let evs := events_since s s' in
  forall (i : nat) (c : Cookie.t),
    evs !! i = Some (SetCookie c) ->
    (exists j k : nat,
       (j < k < i)%nat
       /\ evs !! j = Some (CacheGet key)
       /\ evs !! k = Some (CacheDelete key))
    /\ (exists session : Session.t,
          fst (auth.HandleCallback (OIDCProvider p) r (begin s)) = Ok session
          /\ data (snd (auth.HandleCallback (OIDCProvider p) r (begin s))) !! key
             = None)
    /\ data s' !! key = None.
Proof.
  intros Hprov key s' evs i c. subst key evs s'.
  unfold serve, begin, handlers.HandleOIDCCallback. rewrite Hprov.
  unfold auth.HandleCallback, oidc.HandleCallback, oidc.exchange_and_verify,
    handlers.issue_session.
  run. steps.
  all: events; intros Hi.
  all: repeat (destruct i as [|i]; simpl in Hi; try discriminate).
  split; [exists 1%nat, 2%nat; repeat split; lia|].
  split; [eexists; split; [reflexivity|]|].
  all: rewrite ?lookup_insert_ne by discriminate; apply lookup_delete_eq.
Qed.

(** Scenario S1, the callback step: the sixth event is the cookie, the
    second and third are the read and the delete of the flow state, and the
    store, which held [oidc:state:S] before the callback, holds it no
    more. *)
Lemma C5_witness :
  let s' := serve Demo.oidc_callback Demo.callback_req Demo.s_pending in
  let evs := events_since Demo.s_pending s' in
  exists c, evs !! 5%nat = Some (SetCookie c)
    /\ Cookie.Name c = "sso-session"
    /\ (exists j k : nat,
          (j < k < 5)%nat
          /\ evs !! j = Some (CacheGet "oidc:state:S")
          /\ evs !! k = Some (CacheDelete "oidc:state:S"))
    /\ is_Some (data Demo.s_pending !! "oidc:state:S")
    /\ data s' !! "oidc:state:S" = None.
Proof.
  eexists. split; [vm_compute; reflexivity|]. split; [reflexivity|].
  destruct (C5_state_deleted_before_cookie (L := Demo.lib) Demo.cfg Demo.providers
              "azure" Demo.azure Demo.callback_req Demo.s_pending eq_refl 5%nat
              (security.CreateSessionCookie Demo.lower Demo.server_cfg "id-xx"
                 3599998000000))
    as (Horder & _ & Hgone).
  - vm_compute; reflexivity.
  - split; [exact Horder|]. split; [|exact Hgone].
    vm_compute. eexists. reflexivity.
Defined.

(** ** The OIDC callback handler: replay of a callback *)

Section Replay.
Context {L : Lib}.
Variable cfg : Config.t.
Variable providers : gmap string Provider.
Variable providerID : string.
Variable p : oidc.Provider.
Hypothesis Hprov : providers !! providerID = Some (OIDCProvider p).

Let handler := handlers.HandleOIDCCallback cfg providers providerID.

(** A callback whose flow state is not in the cache is answered with 401
    and touches neither the cache nor the cookies. *)
Lemma callback_without_state (r : Request.t) (s : State) :
  Values_Get (Request.Query r) "code" <> "" ->
  Values_Get (Request.Query r) "state" <> "" ->
  data s !! ("oidc:state:" ++ Values_Get (Request.Query r) "state") = None ->
  serve handler r s =
  mkState (data s) (ticks s) (draws s)
    (trace s ++ [CallHandleCallback (oidc.id p)]
       ++ [CacheGet ("oidc:state:" ++ Values_Get (Request.Query r) "state")])
    (snd (http_Error
            ("Authentication failed: invalid or expired state: " ++ ErrNotFound)
            StatusUnauthorized (begin s))).(resp).
Proof.
  intros Hcode Hstate Hnone.
  unfold serve, begin, handler, handlers.HandleOIDCCallback. rewrite Hprov.
  unfold auth.HandleCallback, oidc.HandleCallback.
  apply String.eqb_neq in Hcode, Hstate. rewrite Hcode, Hstate.
  cbn -[String.append]. rewrite Hnone. cbn -[String.append].
  now rewrite <- app_assoc.
Qed.

(** Once the provider's [HandleCallback] has succeeded, the flow state is
    gone from the cache when the handler returns. *)
Lemma callback_consumes_state (r : Request.t) (s : State) (session : Session.t) :
  fst (auth.HandleCallback (OIDCProvider p) r (begin s)) = Ok session ->
  Values_Get (Request.Query r) "code" <> ""
  /\ Values_Get (Request.Query r) "state" <> ""
  /\ data (serve handler r s)
       !! ("oidc:state:" ++ Values_Get (Request.Query r) "state") = None.
Proof.
  unfold serve, begin, handler, handlers.HandleOIDCCallback. rewrite Hprov.
  unfold auth.HandleCallback, oidc.HandleCallback, oidc.exchange_and_verify,
    handlers.issue_session.
  destruct (String.eqb (Values_Get (Request.Query r) "code") "") eqn:Hcode;
    [discriminate|].
  destruct (String.eqb (Values_Get (Request.Query r) "state") "") eqn:Hstate;
    [discriminate|].
  apply String.eqb_neq in Hcode, Hstate.
  intros Hok. split; [exact Hcode|]. split; [exact Hstate|].
  revert Hok. run. steps.
  all: intros _; run.
  all: rewrite ?lookup_insert_ne by discriminate; apply lookup_delete_eq.
Qed.

End Replay.

(** C4.  If the provider's [HandleCallback] succeeds on a callback (so the
    stored [oidc:state:S] entry is consumed), then serving the same callback
    again, on the state the first run left, is answered with 401 and the
    invalid-or-expired-state message; the second run sets no cookie, leaves
    the cache as it was and performs no cache write: its only cache access
    is the failed read of the state entry. *)
Theorem C4_state_single_use {L : Lib}
    (cfg : Config.t) (providers : gmap string Provider) (providerID : string)
    (p : oidc.Provider) (r : Request.t) (s : State) (session : Session.t) :
  providers !! providerID = Some (OIDCProvider p) ->
  fst (auth.HandleCallback (OIDCProvider p) r (begin s)) = Ok session ->
  let handler := handlers.HandleOIDCCallback cfg providers providerID in
  let s1 := serve handler r s in
  let s2 := serve handler r s1 in
  ResponseWriter.Status (resp s2) = Some StatusUnauthorized
  /\ ResponseWriter.Body (resp s2)
     = "Authentication failed: invalid or expired state: key not found"
         ++ String "010"%char ""
  /\ ResponseWriter.SetCookies (resp s2) = []
  /\ data s2 = data s1
  /\ events_since s1 s2
     = [CallHandleCallback (oidc.id p);
        CacheGet ("oidc:state:" ++ Values_Get (Request.Query r) "state")].
Proof.
  intros Hprov Hok handler s1 s2.
  destruct (callback_consumes_state cfg providers providerID p Hprov r s session Hok)
    as (Hcode & Hstate & Hgone).
  subst s2 handler. fold s1 in Hgone.
  rewrite (callback_without_state cfg providers providerID p Hprov r s1
             Hcode Hstate Hgone).
  repeat split.
  unfold events_since. cbn [trace]. now rewrite drop_app_length.
Qed.

(** Scenario S2: the callback of flow [S] succeeds, its re-delivery is
    answered with 401. *)
Lemma C4_witness :
  let s1 := serve Demo.oidc_callback Demo.callback_req Demo.s_pending in
  let s2 := serve Demo.oidc_callback Demo.callback_req s1 in
  ResponseWriter.Status (resp s1) = Some StatusFound
  /\ List.length (ResponseWriter.SetCookies (resp s1)) = 1%nat
  /\ ResponseWriter.Status (resp s2) = Some StatusUnauthorized
  /\ ResponseWriter.SetCookies (resp s2) = []
  /\ data s2 = data s1.
Proof.
  split; [vm_compute; reflexivity|]. split; [vm_compute; reflexivity|].
  destruct (C4_state_single_use (L := Demo.lib) Demo.cfg Demo.providers "azure"
              Demo.azure Demo.callback_req Demo.s_pending
              (Session.mk "id-" "azure" "oidc" Demo.alice (Demo.clock 1)
                 (Demo.T0 + time.Hour) "at-new" "rt-1" "idt-new"
                 (Demo.T0 + time.Hour) "" "id-x")
              eq_refl)
    as (Hstatus & _ & Hcookies & Hdata & _).
  - vm_compute; reflexivity.
  - split; [exact Hstatus|]. split; [exact Hcookies|exact Hdata].
Defined.

(** ** The callback handlers: lifetime of the session cookie *)

Lemma SetCookies_WriteHeader (code : Z) (w : ResponseWriter.t) :
  ResponseWriter.SetCookies (ResponseWriter.WriteHeader code w)
  = ResponseWriter.SetCookies w.
Proof. unfold ResponseWriter.WriteHeader. now destruct (ResponseWriter.Status w). Qed.

Lemma SetCookies_Write (body : string) (w : ResponseWriter.t) :
  ResponseWriter.SetCookies (ResponseWriter.Write body w)
  = ResponseWriter.SetCookies w.
Proof. unfold ResponseWriter.Write. cbn. apply SetCookies_WriteHeader. Qed.

Lemma SetCookies_set_Header (key value : string) (w : ResponseWriter.t) :
  ResponseWriter.SetCookies (ResponseWriter.set_Header key value w)
  = ResponseWriter.SetCookies w.
Proof. reflexivity. Qed.

Lemma SetCookies_add_cookie (c : Cookie.t) (w : ResponseWriter.t) :
  ResponseWriter.SetCookies (ResponseWriter.add_cookie c w)
  = (ResponseWriter.SetCookies w ++ [c])%list.
Proof. reflexivity. Qed.

Create Rewrite HintDb cookies.
#[global] Hint Rewrite SetCookies_WriteHeader SetCookies_Write
  SetCookies_set_Header : cookies.

Section CookieAge.
Context {L : Lib}.
Variable cfg : Config.t.
Variable providers : gmap string Provider.

(** Every cookie set by [issue_session] carries the seconds left until
    the session's [ExpiresAt] at the reading taken before the store. *)
Lemma issue_session_cookie (session : Session.t) (after : M unit)
    (s : State) (c : Cookie.t) :
  (forall s0, ResponseWriter.SetCookies (resp (snd (after s0)))
              = ResponseWriter.SetCookies (resp s0)) ->
  ResponseWriter.SetCookies (resp s) = [] ->
  c ∈ ResponseWriter.SetCookies
        (resp (snd (handlers.issue_session cfg session after s))) ->
  Cookie.MaxAge c
  = time.Seconds_int (time.Sub (Session.ExpiresAt session) (Now (ticks s))).
Proof.
  intros Hafter Hnone. unfold handlers.issue_session.
  run. steps.
  - rewrite Hafter. run. rewrite Hnone. run.
    intros Hin. apply list_elem_of_singleton in Hin. now subst c.
  - autorewrite with cookies. rewrite Hnone. intros Hin. inversion Hin.
Qed.

Lemma redirect_keeps_cookies (url : string) (code : Z) (s0 : State) :
  ResponseWriter.SetCookies (resp (snd (http_Redirect url code s0)))
  = ResponseWriter.SetCookies (resp s0).
Proof.
  cbn. now autorewrite with cookies.
Qed.

End CookieAge.

(** C6, as the code has it.  A cookie set by the OIDC or the SAML callback
    handler comes after a successful [HandleCallback] of the provider, and
    its [MaxAge] is the whole number of seconds from the clock reading the
    handler takes before storing the session to the session's [ExpiresAt]
    (the token expiry for OIDC; [NotOnOrAfter] or a day ahead for SAML).
    The configured [session_ttl] does not enter.  Stated for lifetimes
    below 2^24 seconds, where [int(d.Seconds())] is the truncated
    quotient. *)
Theorem C6_cookie_max_age_until_expiry {L : Lib}
    (cfg : Config.t) (providers : gmap string Provider) (providerID : string)
    (saml_route : bool) (r : Request.t) (s : State) (c : Cookie.t) :
  let handler :=
    if saml_route then handlers.HandleSAMLCallback cfg providers providerID
    else handlers.HandleOIDCCallback cfg providers providerID in
  c ∈ ResponseWriter.SetCookies (resp (serve handler r s)) ->
  exists (provider : Provider) (session : Session.t) (s' : State),
    providers !! providerID = Some provider
    /\ auth.HandleCallback provider r (begin s) = (Ok session, s')
    /\ (time.exact_seconds_range
          (time.Sub (Session.ExpiresAt session) (Now (ticks s'))) ->
        Cookie.MaxAge c
        = Z.quot (time.Sub (Session.ExpiresAt session) (Now (ticks s')))
                 time.Second).
Proof.
  intros handler Hin. subst handler. unfold serve in Hin.
  assert (Hempty : forall provider,
            ResponseWriter.SetCookies
              (resp (snd (auth.HandleCallback provider r (begin s)))) = []).
  { intros provider. unfold auth.HandleCallback, oidc.HandleCallback,
      oidc.exchange_and_verify, saml.HandleCallback.
    destruct provider; run; steps; reflexivity. }
  destruct saml_route;
    unfold handlers.HandleSAMLCallback, handlers.HandleOIDCCallback in Hin;
    (destruct (providers !! providerID) as [provider|] eqn:Hprov;
     [|cbn in Hin; inversion Hin]);
    unfold bind at 1 in Hin;
    specialize (Hempty provider);
    destruct (auth.HandleCallback provider r (begin s)) as [[session|e] s'] eqn:Hcb;
    cbn [snd] in Hempty.
  2, 4: cbn in Hin; autorewrite with cookies in Hin;
        rewrite Hempty in Hin; inversion Hin.
  all: exists provider, session, s'; split; [reflexivity|]; split; [exact Hcb|];
       intros _.
  all: eapply issue_session_cookie; [| exact Hempty | exact Hin].
  all: intros s0; try apply redirect_keeps_cookies.
  destruct (negb _); apply redirect_keeps_cookies.
Qed.

(** The token of the demo IdP expires an hour after the callback: the
    cookie lives 3599 seconds. *)
Lemma C6_witness :
  let c := security.CreateSessionCookie Demo.lower Demo.server_cfg "id-xx"
             3599998000000 in
  c ∈ ResponseWriter.SetCookies
        (resp (serve Demo.oidc_callback Demo.callback_req Demo.s_pending))
  /\ Cookie.MaxAge c = 3599.
Proof.
  intros c.
  assert (Hin : c ∈ ResponseWriter.SetCookies
                      (resp (serve Demo.oidc_callback Demo.callback_req
                               Demo.s_pending))).
  { vm_compute. apply list_elem_of_here. }
  split; [exact Hin|].
  destruct (C6_cookie_max_age_until_expiry (L := Demo.lib) Demo.cfg
              Demo.providers "azure" false Demo.callback_req Demo.s_pending c Hin)
    as (provider & session & s' & Hprov & Hcb & Hage).
  vm_compute in Hprov. injection Hprov as <-.
  vm_compute in Hcb. injection Hcb as <- <-.
  rewrite Hage; [reflexivity|].
  unfold time.exact_seconds_range. vm_compute. reflexivity.
Defined.

(** The claim as the specification words it (Max-Age equal to the
    configured [session_ttl]) fails: with [session_ttl] at its default of
    24 hours and a token that expires in an hour, the cookie of the OIDC
    callback has Max-Age 3599, not 86400. *)
Lemma C6_counterexample :
  Cookie.MaxAge <$>
    ResponseWriter.SetCookies
      (resp (serve Demo.oidc_callback Demo.callback_req Demo.s_pending))
  = [3599]
  /\ time.Seconds_int (ServerConfig.SessionTTL (Config.Server Demo.cfg)) = 86400
  /\ ServerConfig.SessionTTL
       (Config.Server (config.setDefaults Demo.file_cfg)) = 24 * time.Hour.
Proof. vm_compute. repeat split; reflexivity. Qed.

(** ** The authentication middleware: when a refresh is attempted *)


Lemma Until_below (t now : time.Time) :
  (time.Sub t now <? 5 * time.Minute) = true <-> t - now < 5 * time.Minute.
Proof.
  rewrite Z.ltb_lt. apply Sub_lt_iff.
  unfold time.minDuration, time.maxDuration, time.Minute, time.Second. lia.
Qed.

Lemma After_true (t u : time.Time) : time.After t u = true <-> u < t.
Proof. unfold time.After. apply Z.ltb_lt. Qed.

Section Middleware.
Context {L : Lib}.
Variable cfg : ServerConfig.t.
Variable providers : gmap string Provider.
Variable next : Handler.
Hypothesis Hquiet : quiet next.

Let handler := middleware.RequireAuth cfg providers next.

Ltac hand_over :=
  match goal with
  | |- context [next ?r ?st] =>
      let evs := fresh "evs" in
      let Htr := fresh "Htr" in
      let Hno := fresh "Hno" in
      destruct (Hquiet r st) as (evs & Htr & Hno);
      unfold events_since; rewrite Htr
  end.

(** A refresh is attempted only after a failed validation of an [oidc]
    session whose token expiry is less than five minutes ahead. *)
Lemma refresh_only_when (r : Request.t) (s : State) (pid : string) :
  CallRefreshSession pid ∈ events_since s (serve handler r s) ->
  exists (cookie : string * string) (item : cacheItem.t) (session : Session.t)
         (provider : Provider) (n : nat),
    security.GetSessionCookie r (ServerConfig.CookieName cfg) = Ok cookie
    /\ data s !! ("session:" ++ snd cookie) = Some item
    /\ json_Unmarshal_Session (cacheItem.value item) = Ok session
    /\ providers !! Session.ProviderID session = Some provider
    /\ (Session.ProviderID session <> auth.ID provider
        \/ Session.ExpiresAt session < Now (S (ticks s)))
    /\ Session.ProviderType session = "oidc"
    /\ (S (ticks s) <= n <= S (S (ticks s)))%nat
    /\ Session.TokenExpiry session - Now n < 5 * time.Minute.
Proof.
  unfold serve, begin, handler, middleware.RequireAuth.
  destruct (security.GetSessionCookie r (ServerConfig.CookieName cfg))
    as [cookie|e] eqn:Hcookie;
    [|run; events; rewrite drop_all; intros Hin; inversion Hin].
  run.
  destruct (data s !! ("session:" ++ snd cookie)) as [item|] eqn:Hitem; run;
    [|events; intros Hin; apply list_elem_of_singleton in Hin; discriminate].
  destruct (time.After (Now (ticks s)) (cacheItem.expiresAt item)); run;
    [events; intros Hin; apply list_elem_of_singleton in Hin; discriminate|].
  destruct (json_Unmarshal_Session (cacheItem.value item)) as [session|e]
    eqn:Hjson; run;
    [|events; intros Hin; apply list_elem_of_singleton in Hin; discriminate].
  destruct (providers !! Session.ProviderID session) as [provider|] eqn:Hprov;
    run;
    [|events; intros Hin; apply list_elem_of_singleton in Hin; discriminate].
  intros Hin.
  exists cookie, item, session, provider.
  revert Hin.
  unfold auth.ValidateSession, oidc.ValidateSession, saml.ValidateSession,
    middleware.refresh_or_redirect, auth.RefreshSession, oidc.RefreshSession,
    saml.RefreshSession.
  destruct provider as [q|q]; run.
  all: destruct (String.eqb (Session.ProviderID session) _) eqn:Hpid; run.
  all: try (destruct (time.After (Now (S (ticks s))) (Session.ExpiresAt session))
              eqn:Hafter; run).
  all: try (hand_over; events; intros Hin;
            repeat (apply elem_of_cons in Hin as [Hin|Hin]; [discriminate|]);
            exfalso; now apply (Hno pid)).
  all: destruct (String.eqb (Session.ProviderType session) "oidc") eqn:Hkind; run;
    [|events; intros Hin;
      repeat (apply elem_of_cons in Hin as [Hin|Hin]; [discriminate|]);
      inversion Hin].
  all: apply String.eqb_eq in Hkind.
  all: match goal with
       | |- context [time.Sub ?t ?now <? 5 * time.Minute] =>
           destruct (time.Sub t now <? 5 * time.Minute) eqn:Hwin; run;
           [apply Until_below in Hwin
           |events; intros Hin;
            repeat (apply elem_of_cons in Hin as [Hin|Hin]; [discriminate|]);
            inversion Hin]
       end.
  all: intros _.
  all: try apply String.eqb_neq in Hpid.
  all: try apply After_true in Hafter.
  all: first [ exists (S (S (ticks s))); repeat split; auto; lia
             | exists (S (ticks s)); repeat split; auto; lia ].
Qed.

(** What the middleware does with a stored session that is past its
    [ExpiresAt] when it is validated. *)
Lemma hard_expiry_outcome (r : Request.t) (s : State)
    (cookie : string * string) (item : cacheItem.t) (session : Session.t)
    (provider : Provider) :
  security.GetSessionCookie r (ServerConfig.CookieName cfg) = Ok cookie ->
  data s !! ("session:" ++ snd cookie) = Some item ->
  time.After (Now (ticks s)) (cacheItem.expiresAt item) = false ->
  json_Unmarshal_Session (cacheItem.value item) = Ok session ->
  providers !! Session.ProviderID session = Some provider ->
  Session.ProviderID session = auth.ID provider ->
  Session.ExpiresAt session < Now (S (ticks s)) ->
  (Session.ProviderType session = "oidc" ->
   Session.TokenExpiry session - Now (S (S (ticks s))) < 5 * time.Minute ->
   CallRefreshSession (auth.ID provider) ∈ events_since s (serve handler r s))
  /\ (Session.ProviderType session <> "oidc"
      \/ 5 * time.Minute <= Session.TokenExpiry session - Now (S (S (ticks s))) ->
      events_since s (serve handler r s)
      = [CacheGet ("session:" ++ snd cookie);
         CallValidateSession (auth.ID provider)]
      /\ ResponseWriter.Status (resp (serve handler r s)) = Some StatusFound
      /\ ResponseWriter.Header_ (resp (serve handler r s)) !! "Location"
         = Some ["/auth/select"]).
Proof.
  intros Hcookie Hitem Hlive Hjson Hprov Hpid Hexpired.
  apply After_true in Hexpired.
  assert (Hsame : String.eqb (Session.ProviderID session) (auth.ID provider) = true)
    by now apply String.eqb_eq.
  unfold serve, begin, handler, middleware.RequireAuth.
  rewrite Hcookie. run. rewrite Hitem. run. rewrite Hlive. run.
  rewrite Hjson, Hprov.
  unfold auth.ValidateSession, oidc.ValidateSession, saml.ValidateSession,
    middleware.refresh_or_redirect, auth.RefreshSession, oidc.RefreshSession,
    saml.RefreshSession.
  split.
  - intros Hkind Hwin. apply String.eqb_eq in Hkind. apply Until_below in Hwin.
    destruct provider as [q|q]; run; rewrite Hsame; run; rewrite Hexpired; run;
      rewrite Hkind; run; rewrite Hwin; run.
    all: steps.
    all: try hand_over.
    all: events.
    all: do 2 apply list_elem_of_further; apply list_elem_of_here.
  - intros Hother.
    assert (Hno : (String.eqb (Session.ProviderType session) "oidc"
                   && (time.Sub (Session.TokenExpiry session) (Now (S (S (ticks s))))
                       <? 5 * time.Minute))%bool = false).
    { destruct Hother as [Hkind|Hwin].
      - apply String.eqb_neq in Hkind. now rewrite Hkind.
      - apply andb_false_intro2.
        destruct (time.Sub _ _ <? _) eqn:Hlt; [|reflexivity].
        apply Until_below in Hlt. lia. }
    destruct provider as [q|q]; run; rewrite Hsame; run; rewrite Hexpired; run.
    all: destruct (String.eqb (Session.ProviderType session) "oidc"); run.
    all: try (cbn in Hno; rewrite Hno; run).
    all: events; auto.
Qed.

End Middleware.

(** C3, as the code has it.  The middleware attempts a refresh only when
    validation of the stored session has failed, the session kind is
    [oidc] and the token expiry is less than five minutes after the clock
    reading.  A stored session that is past its [ExpiresAt] fails
    validation; the middleware then attempts the refresh if the kind is
    [oidc] and the token expiry is less than five minutes ahead (a token
    expiry in the past is), and otherwise redirects to [/auth/select]
    without a refresh. *)
Theorem C3_refresh_attempt_condition {L : Lib}
    (cfg : ServerConfig.t) (providers : gmap string Provider) (next : Handler)
    (r : Request.t) (s : State) :
  quiet next ->
  let s' := serve (middleware.RequireAuth cfg providers next) r s in
  (forall pid : string,
     CallRefreshSession pid ∈ events_since s s' ->
     exists (cookie : string * string) (item : cacheItem.t)
            (session : Session.t) (provider : Provider) (n : nat),
       security.GetSessionCookie r (ServerConfig.CookieName cfg) = Ok cookie
       /\ data s !! ("session:" ++ snd cookie) = Some item
       /\ json_Unmarshal_Session (cacheItem.value item) = Ok session
       /\ providers !! Session.ProviderID session = Some provider
       /\ (Session.ProviderID session <> auth.ID provider
           \/ Session.ExpiresAt session < Now (S (ticks s)))
       /\ Session.ProviderType session = "oidc"
       /\ (S (ticks s) <= n <= S (S (ticks s)))%nat
       /\ Session.TokenExpiry session - Now n < 5 * time.Minute)
  /\ (forall (cookie : string * string) (item : cacheItem.t)
             (session : Session.t) (provider : Provider),
        security.GetSessionCookie r (ServerConfig.CookieName cfg) = Ok cookie ->
        data s !! ("session:" ++ snd cookie) = Some item ->
        time.After (Now (ticks s)) (cacheItem.expiresAt item) = false ->
        json_Unmarshal_Session (cacheItem.value item) = Ok session ->
        providers !! Session.ProviderID session = Some provider ->
        Session.ProviderID session = auth.ID provider ->
        Session.ExpiresAt session < Now (S (ticks s)) ->
        (Session.ProviderType session = "oidc" ->
         Session.TokenExpiry session - Now (S (S (ticks s))) < 5 * time.Minute ->
         CallRefreshSession (auth.ID provider) ∈ events_since s s')
        /\ (Session.ProviderType session <> "oidc"
            \/ 5 * time.Minute
               <= Session.TokenExpiry session - Now (S (S (ticks s))) ->
            events_since s s'
            = [CacheGet ("session:" ++ snd cookie);
               CallValidateSession (auth.ID provider)]
            /\ ResponseWriter.Status (resp s') = Some StatusFound
            /\ ResponseWriter.Header_ (resp s') !! "Location"
               = Some ["/auth/select"])).
Proof.
  intros Hquiet s'. subst s'. split.
  - intros pid. now apply refresh_only_when.
  - intros cookie item session provider. now apply hard_expiry_outcome.
Qed.

(** The reverse proxy, which [setupRoutes] puts behind the middleware, is
    such a downstream handler. *)
Lemma quiet_reverse_proxy {L : Lib} (rp : ReverseProxy.t) :
  quiet (ReverseProxy.ServeHTTP rp).
Proof.
  intros r s. unfold ReverseProxy.ServeHTTP, middleware.GetSession.
  run. steps.
  all: first [ exists []; split; [now rewrite app_nil_r|];
               intros pid Hin; now inversion Hin
             | eexists [_]; split; [reflexivity|];
               intros pid Hin; apply list_elem_of_singleton in Hin;
               discriminate ].
Qed.

(** The stale session of the demo is refreshed: its deadline [T0] has
    passed and so has its token expiry. *)
Lemma C3_witness :
  let handler :=
    middleware.RequireAuth (L := Demo.lib) Demo.server_cfg Demo.providers
                           (ReverseProxy.ServeHTTP (L := Demo.lib) Demo.backend) in
  Session.ExpiresAt Demo.expired_session < Demo.clock 1
  /\ CallRefreshSession "azure"
       ∈ events_since Demo.s_stale (serve handler Demo.dashboard_req Demo.s_stale).
Proof.
  intros handler. split; [vm_compute; reflexivity|].
  destruct (C3_refresh_attempt_condition (L := Demo.lib) Demo.server_cfg
              Demo.providers (ReverseProxy.ServeHTTP (L := Demo.lib) Demo.backend)
              Demo.dashboard_req Demo.s_stale
              (quiet_reverse_proxy (L := Demo.lib) Demo.backend))
    as [_ Hexpired].
  apply (Hexpired ("sso-session", "abc")
           (cacheItem.mk Demo.expired_blob (Demo.T0 + 1000000))
           Demo.expired_session (OIDCProvider Demo.azure)).
  all: vm_compute; reflexivity.
Defined.


(** The claim as the specification words it (a session past [expires_at]
    is redirected to [/auth/select] without a refresh attempt) fails: the
    stale session of the demo, whose deadline has passed when it is
    validated, is refreshed at the IdP; the request is then forwarded to the
    backend and answered with its 200, with no redirect. *)
Lemma C3_counterexample :
  let handler :=
    middleware.RequireAuth (L := Demo.lib) Demo.server_cfg Demo.providers
                           (ReverseProxy.ServeHTTP (L := Demo.lib) Demo.backend) in
  let s' := serve handler Demo.dashboard_req Demo.s_stale in
  Session.ExpiresAt Demo.expired_session < Demo.clock 1
  /\ filter (fun e => is_refresh e = true) (events_since Demo.s_stale s')
     = [CallRefreshSession "azure"; TokenRefresh "rt-old"]
  /\ ResponseWriter.Status (resp s') = Some 200
  /\ ResponseWriter.Header_ (resp s') !! "Location" = None.
Proof. vm_compute. repeat split; reflexivity. Qed.

(** ** The route table: CSRF validation of the provider pick *)

Section SelectPost.
Context {L : Lib}.
Variable cfg : Config.t.
Variable providers : gmap string Provider.

(** The handler behind [/auth/select] never looks a CSRF token up: no run
    of it performs a [CacheExists]. *)
Lemma select_never_checks_csrf (r : Request.t) (s : State) (key : string) :
  CacheExists key
    ∉ events_since s (serve (handlers.Select_ServeHTTP cfg providers) r s).
Proof.
  unfold serve, begin, handlers.Select_ServeHTTP, handlers.handleGet,
    handlers.handlePost, handlers.render_select,
    handlers.initiateAuthForProvider, middleware.GenerateCSRFToken,
    auth.InitiateAuth, oidc.InitiateAuth, saml.InitiateAuth,
    oidc.generateCodeVerifier.
  run. steps.
  all: events; rewrite ?drop_all.
  all: intros Hin;
       repeat (apply elem_of_cons in Hin as [Hin|Hin]; [discriminate|]);
       inversion Hin.
Qed.

End SelectPost.

(** C2 on the code.  The mux built by [setupRoutes] serves a POST to
    [/auth/select] that names the provider [azure] and carries no CSRF
    token, while the store holds no token at all: the answer is the 302 to
    the IdP, the flow was initiated and its [oidc:state] entry written, and
    no CSRF lookup took place.  The same mux answers a token-less POST to
    [/auth/logout], which is wrapped in [ValidateCSRF], with 403. *)
Theorem C2_select_post_not_validated :
  match server.setupRoutes (L := Demo.lib) Demo.cfg Demo.providers
                           (Demo.state0 ∅) with
  | (Ok front, s0) =>
      let s' := serve front Demo.select_post s0 in
      data s0 = ∅
      /\ Request.FormValue Demo.select_post "csrf_token" = ""
      /\ Header.Get (Request.Header_ Demo.select_post) "X-CSRF-Token" = ""
      /\ ResponseWriter.Status (resp s') = Some StatusFound
      /\ ResponseWriter.Header_ (resp s') !! "Location"
         = Some ["https://login.example.com/authorize?state=id-x"]
      /\ events_since s0 s'
         = [CallInitiateAuth "azure"
              "https://sso.example.com/auth/oidc/azure/callback";
            CacheSet "oidc:state:id-x" (bytes_of "flow state id-x of azure")
                     (5 * time.Minute)]
      /\ cacheItem.value <$> (data s' !! "oidc:state:id-x")
         = Some (bytes_of "flow state id-x of azure")
      /\ ResponseWriter.Status (resp (serve front Demo.logout_post s0))
         = Some StatusForbidden
  | (Err _, _) => False
  end.
Proof. vm_compute. repeat split; reflexivity. Qed.


(** ** The HttpOnly flag of every cookie the proxy sets *)

Section Flags.
Context {L : Lib}.
Variable cfg : Config.t.
Variable providers : gmap string Provider.
Hypothesis Hflag : ServerConfig.CookieHTTPOnly (Config.Server cfg) = true.


Ltac no_cookie Hempty :=
  autorewrite with cookies; rewrite ?SetCookies_add_cookie;
  autorewrite with cookies; rewrite ?Hempty; cbn [app];
  let Hin := fresh "Hin" in intros Hin;
  first [ now inversion Hin
        | apply list_elem_of_singleton in Hin; subst; exact Hflag ].

Lemma http_only_select :
  http_only_cookies (handlers.Select_ServeHTTP cfg providers).
Proof.
  intros r s c Hempty.
  unfold handlers.Select_ServeHTTP, handlers.handleGet,
    handlers.handlePost, handlers.render_select,
    handlers.initiateAuthForProvider, middleware.GenerateCSRFToken,
    auth.InitiateAuth, oidc.InitiateAuth, saml.InitiateAuth,
    oidc.generateCodeVerifier.
  run. steps.
  all: no_cookie Hempty.
Qed.

Lemma http_only_oidc_callback (id : string) :
  http_only_cookies (handlers.HandleOIDCCallback cfg providers id).
Proof.
  intros r s c Hempty.
  unfold handlers.HandleOIDCCallback, handlers.issue_session,
    auth.HandleCallback, oidc.HandleCallback, oidc.exchange_and_verify,
    saml.HandleCallback.
  run. steps.
  all: no_cookie Hempty.
Qed.

Lemma http_only_saml_callback (id : string) :
  http_only_cookies (handlers.HandleSAMLCallback cfg providers id).
Proof.
  intros r s c Hempty.
  unfold handlers.HandleSAMLCallback, handlers.issue_session,
    auth.HandleCallback, oidc.HandleCallback, oidc.exchange_and_verify,
    saml.HandleCallback.
  run. steps.
  all: no_cookie Hempty.
Qed.

Lemma http_only_logout :
  http_only_cookies (middleware.ValidateCSRF (handlers.Logout_ServeHTTP cfg)).
Proof.
  intros r s c Hempty.
  unfold middleware.ValidateCSRF, handlers.Logout_ServeHTTP.
  run. steps.
  all: no_cookie Hempty.
Qed.

Lemma http_only_health (start : time.Time) :
  http_only_cookies (handlers.Health_ServeHTTP cfg providers start).
Proof.
  intros r s c Hempty.
  unfold handlers.Health_ServeHTTP.
  run. steps.
  all: no_cookie Hempty.
Qed.

Lemma http_only_proxy (rp : ReverseProxy.t) :
  http_only_cookies
    (middleware.RequireAuth (Config.Server cfg) providers
       (ReverseProxy.ServeHTTP rp)).
Proof.
  intros r s c Hempty.
  unfold middleware.RequireAuth, middleware.refresh_or_redirect,
    ReverseProxy.ServeHTTP, middleware.GetSession,
    auth.ValidateSession, oidc.ValidateSession, saml.ValidateSession,
    auth.RefreshSession, oidc.RefreshSession, saml.RefreshSession.
  run. steps.
  all: no_cookie Hempty.
Qed.

Lemma http_only_to_select : http_only_cookies server.to_select.
Proof. intros r s c Hempty. unfold server.to_select. run. no_cookie Hempty. Qed.

Lemma http_only_metadata (q : saml.Provider) :
  http_only_cookies (server.serve_metadata q).
Proof.
  intros r s c Hempty. unfold server.serve_metadata. run. no_cookie Hempty.
Qed.

Lemma http_only_route (rp : ReverseProxy.t) (start : time.Time)
    (pattern : string) (h : Handler) :
  In (pattern, h) (server.routes cfg providers rp start) ->
  http_only_cookies h.
Proof.
  unfold server.routes. intros Hin.
  apply in_app_or in Hin as [Hin|Hin].
  { destruct Hin as [[= _ <-]|[]]. apply http_only_select. }
  apply in_app_or in Hin as [Hin|Hin].
  - apply in_flat_map in Hin as ([id provider] & _ & Hin).
    destruct provider as [q|q]; cbn in Hin.
    + destruct Hin as [[= _ <-]|[[= _ <-]|[]]].
      * apply http_only_to_select.
      * apply http_only_oidc_callback.
    + destruct Hin as [[= _ <-]|[[= _ <-]|[[= _ <-]|[]]]].
      * apply http_only_to_select.
      * apply http_only_saml_callback.
      * apply http_only_metadata.
  - destruct Hin as [[= _ <-]|[[= _ <-]|[[= _ <-]|[]]]].
    + apply http_only_logout.
    + apply http_only_health.
    + apply http_only_proxy.
Qed.

Lemma http_only_mux (table : list (string * Handler)) :
  (forall pattern h, In (pattern, h) table -> http_only_cookies h) ->
  http_only_cookies (server.ServeMux table).
Proof.
  intros Hall r s c Hempty. unfold server.ServeMux.
  repeat match goal with
         | |- context [match List.find ?f table with _ => _ end] =>
             let Hfound := fresh "Hfound" in
             destruct (List.find f table) as [[pattern h]|] eqn:Hfound;
             [apply List.find_some in Hfound as [Hin _]; cbn;
              now apply (Hall pattern h Hin)|]
         end.
  run. no_cookie Hempty.
Qed.

Lemma http_only_front (s0 s1 : State) (front : Handler) :
  server.setupRoutes cfg providers s0 = (Ok front, s1) ->
  http_only_cookies front.
Proof.
  unfold server.setupRoutes.
  destruct template_ParseFS; [|discriminate]. run.
  destruct (ReverseProxy.NewReverseProxy _ _) as [rp|e]; [|discriminate].
  run. intros [= <- _].
  intros r s c Hempty. unfold server.addSecurityHeaders. run.
  apply http_only_mux; [|exact Hempty].
  intros pattern h. apply http_only_route.
Qed.

End Flags.

(** C10.  After [Load] has returned a configuration, its
    [Server.CookieHTTPOnly] is true whatever the file said (a
    [cookie_http_only: false] is overridden by [setDefaults]).  So the
    session cookie built by [CreateSessionCookie] and the clearing cookie
    built by [ClearSessionCookie] from it carry the HttpOnly flag, and so
    does every cookie in any response of the handler that [setupRoutes]
    builds from that configuration. *)
Theorem C10_http_only_forced {L : Lib}
    (getenv : string -> string) (readFile : string -> Result bytes)
    (unmarshal : bytes -> Result Config.t)
    (path : string) (cfg : Config.t) :
  config.Load getenv readFile unmarshal path = Ok cfg ->
  ServerConfig.CookieHTTPOnly (Config.Server cfg) = true
  /\ (forall sessionID maxAge,
        Cookie.HttpOnly
          (security.CreateSessionCookie ToLower (Config.Server cfg) sessionID maxAge)
        = true)
  /\ Cookie.HttpOnly (security.ClearSessionCookie ToLower (Config.Server cfg)) = true
  /\ (forall (providers : gmap string Provider) (s0 s1 : State) (front : Handler)
             (r : Request.t) (s : State) (c : Cookie.t),
        server.setupRoutes cfg providers s0 = (Ok front, s1) ->
        c ∈ ResponseWriter.SetCookies (resp (serve front r s)) ->
        Cookie.HttpOnly c = true).
Proof.
  unfold config.Load. intros Hload.
  destruct (readFile path) as [data_|e]; [|discriminate].
  destruct (unmarshal data_) as [c|e]; [|discriminate].
  injection Hload as <-.
  assert (Hflag : ServerConfig.CookieHTTPOnly
                    (Config.Server
                       (config.loadSecretsFromEnv getenv (config.setDefaults c)))
                  = true).
  { rewrite loadSecrets_Server. apply setDefaults_HTTPOnly. }
  split; [exact Hflag|]. split; [intros sid age; exact Hflag|].
  split; [exact Hflag|].
  intros providers s0 s1 front r s c0 Hsetup Hin.
  eapply (http_only_front _ providers Hflag s0 s1 front Hsetup r (begin s) c0);
    [reflexivity|exact Hin].
Qed.

(** A file that sets [cookie_http_only: false] still loads with the flag
    on, and the callback of the demo flow sets an HttpOnly cookie. *)
Lemma C10_witness :
  let loaded :=
    config.loadSecretsFromEnv (fun _ => "") (config.setDefaults Demo.file_cfg) in
  ServerConfig.CookieHTTPOnly (Config.Server Demo.file_cfg) = false
  /\ config.Load (fun _ => "") (fun _ => Ok []) (fun _ => Ok Demo.file_cfg)
                 "config.yaml" = Ok loaded
  /\ ServerConfig.CookieHTTPOnly (Config.Server loaded) = true
  /\ Cookie.HttpOnly
       (security.ClearSessionCookie (@ToLower Demo.lib) (Config.Server loaded))
     = true.
Proof.
  intros loaded. split; [reflexivity|]. split; [reflexivity|].
  destruct (C10_http_only_forced (L := Demo.lib) (fun _ => "") (fun _ => Ok [])
              (fun _ => Ok Demo.file_cfg) "config.yaml" loaded eq_refl)
    as (Hflag & _ & Hclear & _).
  split; [exact Hflag|exact Hclear].
Defined.

(** * Further properties of the code *)

(** ** The in-memory cache *)

(** X1.  What [Set] has stored, [Get] returns: if the entry's lifetime has
    not run out at the next clock reading, a [Get] of the key right after
    the [Set] returns the stored bytes and [Exists] answers true; the [Set]
    leaves every other key as it was. *)
Theorem X1_cache_set_then_get {L : Lib}
    (key : string) (value : bytes) (ttl : time.Duration) (s : State) :
  Now (S (ticks s)) <= Now (ticks s) + ttl ->
  fst (cache.Get key (snd (cache.Set_ key value ttl s))) = Ok value
  /\ fst (cache.Exists_ key (snd (cache.Set_ key value ttl s))) = Ok true
  /\ forall other : string,
       other <> key ->
       data (snd (cache.Set_ key value ttl s)) !! other = data s !! other.
Proof.
  intros Hlive. run.
  rewrite lookup_insert_eq. run.
  assert (Hafter : time.After (Now (S (ticks s))) (time.Add (Now (ticks s)) ttl)
                   = false).
  { unfold time.After, time.Add. apply Z.ltb_ge. lia. }
  rewrite Hafter. repeat split.
  intros other Hne. now rewrite lookup_insert_ne.
Qed.

(** A value stored for a minute is read back a millisecond later. *)
Lemma X1_witness :
  fst (cache.Get (L := Demo.lib) "k"
         (snd (cache.Set_ (L := Demo.lib) "k" (bytes_of "v") time.Minute
                 (Demo.state0 ∅))))
  = Ok (bytes_of "v").
Proof.
  apply (X1_cache_set_then_get (L := Demo.lib) "k" (bytes_of "v") time.Minute
           (Demo.state0 ∅)).
  vm_compute. discriminate.
Defined.

(** X2.  [Get] never returns a stale or foreign value: a value it returns
    is the one stored under the key, in an entry that has not expired at the
    reading [Get] takes.  [Exists] answers true exactly when [Get] returns a
    value, the only error of [Get] is [ErrNotFound], and neither call
    changes the map (an expired entry stays until the sweep). *)
Theorem X2_cache_no_stale_read {L : Lib} (key : string) (s : State) :
  (forall value : bytes,
     fst (cache.Get key s) = Ok value ->
     exists item : cacheItem.t,
       data s !! key = Some item
       /\ cacheItem.value item = value
       /\ Now (ticks s) <= cacheItem.expiresAt item)
  /\ (fst (cache.Exists_ key s) = Ok true
      <-> exists value : bytes, fst (cache.Get key s) = Ok value)
  /\ (forall e : string, fst (cache.Get key s) = Err e -> e = ErrNotFound)
  /\ data (snd (cache.Get key s)) = data s
  /\ data (snd (cache.Exists_ key s)) = data s.
Proof.
  run. destruct (data s !! key) as [item|] eqn:Hitem; run.
  - destruct (time.After (Now (ticks s)) (cacheItem.expiresAt item)) eqn:Hafter;
      run; repeat split; try congruence.
    + intros [value Hv]. discriminate.
    + intros value [= <-]. exists item. repeat split.
      unfold time.After in Hafter. apply Z.ltb_ge in Hafter. lia.
    + intros _. eauto.
  - repeat split; try congruence. intros [value Hv]. discriminate.
Qed.

(** X3.  The sweep removes exactly the entries that have expired at its
    clock reading, and no reader can tell: with a clock that does not run
    backwards, a [Get] after the sweep returns what it would have returned
    at that moment without the sweep. *)
Theorem X3_cache_cleanup_unobservable {L : Lib} (key : string) (s : State) :
  (forall item : cacheItem.t,
     data (snd (cache.cleanup s)) !! key = Some item
     <-> data s !! key = Some item
         /\ Now (ticks s) <= cacheItem.expiresAt item)
  /\ (Now (ticks s) <= Now (S (ticks s)) ->
      fst (cache.Get key (snd (cache.cleanup s)))
      = fst (cache.Get key
               (mkState (data s) (S (ticks s)) (draws s) (trace s) (resp s)))).
Proof.
  unfold cache.cleanup. run.
  assert (Hlook : forall item : cacheItem.t,
            filter (fun kv : string * cacheItem.t =>
                      time.After (Now (ticks s)) (cacheItem.expiresAt (snd kv)) = false)
                   (data s) !! key = Some item
            <-> data s !! key = Some item
                /\ Now (ticks s) <= cacheItem.expiresAt item).
  { intros item. rewrite map_lookup_filter_Some. cbn.
    unfold time.After. rewrite Z.ltb_ge. tauto. }
  split; [exact Hlook|].
  intros Hmono.
  destruct (filter _ (data s) !! key) as [item|] eqn:Hf.
  - destruct (proj1 (Hlook item) eq_refl) as [Hitem Hlive].
    rewrite Hitem. run.
    now destruct (time.After (Now (S (ticks s))) (cacheItem.expiresAt item)).
  - destruct (data s !! key) as [item|] eqn:Hitem; [|reflexivity].
    run.
    destruct (time.After (Now (S (ticks s))) (cacheItem.expiresAt item)) eqn:Hafter;
      [reflexivity|].
    exfalso. unfold time.After in Hafter. apply Z.ltb_ge in Hafter.
    assert (Hsome : None = Some item) by (apply Hlook; split; [reflexivity|lia]).
    discriminate.
Qed.

(** ** The CSRF gate *)

Lemma csrf_gate_pass {L : Lib}
    (next : Handler) (r : Request.t) (s : State) (item : cacheItem.t) :
  gated r = true ->
  presented_token r <> "" ->
  data s !! ("csrf:" ++ presented_token r) = Some item ->
  Now (ticks s) <= cacheItem.expiresAt item ->
  middleware.ValidateCSRF next r s
  = next r (mkState (delete ("csrf:" ++ presented_token r) (data s))
              (S (ticks s)) (draws s)
              (trace s ++ [CacheExists ("csrf:" ++ presented_token r);
                           CacheDelete ("csrf:" ++ presented_token r)])
              (resp s)).
Proof.
  intros Hgated Htoken Hitem Hlive.
  unfold middleware.ValidateCSRF.
  unfold gated in Hgated. rewrite Hgated.
  unfold presented_token in *.
  apply String.eqb_neq in Htoken. rewrite Htoken.
  run. rewrite Hitem. run.
  assert (Hafter : time.After (Now (ticks s)) (cacheItem.expiresAt item) = false).
  { unfold time.After. apply Z.ltb_ge. lia. }
  rewrite Hafter. run. now rewrite <- app_assoc.
Qed.

Lemma csrf_gate_reject {L : Lib} (next : Handler) (r : Request.t) (s : State) :
  gated r = true ->
  presented_token r <> "" ->
  data s !! ("csrf:" ++ presented_token r) = None ->
  ResponseWriter.Status (resp s) = None ->
  ResponseWriter.Status (resp (snd (middleware.ValidateCSRF next r s)))
  = Some StatusForbidden
  /\ data (snd (middleware.ValidateCSRF next r s)) = data s
  /\ middleware.ValidateCSRF next r s
     = middleware.ValidateCSRF (fun _ => ret tt) r s.
Proof.
  intros Hgated Htoken Hnone Hfresh.
  unfold middleware.ValidateCSRF.
  unfold gated in Hgated. rewrite Hgated.
  unfold presented_token in *.
  apply String.eqb_neq in Htoken. rewrite Htoken.
  run. rewrite Hnone. run.
  unfold ResponseWriter.WriteHeader. cbn. rewrite Hfresh. cbn.
  repeat split.
Qed.

(** X4.  A CSRF token is good for one request.  A POST, PUT or DELETE that
    presents a token whose [csrf:] entry is live is handed to the next
    handler with that entry deleted; and in any state in which the entry is
    deleted, the same request is answered 403 whatever the next handler is,
    with the store unchanged. *)
Theorem X4_csrf_token_single_use {L : Lib}
    (next : Handler) (r : Request.t) (s : State) (item : cacheItem.t) :
  gated r = true ->
  presented_token r <> "" ->
  data s !! ("csrf:" ++ presented_token r) = Some item ->
  Now (ticks s) <= cacheItem.expiresAt item ->
  middleware.ValidateCSRF next r s
  = next r (mkState (delete ("csrf:" ++ presented_token r) (data s))
              (S (ticks s)) (draws s)
              (trace s ++ [CacheExists ("csrf:" ++ presented_token r);
                           CacheDelete ("csrf:" ++ presented_token r)])
              (resp s))
  /\ forall (next' : Handler) (s' : State),
       data s' = delete ("csrf:" ++ presented_token r) (data s) ->
       ResponseWriter.Status (resp s') = None ->
       ResponseWriter.Status (resp (snd (middleware.ValidateCSRF next' r s')))
       = Some StatusForbidden
       /\ data (snd (middleware.ValidateCSRF next' r s')) = data s'
       /\ middleware.ValidateCSRF next' r s'
          = middleware.ValidateCSRF (fun _ => ret tt) r s'.
Proof.
  intros Hgated Htoken Hitem Hlive. split.
  - now apply (csrf_gate_pass next r s item).
  - intros next' s' Hdata Hfresh.
    apply csrf_gate_reject; try assumption.
    rewrite Hdata. apply lookup_delete_eq.
Qed.

(** Scenario S3: a POST with a token that is in the store passes the gate
    and uses the token up. *)
Lemma X4_witness :
  let out :=
    middleware.ValidateCSRF (L := Demo.lib) (fun _ => ret tt) Tour.csrf_post
      (Demo.state0 Tour.csrf_store) in
  data (snd out) = ∅
  /\ ResponseWriter.Status (resp (snd out)) = None.
Proof.
  intros out. subst out.
  destruct (X4_csrf_token_single_use (L := Demo.lib) (fun _ => ret tt)
              Tour.csrf_post (Demo.state0 Tour.csrf_store)
              (cacheItem.mk (bytes_of "1") (Demo.T0 + 10 * time.Minute)))
    as [Hpass _].
  - reflexivity.
  - discriminate.
  - reflexivity.
  - vm_compute. discriminate.
  - rewrite Hpass. split; reflexivity.
Defined.

(** X5.  A token made by [GenerateCSRFToken] is accepted by [ValidateCSRF]:
    if less than ten minutes pass on the clock between the two, a request
    that presents the token reaches the next handler, and the token is gone
    from the store. *)
Theorem X5_csrf_generated_token_accepted {L : Lib}
    (next : Handler) (r : Request.t) (s : State) (token : string) :
  fst (middleware.GenerateCSRFToken s) = Ok token ->
  gated r = true ->
  presented_token r = token ->
  token <> "" ->
  Now (S (ticks s)) <= Now (ticks s) + 10 * time.Minute ->
  exists s' : State,
    middleware.ValidateCSRF next r (snd (middleware.GenerateCSRFToken s))
    = next r s'
    /\ data s' = delete ("csrf:" ++ token) (data s).
Proof.
  intros Hgen Hgated Hpresented Hne Hlive.
  unfold middleware.GenerateCSRFToken in *. run.
  destruct (rand_token (draws s)) as [tok|e] eqn:Hrand; run; [|discriminate].
  injection Hgen as ->.
  eexists. split.
  - eapply csrf_gate_pass; rewrite ?Hpresented; try assumption.
    + cbn. apply lookup_insert_eq.
    + cbn. unfold time.Add. exact Hlive.
  - cbn. rewrite Hpresented. apply delete_insert_eq.
Qed.

(** The token the selection page would embed is accepted when it comes
    back. *)
Lemma X5_witness :
  exists s' : State,
    middleware.ValidateCSRF (L := Demo.lib) (fun _ => ret tt)
      (Demo.request "POST" "/auth/logout" [] [("csrf_token", "rnd-id-")] ∅ [])
      (snd (middleware.GenerateCSRFToken (L := Demo.lib) (Demo.state0 ∅)))
    = (tt, s')
    /\ data s' = ∅.
Proof.
  destruct (X5_csrf_generated_token_accepted (L := Demo.lib) (fun _ => ret tt)
              (Demo.request "POST" "/auth/logout" [] [("csrf_token", "rnd-id-")] ∅ [])
              (Demo.state0 ∅) "rnd-id-")
    as (s' & Hrun & Hdata).
  - reflexivity.
  - reflexivity.
  - reflexivity.
  - discriminate.
  - vm_compute. discriminate.
  - exists s'. split; [exact Hrun|]. rewrite Hdata. reflexivity.
Defined.

(** ** The authentication middleware: who gets through *)

Lemma redirect_response (url : string) (w : ResponseWriter.t) :
  ResponseWriter.Status w = None ->
  let w' := ResponseWriter.WriteHeader StatusFound
              (ResponseWriter.set_Header "Location" url w) in
  ResponseWriter.Status w' = Some StatusFound
  /\ ResponseWriter.Header_ w' !! "Location" = Some [url]
  /\ ResponseWriter.SetCookies w' = ResponseWriter.SetCookies w.
Proof.
  intros Hfresh. unfold ResponseWriter.WriteHeader. cbn. rewrite Hfresh. cbn.
  repeat split. apply lookup_insert_eq.
Qed.

(** Closes the goals about a run that ended in the redirect. *)
Ltac redirected Hfresh :=
  run;
  match goal with
  | |- context [ResponseWriter.WriteHeader StatusFound
                  (ResponseWriter.set_Header "Location" ?url ?w)] =>
      destruct (redirect_response url w Hfresh) as (-> & -> & ->)
  end;
  repeat split.

(** X6.  Without a stored session of a known provider there is no way
    past the middleware: if the request has no session cookie, or the store
    has no live entry under [session:<cookie>], or the entry does not
    decode, or it names a provider that is not registered, the answer is the
    302 to [/auth/select]; the next handler does not run, no cookie is set
    and the store is unchanged. *)
Theorem X6_auth_no_session_redirects {L : Lib}
    (cfg : ServerConfig.t) (providers : gmap string Provider) (next : Handler)
    (r : Request.t) (s : State) :
  ResponseWriter.Status (resp s) = None ->
  (forall (cookie : string * string) (blob : bytes) (session : Session.t),
     security.GetSessionCookie r (ServerConfig.CookieName cfg) = Ok cookie ->
     fst (cache.Get ("session:" ++ snd cookie) s) = Ok blob ->
     json_Unmarshal_Session blob = Ok session ->
     providers !! Session.ProviderID session = None) ->
  let out := middleware.RequireAuth cfg providers next r s in
  ResponseWriter.Status (resp (snd out)) = Some StatusFound
  /\ ResponseWriter.Header_ (resp (snd out)) !! "Location" = Some ["/auth/select"]
  /\ ResponseWriter.SetCookies (resp (snd out)) = ResponseWriter.SetCookies (resp s)
  /\ data (snd out) = data s
  /\ out = middleware.RequireAuth cfg providers (fun _ => ret tt) r s.
Proof.
  intros Hfresh Hnone out. subst out.
  unfold middleware.RequireAuth.
  destruct (security.GetSessionCookie r (ServerConfig.CookieName cfg))
    as [cookie|e] eqn:Hcookie; [|now redirected Hfresh].
  specialize (Hnone cookie). revert Hnone. run.
  destruct (data s !! ("session:" ++ snd cookie)) as [item|] eqn:Hitem; run;
    [|intros _; now redirected Hfresh].
  destruct (time.After (Now (ticks s)) (cacheItem.expiresAt item)); run;
    [intros _; now redirected Hfresh|].
  intros Hnone.
  destruct (json_Unmarshal_Session (cacheItem.value item)) as [session|e]
    eqn:Hjson; run; [|now redirected Hfresh].
  rewrite (Hnone _ session eq_refl eq_refl Hjson).
  now redirected Hfresh.
Qed.

(** Scenario S4, first half: the cookie of a session that is not in the
    store gets the redirect. *)
Lemma X6_witness :
  ResponseWriter.Status
    (resp (snd (middleware.RequireAuth (L := Demo.lib) Demo.server_cfg
                  Demo.providers (ReverseProxy.ServeHTTP (L := Demo.lib) Demo.backend)
                  Demo.dashboard_req (Demo.state0 ∅))))
  = Some StatusFound.
Proof.
  apply (X6_auth_no_session_redirects (L := Demo.lib) Demo.server_cfg
           Demo.providers (ReverseProxy.ServeHTTP (L := Demo.lib) Demo.backend)
           Demo.dashboard_req (Demo.state0 ∅)).
  - reflexivity.
  - intros cookie blob session _ Hget. vm_compute in Hget. discriminate.
Defined.

(** X7.  A request whose cookie names a live entry that decodes to a
    session of a registered provider, not yet past its [ExpiresAt], is handed
    to the next handler with that session in its context; the middleware has
    read the entry and called [ValidateSession], and has written neither to
    the store nor to the response. *)
Theorem X7_auth_valid_session_passes {L : Lib}
    (cfg : ServerConfig.t) (providers : gmap string Provider) (next : Handler)
    (r : Request.t) (s : State)
    (cookie : string * string) (item : cacheItem.t) (session : Session.t)
    (provider : Provider) :
  security.GetSessionCookie r (ServerConfig.CookieName cfg) = Ok cookie ->
  data s !! ("session:" ++ snd cookie) = Some item ->
  Now (ticks s) <= cacheItem.expiresAt item ->
  json_Unmarshal_Session (cacheItem.value item) = Ok session ->
  providers !! Session.ProviderID session = Some provider ->
  Session.ProviderID session = auth.ID provider ->
  Now (S (ticks s)) <= Session.ExpiresAt session ->
  middleware.RequireAuth cfg providers next r s
  = next (Request.set_Context session r)
      (mkState (data s) (S (S (ticks s))) (draws s)
         (trace s ++ [CacheGet ("session:" ++ snd cookie);
                      CallValidateSession (auth.ID provider)])
         (resp s)).
Proof.
  intros Hcookie Hitem Hlive Hjson Hprov Hpid Hvalid.
  assert (Hl : time.After (Now (ticks s)) (cacheItem.expiresAt item) = false)
    by (unfold time.After; apply Z.ltb_ge; lia).
  assert (Hv : time.After (Now (S (ticks s))) (Session.ExpiresAt session) = false)
    by (unfold time.After; apply Z.ltb_ge; lia).
  apply String.eqb_eq in Hpid.
  unfold middleware.RequireAuth.
  rewrite Hcookie. run. rewrite Hitem. run. rewrite Hl. run.
  rewrite Hjson, Hprov.
  unfold auth.ValidateSession, oidc.ValidateSession, saml.ValidateSession.
  destruct provider as [q|q]; run; rewrite Hpid; run; rewrite Hv; run.
  all: now rewrite <- app_assoc.
Qed.

(** A request with the cookie of the stored session reaches the handler
    behind the middleware, which finds the session in the context. *)
Lemma X7_witness :
  exists s' : State,
    middleware.RequireAuth (L := Tour.lib) Demo.server_cfg Demo.providers
      (fun r => match middleware.GetSession r with
                | Some session => http_Error (Session.ID session) 200
                | None => http_Error "none" 500
                end)
      Tour.dashboard_req (Demo.state0 Tour.logged_in)
    = http_Error "id-xxxx" 200 s'
    /\ data s' = Tour.logged_in.
Proof.
  eexists. split.
  - rewrite (X7_auth_valid_session_passes (L := Tour.lib) Demo.server_cfg
               Demo.providers _ Tour.dashboard_req (Demo.state0 Tour.logged_in)
               ("sso-session", "id-xxxx")
               (cacheItem.mk Tour.session_blob (Demo.T0 + time.Hour))
               Tour.session (OIDCProvider Demo.azure)).
    + reflexivity.
    + reflexivity.
    + reflexivity.
    + vm_compute. discriminate.
    + reflexivity.
    + reflexivity.
    + reflexivity.
    + vm_compute. discriminate.
  - reflexivity.
Defined.

(** X8.  A successful refresh replaces the stored session in place: the
    refreshed session is written under the key of the request's cookie, with
    the time left until its new [ExpiresAt] as lifetime; the next handler
    gets the refreshed session, and no new cookie is issued. *)
Theorem X8_auth_refresh_rewrites_entry {L : Lib}
    (cfg : ServerConfig.t) (providers : gmap string Provider) (next : Handler)
    (r : Request.t) (s : State)
    (cookie : string * string) (item : cacheItem.t) (session : Session.t)
    (q : oidc.Provider) (tok : Token.t) (newSession : Session.t) (blob : bytes) :
  security.GetSessionCookie r (ServerConfig.CookieName cfg) = Ok cookie ->
  data s !! ("session:" ++ snd cookie) = Some item ->
  Now (ticks s) <= cacheItem.expiresAt item ->
  json_Unmarshal_Session (cacheItem.value item) = Ok session ->
  providers !! Session.ProviderID session = Some (OIDCProvider q) ->
  Session.ProviderID session = oidc.id q ->
  Session.ExpiresAt session < Now (S (ticks s)) ->
  Session.ProviderType session = "oidc" ->
  Session.TokenExpiry session - Now (S (S (ticks s))) < 5 * time.Minute ->
  Session.RefreshToken session <> "" ->
  oidc.TokenSource_Token q (Session.RefreshToken session) = Ok tok ->
  oidc.apply_token q session tok = Ok newSession ->
  json_Marshal_Session newSession = Ok blob ->
  let key := "session:" ++ snd cookie in
  let ttl := time.Sub (Session.ExpiresAt newSession) (Now (S (S (S (ticks s))))) in
  middleware.RequireAuth cfg providers next r s
  = next (Request.set_Context newSession r)
      (mkState
         (<[key := cacheItem.mk blob (time.Add (Now (S (S (S (S (ticks s)))))) ttl)]>
            (data s))
         (S (S (S (S (S (ticks s)))))) (draws s)
         (trace s ++ [CacheGet key;
                      CallValidateSession (oidc.id q);
                      CallRefreshSession (oidc.id q);
                      TokenRefresh (Session.RefreshToken session);
                      CacheSet key blob ttl])
         (resp s)).
Proof.
  intros Hcookie Hitem Hlive Hjson Hprov Hpid Hexpired Hkind Hwin Hrt Htok
    Happly Hblob key ttl. subst key ttl.
  assert (Hl : time.After (Now (ticks s)) (cacheItem.expiresAt item) = false)
    by (unfold time.After; apply Z.ltb_ge; lia).
  apply After_true in Hexpired.
  apply String.eqb_eq in Hpid. apply String.eqb_eq in Hkind.
  apply Until_below in Hwin. apply String.eqb_neq in Hrt.
  unfold middleware.RequireAuth.
  rewrite Hcookie. run. rewrite Hitem. run. rewrite Hl. run.
  rewrite Hjson, Hprov.
  unfold auth.ValidateSession, oidc.ValidateSession,
    middleware.refresh_or_redirect, auth.RefreshSession, oidc.RefreshSession.
  run. rewrite Hpid. run. rewrite Hexpired. run. rewrite Hkind. run.
  rewrite Hwin. run. rewrite Hrt. run. rewrite Htok. run.
  rewrite Happly, Hblob. run.
  now repeat rewrite <- app_assoc.
Qed.

(** Scenario S4, second half: the stale session of the demo is refreshed
    and its entry rewritten under the same key. *)
Lemma X8_witness :
  let out :=
    middleware.RequireAuth (L := Demo.lib) Demo.server_cfg Demo.providers
      (fun _ => ret tt) Demo.dashboard_req Demo.s_stale in
  cacheItem.value <$> (data (snd out) !! "session:abc")
  = Some (bytes_of "session s1 of azure")
  /\ ResponseWriter.SetCookies (resp (snd out)) = [].
Proof.
  intros out. subst out.
  rewrite (X8_auth_refresh_rewrites_entry (L := Demo.lib) Demo.server_cfg
             Demo.providers (fun _ => ret tt) Demo.dashboard_req Demo.s_stale
             ("sso-session", "abc")
             (cacheItem.mk Demo.expired_blob (Demo.T0 + 1000000))
             Demo.expired_session Demo.azure
             (Demo.token (Demo.T0 + time.Hour) "")
             (Session.mk "s1" "azure" "oidc" Demo.alice (Demo.T0 - time.Hour)
                (Demo.T0 + time.Hour) "at-new" "rt-old" "idt-new"
                (Demo.T0 + time.Hour) "" "c1")
             (bytes_of "session s1 of azure")).
  - split; reflexivity.
  - reflexivity.
  - reflexivity.
  - vm_compute. discriminate.
  - reflexivity.
  - reflexivity.
  - reflexivity.
  - vm_compute. reflexivity.
  - reflexivity.
  - vm_compute. reflexivity.
  - discriminate.
  - reflexivity.
  - reflexivity.
  - reflexivity.
Defined.

(** X9.  A session that fails validation and cannot be refreshed gets the
    redirect: for a SAML provider always, for an OIDC provider when the
    session has no refresh token, the IdP refuses the refresh, or the new ID
    token does not verify.  The next handler does not run, and the entry of
    the session stays in the store as it was. *)
Theorem X9_auth_failed_refresh_redirects {L : Lib}
    (cfg : ServerConfig.t) (providers : gmap string Provider) (next : Handler)
    (r : Request.t) (s : State)
    (cookie : string * string) (item : cacheItem.t) (session : Session.t)
    (provider : Provider) :
  ResponseWriter.Status (resp s) = None ->
  security.GetSessionCookie r (ServerConfig.CookieName cfg) = Ok cookie ->
  data s !! ("session:" ++ snd cookie) = Some item ->
  json_Unmarshal_Session (cacheItem.value item) = Ok session ->
  providers !! Session.ProviderID session = Some provider ->
  Session.ProviderID session <> auth.ID provider
  \/ Session.ExpiresAt session < Now (S (ticks s)) ->
  match provider with
  | SAMLProvider _ => True
  | OIDCProvider q =>
      Session.RefreshToken session = ""
      \/ (exists e, oidc.TokenSource_Token q (Session.RefreshToken session) = Err e)
      \/ (exists tok e,
            oidc.TokenSource_Token q (Session.RefreshToken session) = Ok tok
            /\ oidc.apply_token q session tok = Err e)
  end ->
  let out := middleware.RequireAuth cfg providers next r s in
  ResponseWriter.Status (resp (snd out)) = Some StatusFound
  /\ ResponseWriter.Header_ (resp (snd out)) !! "Location" = Some ["/auth/select"]
  /\ ResponseWriter.SetCookies (resp (snd out)) = ResponseWriter.SetCookies (resp s)
  /\ data (snd out) = data s
  /\ out = middleware.RequireAuth cfg providers (fun _ => ret tt) r s.
Proof.
  intros Hfresh Hcookie Hitem Hjson Hprov Hinvalid Hrefresh out. subst out.
  unfold middleware.RequireAuth.
  rewrite Hcookie. run. rewrite Hitem. run.
  destruct (time.After (Now (ticks s)) (cacheItem.expiresAt item)); run;
    [now redirected Hfresh|].
  rewrite Hjson, Hprov.
  unfold auth.ValidateSession, oidc.ValidateSession, saml.ValidateSession,
    middleware.refresh_or_redirect, auth.RefreshSession, oidc.RefreshSession,
    saml.RefreshSession.
  assert (Hbad : (negb (String.eqb (Session.ProviderID session) (auth.ID provider))
                  || time.After (Now (S (ticks s))) (Session.ExpiresAt session))%bool
                 = true).
  { destruct Hinvalid as [Hpid|Hexp].
    - apply String.eqb_neq in Hpid. now rewrite Hpid.
    - apply After_true in Hexp. rewrite Hexp. apply orb_true_r. }
  destruct provider as [q|q]; run.
  all: destruct (String.eqb (Session.ProviderID session) _) eqn:Hpid; run.
  all: try (cbn in Hbad; rewrite Hbad; run).
  all: destruct (String.eqb (Session.ProviderType session) "oidc"); run;
    [|now redirected Hfresh].
  all: match goal with
       | |- context [time.Sub ?t ?now <? 5 * time.Minute] =>
           destruct (time.Sub t now <? 5 * time.Minute); run;
           [|now redirected Hfresh]
       end.
  all: try now redirected Hfresh.
  all: destruct Hrefresh as [Hrt|[(e & Herr)|(tok & e & Htok & Herr)]].
  all: try (rewrite Hrt; now redirected Hfresh).
  all: destruct (String.eqb (Session.RefreshToken session) ""); run;
    [now redirected Hfresh|].
  all: try (rewrite Herr; now redirected Hfresh).
  all: rewrite Htok; run; rewrite Herr; now redirected Hfresh.
Qed.

(** The same stale session with an IdP that refuses the refresh: the
    redirect, and the store as it was. *)
Lemma X9_witness :
  let out :=
    middleware.RequireAuth (L := Demo.lib) Demo.server_cfg
      {[ "azure" := OIDCProvider Tour.azure_revoked ]}
      (fun _ => ret tt) Demo.dashboard_req Demo.s_stale in
  ResponseWriter.Status (resp (snd out)) = Some StatusFound
  /\ data (snd out) = Demo.session_stale.
Proof.
  intros out. subst out.
  destruct (X9_auth_failed_refresh_redirects (L := Demo.lib) Demo.server_cfg
              {[ "azure" := OIDCProvider Tour.azure_revoked ]}
              (fun _ => ret tt) Demo.dashboard_req Demo.s_stale
              ("sso-session", "abc")
              (cacheItem.mk Demo.expired_blob (Demo.T0 + 1000000))
              Demo.expired_session (OIDCProvider Tour.azure_revoked))
    as (Hstatus & _ & _ & Hdata & _).
  - reflexivity.
  - reflexivity.
  - reflexivity.
  - reflexivity.
  - reflexivity.
  - right. vm_compute. reflexivity.
  - right. left. exists "invalid_grant". reflexivity.
  - split; [exact Hstatus|exact Hdata].
Defined.

(** ** The callback handlers: what stands behind a session cookie *)

Lemma callback_sets_no_cookie {L : Lib} (provider : Provider) (r : Request.t)
    (s : State) :
  resp (snd (auth.HandleCallback provider r s)) = resp s.
Proof.
  unfold auth.HandleCallback, oidc.HandleCallback, oidc.exchange_and_verify,
    saml.HandleCallback.
  destruct provider; run; steps; reflexivity.
Qed.

Section Issue.
Context {L : Lib}.
Variable cfg : Config.t.


End Issue.



(** The outcome of a callback handler that has set a cookie. *)
Lemma cookie_after_callback {L : Lib}
    (cfg : Config.t) (providers : gmap string Provider) (providerID : string)
    (saml_route : bool) (r : Request.t) (s : State) (c : Cookie.t) :
  let handler :=
    if saml_route then handlers.HandleSAMLCallback cfg providers providerID
    else handlers.HandleOIDCCallback cfg providers providerID in
  c ∈ ResponseWriter.SetCookies (resp (serve handler r s)) ->
  exists (provider : Provider) (session : Session.t),
    providers !! providerID = Some provider
    /\ fst (auth.HandleCallback provider r (begin s)) = Ok session.
Proof.
  intros handler Hin. subst handler. unfold serve in *.
  destruct saml_route;
    unfold handlers.HandleSAMLCallback, handlers.HandleOIDCCallback in *;
    (destruct (providers !! providerID) as [provider|] eqn:Hprov;
     [|cbn in Hin; inversion Hin]);
    unfold bind at 1 in Hin;
    pose proof (callback_sets_no_cookie provider r (begin s)) as Hempty;
    destruct (auth.HandleCallback provider r (begin s)) as [[session|e] s'] eqn:Hcb;
    cbn [snd] in Hempty.
  2, 4: cbn in Hin; autorewrite with cookies in Hin;
        rewrite Hempty in Hin; inversion Hin.
  all: exists provider, session; split; [reflexivity|now rewrite Hcb].
Qed.

Lemma oidc_cookie_rests_on {L : Lib}
    (cfg : Config.t) (providers : gmap string Provider) (providerID : string)
    (q : oidc.Provider) (r : Request.t) (s : State) (c : Cookie.t) :
  providers !! providerID = Some (OIDCProvider q) ->
  c ∈ ResponseWriter.SetCookies
        (resp (serve (handlers.HandleOIDCCallback cfg providers providerID) r s)) ->
  exists (item : cacheItem.t) (st : OIDCState.t) (tok : Token.t)
         (raw : string) (idt : bytes) (claims : gmap string Value),
    data s !! ("oidc:state:" ++ Values_Get (Request.Query r) "state") = Some item
    /\ cacheItem.expiresAt item >= Now (ticks s)
    /\ json_Unmarshal_OIDCState (cacheItem.value item) = Ok st
    /\ OIDCState.ProviderID st = oidc.id q
    /\ oidc.Exchange q (OIDCState.RedirectURL st)
         (Values_Get (Request.Query r) "code") (OIDCState.CodeVerifier st) = Ok tok
    /\ Token.id_token tok = Some raw
    /\ oidc.Verify q raw = Ok idt
    /\ oidc.Claims q idt = Ok claims.
Proof.
  intros Hprov Hin.
  destruct (cookie_after_callback cfg providers providerID false r s c Hin)
    as (provider & session & Hprov' & Hok).
  rewrite Hprov in Hprov'. injection Hprov' as <-.
  revert Hok.
  unfold auth.HandleCallback, oidc.HandleCallback, oidc.exchange_and_verify.
  run.
  destruct (String.eqb (Values_Get (Request.Query r) "code") ""); [discriminate|].
  destruct (String.eqb (Values_Get (Request.Query r) "state") ""); [discriminate|].
  run.
  destruct (data s !! _) as [item|] eqn:Hitem; run; [|discriminate].
  destruct (time.After _ _) eqn:Hlive; run; [discriminate|].
  destruct (json_Unmarshal_OIDCState _) as [st|] eqn:Hst; run; [|discriminate].
  destruct (String.eqb (OIDCState.ProviderID st) (oidc.id q)) eqn:Hpid; run;
    [|discriminate].
  apply String.eqb_eq in Hpid.
  destruct (oidc.Exchange q _ _ _) as [tok|] eqn:Hex; run; [|discriminate].
  destruct (Token.id_token tok) as [raw|] eqn:Hraw; run; [|discriminate].
  destruct (oidc.Verify q raw) as [idt|] eqn:Hver; run; [|discriminate].
  destruct (oidc.Claims q idt) as [claims|] eqn:Hcl; run; [|discriminate].
  intros _.
  exists item, st, tok, raw, idt, claims. repeat split; try assumption.
  unfold time.After in Hlive. apply Z.ltb_ge in Hlive. lia.
Qed.

(** X11.  The OIDC callback handler sets a cookie only for a verified
    login: the store held a live flow state under the [state] of the
    request, issued for this provider; the IdP exchanged the [code] for a
    token under the redirect URL and the code verifier of that flow state;
    the token carried an ID token, which verified and whose claims
    decoded. *)
Theorem X11_oidc_cookie_only_after_verification {L : Lib}
    (cfg : Config.t) (providers : gmap string Provider) (providerID : string)
    (q : oidc.Provider) (r : Request.t) (s : State) (c : Cookie.t) :
  providers !! providerID = Some (OIDCProvider q) ->
  c ∈ ResponseWriter.SetCookies
        (resp (serve (handlers.HandleOIDCCallback cfg providers providerID) r s)) ->
  exists (item : cacheItem.t) (st : OIDCState.t) (tok : Token.t)
         (raw : string) (idt : bytes) (claims : gmap string Value),
    data s !! ("oidc:state:" ++ Values_Get (Request.Query r) "state") = Some item
    /\ cacheItem.expiresAt item >= Now (ticks s)
    /\ json_Unmarshal_OIDCState (cacheItem.value item) = Ok st
    /\ OIDCState.ProviderID st = oidc.id q
    /\ oidc.Exchange q (OIDCState.RedirectURL st)
         (Values_Get (Request.Query r) "code") (OIDCState.CodeVerifier st) = Ok tok
    /\ Token.id_token tok = Some raw
    /\ oidc.Verify q raw = Ok idt
    /\ oidc.Claims q idt = Ok claims.
Proof. apply oidc_cookie_rests_on. Qed.

(** The same cookie stands on the token the IdP gave for the stored
    verifier. *)
Lemma X11_witness :
  let c := security.CreateSessionCookie Demo.lower Demo.server_cfg "id-xx"
             3599998000000 in
  c ∈ ResponseWriter.SetCookies
        (resp (serve Demo.oidc_callback Demo.callback_req Demo.s_pending))
  /\ exists tok,
       oidc.Exchange Demo.azure (OIDCState.RedirectURL Demo.flow_state) "C"
         (OIDCState.CodeVerifier Demo.flow_state) = Ok tok.
Proof.
  intros c.
  assert (Hin : c ∈ ResponseWriter.SetCookies
                      (resp (serve Demo.oidc_callback Demo.callback_req
                               Demo.s_pending))).
  { vm_compute. apply list_elem_of_here. }
  split; [exact Hin|].
  destruct (X11_oidc_cookie_only_after_verification (L := Demo.lib) Demo.cfg
              Demo.providers "azure" Demo.azure Demo.callback_req Demo.s_pending
              c eq_refl Hin)
    as (item & st & tok & raw & idt & claims & Hitem & _ & Hst & _ & Hex & _).
  vm_compute in Hitem. injection Hitem as <-.
  vm_compute in Hst. injection Hst as <-.
  exists tok. exact Hex.
Defined.

(** X12.  The SAML callback handler never looks into the store (the
    [saml:request] entry written at initiation is not read or removed) and
    changes it at most under the key of the new session.  It sets a cookie
    only when the service provider accepted the posted response, and the
    answer is then a 302, which goes to [/] when no [RelayState] was
    posted. *)
Theorem X12_saml_callback_outcome {L : Lib}
    (cfg : Config.t) (providers : gmap string Provider) (providerID : string)
    (q : saml.Provider) (r : Request.t) (s : State) :
  providers !! providerID = Some (SAMLProvider q) ->
  let s' := serve (handlers.HandleSAMLCallback cfg providers providerID) r s in
  filter (fun e => is_cache_read e = true) (events_since s s') = []
  /\ (forall key : string,
        data s' !! key <> data s !! key ->
        key = "session:" ++ uuid_String (S (S (draws s))))
  /\ (forall c : Cookie.t,
        c ∈ ResponseWriter.SetCookies (resp s') ->
        exists assertion : Assertion.t,
          saml.ParseResponse q r = Ok assertion
          /\ Request.ParseFormError r = None
          /\ Values_Get (Request.PostForm r) "SAMLResponse" <> ""
          /\ ResponseWriter.Status (resp s') = Some StatusFound
          /\ (Request.FormValue r "RelayState" = "" ->
              ResponseWriter.Header_ (resp s') !! "Location" = Some ["/"])).
Proof.
  intros Hprov s'. subst s'.
  unfold serve, begin, handlers.HandleSAMLCallback. rewrite Hprov.
  unfold auth.HandleCallback, saml.HandleCallback, handlers.issue_session.
  run.
  destruct (Request.ParseFormError r) as [e|] eqn:Hparse; run.
  { events. repeat split; [congruence|intros c Hin; inversion Hin]. }
  destruct (String.eqb (Values_Get (Request.PostForm r) "SAMLResponse") "")
    eqn:Hresp; run.
  { events. repeat split; [congruence|intros c Hin; inversion Hin]. }
  apply String.eqb_neq in Hresp.
  destruct (saml.ParseResponse q r) as [assertion|e] eqn:Hassert; run.
  2: { events. repeat split; [congruence|intros c Hin; inversion Hin]. }
  destruct (xml_Marshal_Assertion assertion) as [xml|e]; run.
  2: { events. repeat split; [congruence|intros c Hin; inversion Hin]. }
  destruct (json_Marshal_Session _) as [blob|e]; run.
  2: { events. repeat split; [congruence|intros c Hin; inversion Hin]. }
  destruct (String.eqb (Request.FormValue r "RelayState") "") eqn:Hrelay; run.
  all: events; repeat split.
  all: try (intros key Hkey;
            destruct (decide (key = "session:" ++ uuid_String (S (S (draws s)))))
              as [->|Hne]; [reflexivity|];
            now rewrite lookup_insert_ne in Hkey by congruence).
  all: intros c _; exists assertion.
  all: repeat (split; [first [assumption|reflexivity]|]).
  all: intros Hnone.
  all: first [apply lookup_insert_eq
             |apply String.eqb_neq in Hrelay; contradiction].
Qed.

(** A SAML response posted without a relay state: it is consumed without a
    look at the store, and the 302 that carries the cookie goes to [/]. *)
Lemma X12_witness :
  let r := Demo.request "POST" "/auth/saml/okta/acs" []
             [("SAMLResponse", "PHNhbWw+")] ∅ [] in
  let s' := serve (handlers.HandleSAMLCallback (L := Demo.lib) Demo.cfg
                     Tour.saml_providers "okta") r (Demo.state0 ∅) in
  filter (fun e => is_cache_read e = true) (events_since (Demo.state0 ∅) s') = []
  /\ ResponseWriter.Status (resp s') = Some StatusFound
  /\ ResponseWriter.Header_ (resp s') !! "Location" = Some ["/"].
Proof.
  intros r s'.
  destruct (X12_saml_callback_outcome (L := Demo.lib) Demo.cfg
              Tour.saml_providers "okta" (Demo.okta (Some (Demo.T0 + time.Hour)))
              r (Demo.state0 ∅) eq_refl)
    as (Hquiet & _ & Hcookie).
  split; [exact Hquiet|].
  destruct (Hcookie (security.CreateSessionCookie Demo.lower Demo.server_cfg
                       "id-xx" 3599998000000))
    as (assertion & _ & _ & _ & Hstatus & Hloc).
  - vm_compute. apply list_elem_of_here.
  - split; [exact Hstatus|]. apply Hloc. vm_compute. reflexivity.
Defined.



(** ** The selection handler *)

(** X14.  With one provider and the selection page switched off
    ([ui.enable: false]), a GET of the selection endpoint starts the login
    at that provider right away, as the POST for it would, and stores no
    CSRF token. *)
Theorem X14_select_get_single_provider {L : Lib}
    (cfg : Config.t) (id : string) (provider : Provider)
    (r : Request.t) (s : State) :
  range_complete L ->
  UIConfig.Enable (Config.UI cfg) = Some false ->
  handlers.handleGet cfg {[ id := provider ]} r s
  = handlers.initiateAuthForProvider cfg provider r s
  /\ forall key : string,
       CacheSet ("csrf:" ++ key) (bytes_of "1") (10 * time.Minute)
       ∉ events_since s (snd (handlers.handleGet cfg {[ id := provider ]} r s)).
Proof.
  intros Hrange Hui.
  assert (Hget : handlers.handleGet cfg {[ id := provider ]} r s
                 = handlers.initiateAuthForProvider cfg provider r s).
  { unfold handlers.handleGet. rewrite Hui, map_size_singleton. cbn [Nat.eqb andb].
    pose proof (Hrange Provider {[ id := provider ]}) as Hperm.
    rewrite map_to_list_singleton in Hperm.
    apply Permutation_singleton_r in Hperm. now rewrite Hperm. }
  split; [exact Hget|].
  intros key. rewrite Hget.
  unfold handlers.initiateAuthForProvider, auth.InitiateAuth, oidc.InitiateAuth,
    saml.InitiateAuth, oidc.generateCodeVerifier.
  run. steps.
  all: events; rewrite ?drop_all.
  all: intros Hin;
       repeat (apply elem_of_cons in Hin as [Hin|Hin];
               [try discriminate|]);
       try now inversion Hin.
Qed.

(** With the selection page switched off and one provider, a GET of
    [/auth/select] goes to the IdP at once. *)
Lemma X14_witness :
  ResponseWriter.Header_
    (resp (snd (handlers.handleGet (L := Demo.lib) Tour.cfg_direct
                  Demo.providers
                  (Demo.request "GET" "/auth/select" [] [] ∅ [])
                  (Demo.state0 ∅))))
    !! "Location"
  = Some ["https://login.example.com/authorize?state=id-x"].
Proof.
  rewrite (proj1 (X14_select_get_single_provider (L := Demo.lib) Tour.cfg_direct
                    "azure" (OIDCProvider Demo.azure)
                    (Demo.request "GET" "/auth/select" [] [] ∅ [])
                    (Demo.state0 ∅) range_complete_demo eq_refl)).
  vm_compute. reflexivity.
Defined.

(** ** Logout *)

(** X15.  Logout ends the session on the server: a POST to the logout
    handler deletes [session:<cookie>], sets the clearing cookie (empty
    value, [MaxAge] -1) and redirects to [/auth/select]; a request that
    still presents the old cookie is then redirected by the middleware, and
    the handler behind it does not run. *)
Theorem X15_logout_ends_session {L : Lib}
    (cfg : Config.t) (providers : gmap string Provider) (next : Handler)
    (r r' : Request.t) (s : State) :
  Request.Method r = "POST" ->
  security.GetSessionCookie r' (ServerConfig.CookieName (Config.Server cfg))
  = security.GetSessionCookie r (ServerConfig.CookieName (Config.Server cfg)) ->
  let s1 := serve (handlers.Logout_ServeHTTP cfg) r s in
  let s2 := serve (middleware.RequireAuth (Config.Server cfg) providers next) r' s1 in
  (forall cookie,
     security.GetSessionCookie r (ServerConfig.CookieName (Config.Server cfg))
     = Ok cookie ->
     data s1 = delete ("session:" ++ snd cookie) (data s))
  /\ ResponseWriter.SetCookies (resp s1)
     = [security.ClearSessionCookie ToLower (Config.Server cfg)]
  /\ Cookie.Value (security.ClearSessionCookie ToLower (Config.Server cfg)) = ""
  /\ Cookie.MaxAge (security.ClearSessionCookie ToLower (Config.Server cfg)) = -1
  /\ ResponseWriter.Status (resp s1) = Some StatusFound
  /\ ResponseWriter.Header_ (resp s1) !! "Location" = Some ["/auth/select"]
  /\ ResponseWriter.Status (resp s2) = Some StatusFound
  /\ ResponseWriter.Header_ (resp s2) !! "Location" = Some ["/auth/select"]
  /\ s2 = serve (middleware.RequireAuth (Config.Server cfg) providers
                   (fun _ => ret tt)) r' s1.
Proof.
  intros Hpost Hsame s1 s2. subst s1 s2.
  unfold serve, begin, handlers.Logout_ServeHTTP, middleware.RequireAuth.
  rewrite Hpost, Hsame. cbn [String.eqb Ascii.eqb Bool.eqb negb].
  destruct (security.GetSessionCookie r _) as [cookie|e] eqn:Hcookie; run.
  - rewrite lookup_delete_eq. run.
    repeat split; try apply lookup_insert_eq.
    now intros ? [= <-].
  - repeat split; try apply lookup_insert_eq. discriminate.
Qed.

(** Scenario S5: after the logout the cookie of the session opens
    nothing. *)
Lemma X15_witness :
  let s1 := serve (handlers.Logout_ServeHTTP (L := Demo.lib) Demo.cfg)
              Demo.logout_post Demo.s_stale in
  let s2 := serve (middleware.RequireAuth (L := Demo.lib) Demo.server_cfg
                     Demo.providers
                     (ReverseProxy.ServeHTTP (L := Demo.lib) Demo.backend))
              Demo.dashboard_req s1 in
  data s1 = ∅
  /\ ResponseWriter.Status (resp s2) = Some StatusFound.
Proof.
  intros s1 s2.
  destruct (X15_logout_ends_session (L := Demo.lib) Demo.cfg Demo.providers
              (ReverseProxy.ServeHTTP (L := Demo.lib) Demo.backend)
              Demo.logout_post Demo.dashboard_req Demo.s_stale eq_refl eq_refl)
    as (Hdata & _ & _ & _ & _ & _ & Hstatus & _).
  split; [|exact Hstatus].
  subst s1. rewrite (Hdata ("sso-session", "abc") eq_refl). reflexivity.
Defined.

(** ** The health endpoint *)

(** X16.  The health endpoint leaves no trace in the store (its probe key
    is removed again) and sets no cookie; it answers 200 exactly when the
    backend can be reached and 503 exactly when it cannot. *)
Theorem X16_health_probe {L : Lib}
    (cfg : Config.t) (providers : gmap string Provider) (startTime : time.Time)
    (r : Request.t) (s : State) :
  let s' := serve (handlers.Health_ServeHTTP cfg providers startTime) r s in
  data s' = delete "health:check" (data s)
  /\ (ResponseWriter.Status (resp s') = Some 200
      <-> exists u, http_Get (BackendConfig.URL (Config.Backend cfg)) = Ok u)
  /\ (ResponseWriter.Status (resp s') = Some 503
      <-> exists e, http_Get (BackendConfig.URL (Config.Backend cfg)) = Err e)
  /\ ResponseWriter.SetCookies (resp s') = [].
Proof.
  intros s'. subst s'.
  unfold serve, begin, handlers.Health_ServeHTTP.
  run.
  destruct (http_Get (BackendConfig.URL (Config.Backend cfg))) as [u|e]; run.
  all: repeat split; try apply delete_insert_eq.
  all: try (intros _; eexists; reflexivity).
  all: try discriminate.
  all: try (intros (? & [=])).
Qed.

(** ** The providers *)

(** Settles the directions of an equivalence between outcomes. *)
Ltac settle :=
  repeat split; try reflexivity;
  intros;
  repeat match goal with
         | H : exists _, _ |- _ => destruct H
         | H : _ /\ _ |- _ => destruct H
         | H : _ \/ _ |- _ => destruct H
         end;
  try congruence; eauto 12.

Lemma refresh_session_iff {L : Lib}
    (q : oidc.Provider) (session : Session.t) (s : State) :
  ((exists session', fst (oidc.RefreshSession q session s) = Ok session')
   <-> Session.RefreshToken session <> ""
       /\ exists tok,
            oidc.TokenSource_Token q (Session.RefreshToken session) = Ok tok
            /\ (Token.id_token tok = None
                \/ exists raw idt claims,
                     Token.id_token tok = Some raw
                     /\ oidc.Verify q raw = Ok idt
                     /\ oidc.Claims q idt = Ok claims))
  /\ (Session.RefreshToken session = "" ->
      oidc.RefreshSession q session s = (Err "no refresh token available", s))
  /\ data (snd (oidc.RefreshSession q session s)) = data s
  /\ resp (snd (oidc.RefreshSession q session s)) = resp s.
Proof.
  unfold oidc.RefreshSession, oidc.apply_token.
  destruct (String.eqb (Session.RefreshToken session) "") eqn:Hrt; run;
    [apply String.eqb_eq in Hrt|apply String.eqb_neq in Hrt].
  { settle. }
  destruct (oidc.TokenSource_Token q (Session.RefreshToken session))
    as [tok|e] eqn:Htok; run; [|settle].
  destruct (Token.id_token tok) as [raw|] eqn:Hraw; run;
    [|settle].
  destruct (oidc.Verify q raw) as [idt|e] eqn:Hver; run;
    [|settle].
  destruct (oidc.Claims q idt) as [claims|e] eqn:Hcl; run;
    settle.
Qed.

Lemma refresh_keeps_identity {L : Lib}
    (q : oidc.Provider) (session session' : Session.t) (s : State) :
  fst (oidc.RefreshSession q session s) = Ok session' ->
  Session.ID session' = Session.ID session
  /\ Session.ProviderID session' = Session.ProviderID session
  /\ Session.ProviderType session' = Session.ProviderType session
  /\ Session.CreatedAt session' = Session.CreatedAt session
  /\ Session.CSRFToken session' = Session.CSRFToken session
  /\ ((Session.UserInfo session' = Session.UserInfo session
       /\ Session.IDToken session' = Session.IDToken session)
      \/ exists idt,
           oidc.Verify q (Session.IDToken session') = Ok idt
           /\ oidc.Claims q idt = Ok (Session.UserInfo session')).
Proof.
  intros Hok. destruct (RefreshSession_ok q session session' s Hok)
    as (tok & _ & Happly).
  revert Happly. unfold oidc.apply_token.
  destruct (Token.id_token tok) as [raw|].
  - destruct (oidc.Verify q raw) as [idt|e] eqn:Hver; [|discriminate].
    destruct (oidc.Claims q idt) as [claims|e] eqn:Hcl; [|discriminate].
    cbn. intros [= <-].
    destruct (String.eqb (Token.RefreshToken tok) ""); cbn; repeat split.
    all: right; exists idt; split; assumption.
  - cbn. intros [= <-].
    destruct (String.eqb (Token.RefreshToken tok) ""); cbn; repeat split.
    all: left; split; reflexivity.
Qed.

(** X17.  [RefreshSession] of the OIDC provider succeeds exactly when the
    session has a refresh token, the IdP returns a token for it, and that
    token either has no ID token or has one that verifies and decodes.
    Without a refresh token the IdP is not contacted.  A refreshed session
    keeps its id, provider, kind, creation time and CSRF token; its claims
    and ID token are either the old ones or those of a verified new ID
    token. *)
Theorem X17_refresh_session_outcome {L : Lib}
    (q : oidc.Provider) (session : Session.t) (s : State) :
  ((exists session', fst (oidc.RefreshSession q session s) = Ok session')
   <-> Session.RefreshToken session <> ""
       /\ exists tok,
            oidc.TokenSource_Token q (Session.RefreshToken session) = Ok tok
            /\ (Token.id_token tok = None
                \/ exists raw idt claims,
                     Token.id_token tok = Some raw
                     /\ oidc.Verify q raw = Ok idt
                     /\ oidc.Claims q idt = Ok claims))
  /\ (Session.RefreshToken session = "" ->
      oidc.RefreshSession q session s = (Err "no refresh token available", s))
  /\ data (snd (oidc.RefreshSession q session s)) = data s
  /\ (forall session' : Session.t,
        fst (oidc.RefreshSession q session s) = Ok session' ->
        Session.ID session' = Session.ID session
        /\ Session.ProviderID session' = Session.ProviderID session
        /\ Session.ProviderType session' = Session.ProviderType session
        /\ Session.CreatedAt session' = Session.CreatedAt session
        /\ Session.CSRFToken session' = Session.CSRFToken session
        /\ ((Session.UserInfo session' = Session.UserInfo session
             /\ Session.IDToken session' = Session.IDToken session)
            \/ exists idt,
                 oidc.Verify q (Session.IDToken session') = Ok idt
                 /\ oidc.Claims q idt = Ok (Session.UserInfo session'))).
Proof.
  destruct (refresh_session_iff q session s) as (Hiff & Hnone & Hdata & _).
  split; [exact Hiff|]. split; [exact Hnone|]. split; [exact Hdata|].
  intros session' Hok. exact (refresh_keeps_identity q session session' s Hok).
Qed.

(** ** SAML claims *)

Lemma add_attributes_last (name : string) (l : list Attribute.t) :
  forall claims : gmap string Value,
    fold_left saml.add_attribute l claims !! name
    = match List.find (names_claim name) (rev l) with
      | Some attr => Some (attribute_claim attr)
      | None => claims !! name
      end.
Proof.
  induction l as [|attr l IH] using rev_ind; intros claims; [reflexivity|].
  rewrite fold_left_app, rev_app_distr. cbn [rev app fold_left List.find].
  assert (Hset : forall value : Value,
            <[Attribute.Name attr := value]> (fold_left saml.add_attribute l claims)
              !! name
            = if String.eqb (Attribute.Name attr) name then Some value
              else fold_left saml.add_attribute l claims !! name).
  { intros value.
    destruct (String.eqb (Attribute.Name attr) name) eqn:Hname.
    - apply String.eqb_eq in Hname. rewrite Hname. apply lookup_insert_eq.
    - apply String.eqb_neq in Hname. now rewrite lookup_insert_ne. }
  unfold saml.add_attribute at 1, names_claim at 1.
  destruct (Attribute.Values attr) as [|v [|v' vs]] eqn:Hvs.
  - rewrite andb_false_r. apply IH.
  - rewrite Hset, andb_true_r.
    destruct (String.eqb (Attribute.Name attr) name); [|apply IH].
    unfold attribute_claim. now rewrite Hvs.
  - rewrite Hset, andb_true_r.
    destruct (String.eqb (Attribute.Name attr) name); [|apply IH].
    unfold attribute_claim. now rewrite Hvs.
Qed.

Lemma statements_flat (stmts : list (list Attribute.t)) :
  forall claims : gmap string Value,
    fold_left (fun claims stmt => fold_left saml.add_attribute stmt claims)
              stmts claims
    = fold_left saml.add_attribute (List.concat stmts) claims.
Proof.
  induction stmts as [|stmt stmts IH]; intros claims; [reflexivity|].
  cbn [fold_left List.concat]. rewrite fold_left_app. apply IH.
Qed.

(** X18.  The claims of a SAML assertion: what is stored under a name is
    decided by the last attribute of that name with at least one value, over
    all attribute statements in order (one value gives a string, several a
    list); only if there is none do the subject's [name_id] and
    [name_id_format] show.  An attribute called [name_id] thus replaces the
    subject's. *)
Theorem X18_saml_last_attribute_wins (assertion : Assertion.t) (name : string) :
  saml.extract_claims assertion !! name
  = match List.find (names_claim name)
            (rev (List.concat (Assertion.AttributeStatements assertion))) with
    | Some attr => Some (attribute_claim attr)
    | None => subject_claims assertion !! name
    end.
Proof.
  unfold saml.extract_claims. rewrite statements_flat, add_attributes_last.
  destruct (List.find _ _); [reflexivity|].
  unfold subject_claims.
  destruct (Assertion.Subject_ assertion) as [[[nid|]]|]; try reflexivity.
Qed.

(** ** Header injection: the fixed headers, the frame, the order *)

Lemma auth_headers_always_set
    (order : list (string * string)) (h : gmap string (list string))
    (session : Session.t) :
  let out := proxy.InjectHeaders order h session in
  out !! "X-Auth-Provider" = Some [Session.ProviderID session]
  /\ out !! "X-Auth-Provider-Type" = Some [Session.ProviderType session]
  /\ out !! "X-Auth-Session-Id" = Some [Session.ID session]
  /\ Header.Get out "X-Auth-Session-ID" = Session.ID session.
Proof.
  intros out. subst out. unfold proxy.InjectHeaders, Header.Get, Header.Set_.
  change (textproto.CanonicalMIMEHeaderKey "X-Auth-Provider")
    with "X-Auth-Provider".
  change (textproto.CanonicalMIMEHeaderKey "X-Auth-Provider-Type")
    with "X-Auth-Provider-Type".
  change (textproto.CanonicalMIMEHeaderKey "X-Auth-Session-ID")
    with "X-Auth-Session-Id".
  repeat split.
  - now rewrite !lookup_insert_ne, lookup_insert_eq by discriminate.
  - now rewrite lookup_insert_ne, lookup_insert_eq by discriminate.
  - now rewrite lookup_insert_eq.
  - now rewrite lookup_insert_eq.
Qed.

Lemma inject_one_frame (session : Session.t) (key : string)
    (m : string * string) (h : gmap string (list string)) :
  textproto.CanonicalMIMEHeaderKey (snd m) <> key ->
  proxy.inject_one session h m !! key = h !! key.
Proof.
  intros Hne. destruct m as [claim header]. unfold proxy.inject_one.
  destruct (Session.UserInfo session !! claim) as [value|]; [|reflexivity].
  destruct (String.eqb (proxy.formatHeaderValue value) ""); [reflexivity|].
  unfold Header.Set_. now rewrite lookup_insert_ne.
Qed.

Lemma loop_frame (session : Session.t) (key : string)
    (order : list (string * string)) :
  forall h : gmap string (list string),
    key ∉ List.map (fun m => textproto.CanonicalMIMEHeaderKey (snd m)) order ->
    fold_left (proxy.inject_one session) order h !! key = h !! key.
Proof.
  induction order as [|m rest IH]; intros h Hnot; [reflexivity|].
  cbn [fold_left]. cbn [List.map] in Hnot.
  apply not_elem_of_cons in Hnot as [Hne Hrest].
  rewrite IH by exact Hrest. apply inject_one_frame. congruence.
Qed.

Lemma unmapped_headers_untouched
    (order : list (string * string)) (h : gmap string (list string))
    (session : Session.t) (key : string) :
  key ∉ written_keys order ->
  proxy.InjectHeaders order h session !! key = h !! key.
Proof.
  unfold written_keys. intros Hnot.
  apply not_elem_of_app in Hnot as [Hmapped Hfixed].
  repeat (apply not_elem_of_cons in Hfixed as [? Hfixed]).
  unfold proxy.InjectHeaders, Header.Set_.
  change (textproto.CanonicalMIMEHeaderKey "X-Auth-Provider")
    with "X-Auth-Provider".
  change (textproto.CanonicalMIMEHeaderKey "X-Auth-Provider-Type")
    with "X-Auth-Provider-Type".
  change (textproto.CanonicalMIMEHeaderKey "X-Auth-Session-ID")
    with "X-Auth-Session-Id".
  rewrite !lookup_insert_ne by congruence.
  now apply loop_frame.
Qed.

(** X19.  [InjectHeaders] always sets the three [X-Auth-*] headers from
    the session, whatever the client sent and whatever the mappings say, and
    leaves every header alone whose name is neither one of these nor the
    canonical form of a mapped header name. *)
Theorem X19_injected_headers_frame
    (order : list (string * string)) (h : gmap string (list string))
    (session : Session.t) :
  let out := proxy.InjectHeaders order h session in
  out !! "X-Auth-Provider" = Some [Session.ProviderID session]
  /\ out !! "X-Auth-Provider-Type" = Some [Session.ProviderType session]
  /\ out !! "X-Auth-Session-Id" = Some [Session.ID session]
  /\ forall key : string,
       key ∉ written_keys order -> out !! key = h !! key.
Proof.
  intros out. subst out.
  destruct (auth_headers_always_set order h session) as (Hp & Ht & Hs & _).
  repeat split; try assumption.
  intros key. apply unmapped_headers_untouched.
Qed.

Lemma inject_one_commute (session : Session.t) (m1 m2 : string * string)
    (h : gmap string (list string)) :
  textproto.CanonicalMIMEHeaderKey (snd m1)
  <> textproto.CanonicalMIMEHeaderKey (snd m2) ->
  proxy.inject_one session (proxy.inject_one session h m1) m2
  = proxy.inject_one session (proxy.inject_one session h m2) m1.
Proof.
  intros Hne. destruct m1 as [c1 h1], m2 as [c2 h2]. cbn [snd] in Hne.
  unfold proxy.inject_one.
  destruct (Session.UserInfo session !! c1) as [v1|]; [|reflexivity].
  destruct (String.eqb (proxy.formatHeaderValue v1) ""); [reflexivity|].
  destruct (Session.UserInfo session !! c2) as [v2|]; [|reflexivity].
  destruct (String.eqb (proxy.formatHeaderValue v2) ""); [reflexivity|].
  unfold Header.Set_. apply insert_insert_ne. congruence.
Qed.

Lemma loop_permutation (session : Session.t)
    (order1 order2 : list (string * string)) :
  order1 ≡ₚ order2 ->
  NoDup (List.map (fun m => textproto.CanonicalMIMEHeaderKey (snd m)) order1) ->
  forall h : gmap string (list string),
    fold_left (proxy.inject_one session) order1 h
    = fold_left (proxy.inject_one session) order2 h.
Proof.
  induction 1 as [|m l l' Hperm IH|m1 m2 l|l l' l'' H1 IH1 H2 IH2];
    intros Hnodup h.
  - reflexivity.
  - cbn [fold_left]. apply IH. cbn [List.map] in Hnodup.
    now apply NoDup_cons in Hnodup as [_ ?].
  - cbn [fold_left]. f_equal. cbn [List.map] in Hnodup.
    apply NoDup_cons in Hnodup as [Hnot _].
    apply not_elem_of_cons in Hnot as [Hne _].
    now apply inject_one_commute.
  - rewrite IH1 by exact Hnodup. apply IH2.
    assert (Hkeys : List.map (fun m => textproto.CanonicalMIMEHeaderKey (snd m)) l
                    ≡ₚ List.map (fun m => textproto.CanonicalMIMEHeaderKey (snd m)) l')
      by now apply Permutation_map.
    now rewrite <- Hkeys.
Qed.

(** X20.  The order in which Go visits the header mappings does not
    matter as long as no two mappings name the same header (up to the
    canonical form): any two visiting orders then give the same headers. *)
Theorem X20_injection_order_irrelevant
    (order1 order2 : list (string * string))
    (h : gmap string (list string)) (session : Session.t) :
  order1 ≡ₚ order2 ->
  NoDup (List.map (fun m => textproto.CanonicalMIMEHeaderKey (snd m)) order1) ->
  proxy.InjectHeaders order1 h session = proxy.InjectHeaders order2 h session.
Proof.
  intros Hperm Hnodup. unfold proxy.InjectHeaders.
  now rewrite (loop_permutation session order1 order2 Hperm Hnodup h).
Qed.

(** Two mappings with different header names: either order gives the same
    headers. *)
Lemma X20_witness :
  proxy.InjectHeaders [("email", "X-User-Email"); ("sub", "x-user-id")]
                      ∅ Demo.expired_session
  = proxy.InjectHeaders [("sub", "x-user-id"); ("email", "X-User-Email")]
                        ∅ Demo.expired_session.
Proof.
  apply X20_injection_order_irrelevant.
  - apply perm_swap.
  - cbn [List.map snd]. apply NoDup_cons. split; [|apply NoDup_singleton].
    intros Hin. apply list_elem_of_singleton in Hin.
    vm_compute in Hin. discriminate.
Defined.

(** ** The reverse proxy *)

(** X21.  The [Host] of every request that goes to the backend is the
    backend's: [preserve_host] changes nothing in what the reverse proxy
    does, since its director sets the host after the handler has. *)
Theorem X21_forwarded_host_is_backend {L : Lib}
    (scheme host : string) (url : string) (timeout : time.Duration)
    (preserve : bool) (providers : gmap string Provider)
    (r : Request.t) (s : State) :
  let rp b := ReverseProxy.mk scheme host (BackendConfig.mk url timeout b) providers in
  ReverseProxy.ServeHTTP (rp preserve) r s = ReverseProxy.ServeHTTP (rp false) r s
  /\ forall out : Request.t,
       Forward out ∈ events_since s (snd (ReverseProxy.ServeHTTP (rp preserve) r s)) ->
       Request.Host out = host.
Proof.
  intros rp. subst rp. unfold ReverseProxy.ServeHTTP, middleware.GetSession.
  cbn [ReverseProxy.cfg ReverseProxy.providers ReverseProxy.backendHost
       BackendConfig.PreserveHost].
  destruct (Request.Context r) as [session|]; run.
  2: { split; [reflexivity|]. events. rewrite drop_all.
       intros out Hin. inversion Hin. }
  destruct (providers !! Session.ProviderID session) as [provider|]; run.
  2: { split; [reflexivity|]. events. rewrite drop_all.
       intros out Hin. inversion Hin. }
  destruct preserve; run.
  all: split; [reflexivity|].
  all: steps; events; intros out Hin;
       apply list_elem_of_singleton in Hin; injection Hin as ->; reflexivity.
Qed.

(** ** The login flow across requests *)

Lemma pick_starts_flow {L : Lib} (cfg : Config.t)
    (providers : gmap string Provider) (q : oidc.Provider) (r : Request.t) (s : State) (verifier : string)
    (blob : bytes) :
  Request.ParseFormError r = None ->
  Request.FormValue r "provider" <> "" ->
  providers !! Request.FormValue r "provider" = Some (OIDCProvider q) ->
  rand_token (draws s) = Ok verifier ->
  json_Marshal_OIDCState (flow_of cfg q s verifier) = Ok blob ->
  handlers.handlePost cfg providers r s
  = (tt, picked cfg q s blob
           (let authURL :=
              oidc.AuthCodeURL q (callback_url cfg q) (uuid_String (S (draws s)))
                (sha256_base64 verifier) in
            if String.eqb (OIDCConfig.HD (oidc.cfg q)) "" then authURL
            else authURL ++ "&hd=" ++ OIDCConfig.HD (oidc.cfg q))).
Proof.
  intros Hparse Hid Hprov Hrand Hblob.
  unfold handlers.handlePost. rewrite Hparse.
  apply String.eqb_neq in Hid. rewrite Hid, Hprov.
  unfold handlers.initiateAuthForProvider, auth.InitiateAuth, oidc.InitiateAuth,
    oidc.generateCodeVerifier, oidc.generateCodeChallenge.
  unfold flow_of, callback_url in *.
  run. rewrite Hrand. run. rewrite Hblob. run.
  change (String.eqb ("oidc:state:" ++ uuid_String (S (draws s))) "") with false.
  run. unfold picked, callback_url. now rewrite <- app_assoc.
Qed.



(** X23.  Pick and callback together: if the callback that follows a pick
    sets a cookie, then the IdP has exchanged the code of the callback under
    the callback URL and the verifier of that pick, the ID token it
    returned has verified, and the flow state is gone from the store. *)
Theorem X23_callback_bound_to_flow {L : Lib}
    (cfg : Config.t) (providers : gmap string Provider) (q : oidc.Provider)
    (providerID : string) (r1 r2 : Request.t) (s : State)
    (verifier : string) (blob : bytes) (c : Cookie.t) :
  Request.Method r1 = "POST" ->
  Request.ParseFormError r1 = None ->
  Request.FormValue r1 "provider" <> "" ->
  providers !! Request.FormValue r1 "provider" = Some (OIDCProvider q) ->
  rand_token (draws s) = Ok verifier ->
  json_Marshal_OIDCState (flow_of cfg q s verifier) = Ok blob ->
  json_Unmarshal_OIDCState blob = Ok (flow_of cfg q s verifier) ->
  providers !! providerID = Some (OIDCProvider q) ->
  Values_Get (Request.Query r2) "state" = uuid_String (S (draws s)) ->
  let s1 := serve (handlers.Select_ServeHTTP cfg providers) r1 s in
  let s2 := serve (handlers.HandleOIDCCallback cfg providers providerID) r2 s1 in
  c ∈ ResponseWriter.SetCookies (resp s2) ->
  exists (tok : Token.t) (raw : string) (idt : bytes) (claims : gmap string Value),
    oidc.Exchange q (callback_url cfg q) (Values_Get (Request.Query r2) "code")
      verifier = Ok tok
    /\ Token.id_token tok = Some raw
    /\ oidc.Verify q raw = Ok idt
    /\ oidc.Claims q idt = Ok claims
    /\ data s2 !! ("oidc:state:" ++ uuid_String (S (draws s))) = None.
Proof.
  intros Hpost Hparse Hid Hprov Hrand Hblob Hback Hprov2 Hstate s1 s2 Hin.
  assert (Hs1 : s1 = picked cfg q (begin s) blob
                       (let authURL :=
                          oidc.AuthCodeURL q (callback_url cfg q)
                            (uuid_String (S (draws s))) (sha256_base64 verifier) in
                        if String.eqb (OIDCConfig.HD (oidc.cfg q)) "" then authURL
                        else authURL ++ "&hd=" ++ OIDCConfig.HD (oidc.cfg q))).
  { subst s1. unfold serve, handlers.Select_ServeHTTP. rewrite Hpost.
    cbn [String.eqb Ascii.eqb Bool.eqb].
    now rewrite (pick_starts_flow cfg providers q r1 (begin s) verifier blob). }
  destruct (oidc_cookie_rests_on cfg providers providerID q r2 s1 c Hprov2 Hin)
    as (item & st & tok & raw & idt & claims
        & Hitem & _ & Hst & _ & Hex & Hraw & Hver & Hcl).
  rewrite Hstate, Hs1 in Hitem. cbn [picked data begin draws] in Hitem.
  rewrite lookup_insert_eq in Hitem. injection Hitem as <-.
  cbn [cacheItem.value] in Hst. rewrite Hback in Hst. injection Hst as <-.
  cbn [flow_of OIDCState.RedirectURL OIDCState.CodeVerifier] in Hex.
  exists tok, raw, idt, claims. repeat split; try assumption.
  destruct (cookie_after_callback cfg providers providerID false r2 s1 c Hin)
    as (provider & session & Hprov' & Hok).
  rewrite Hprov2 in Hprov'. injection Hprov' as <-.
  rewrite <- Hstate.
  now apply (callback_consumes_state cfg providers providerID q Hprov2 r2 s1 session).
Qed.

(** Scenario S1, pick and callback: the cookie of the callback stands on
    an exchange with the verifier of the pick. *)
Lemma X23_witness :
  let s1 := serve (handlers.Select_ServeHTTP (L := Tour.lib) Demo.cfg
                     Demo.providers) Demo.select_post (Demo.state0 ∅) in
  let s2 := serve (handlers.HandleOIDCCallback (L := Tour.lib) Demo.cfg
                     Demo.providers "azure") Tour.callback_req s1 in
  let c := security.CreateSessionCookie Demo.lower Demo.server_cfg "id-xxxx"
             3599996000000 in
  c ∈ ResponseWriter.SetCookies (resp s2)
  /\ exists tok,
       oidc.Exchange Demo.azure
         "https://sso.example.com/auth/oidc/azure/callback" "C" "rnd-id-"
       = Ok tok.
Proof.
  intros s1 s2 c.
  assert (Hin : c ∈ ResponseWriter.SetCookies (resp s2)).
  { vm_compute. apply list_elem_of_here. }
  split; [exact Hin|].
  destruct (X23_callback_bound_to_flow (L := Tour.lib) Demo.cfg Demo.providers
              Demo.azure "azure" Demo.select_post Tour.callback_req
              (Demo.state0 ∅) "rnd-id-" Tour.flow_blob c)
    as (tok & raw & idt & claims & Hex & _).
  - reflexivity.
  - reflexivity.
  - discriminate.
  - reflexivity.
  - reflexivity.
  - reflexivity.
  - reflexivity.
  - reflexivity.
  - reflexivity.
  - exact Hin.
  - exists tok. exact Hex.
Defined.

Lemma callback_provider_id {L : Lib} (provider : Provider) (r : Request.t)
    (s : State) (session : Session.t) :
  fst (auth.HandleCallback provider r s) = Ok session ->
  Session.ProviderID session = auth.ID provider.
Proof.
  unfold auth.HandleCallback, oidc.HandleCallback, oidc.exchange_and_verify,
    saml.HandleCallback.
  destruct provider as [p|p]; run; steps.
  all: intros [= <-]; reflexivity.
Qed.

(** X24.  A finished login opens the proxy: once a callback handler has
    stored the session and set its cookie, a request that presents this
    cookie before the session ends is handed by the middleware to the next
    handler with the stored session, and the store stays as the login left
    it.  (The registry is taken to hold each provider under its own id; the
    codec reads back what it wrote.) *)
Theorem X24_login_grants_access {L : Lib}
    (cfg : Config.t) (providers : gmap string Provider) (providerID : string)
    (saml_route : bool) (next : Handler) (r r' : Request.t) (s : State)
    (provider : Provider) (session0 : Session.t) (s0 : State) (blob : bytes)
    (cookie : string * string) :
  providers !! providerID = Some provider ->
  providers !! auth.ID provider = Some provider ->
  auth.HandleCallback provider r (begin s) = (Ok session0, s0) ->
  let session := Session.set_ID (uuid_String (draws s0)) session0 in
  let ttl := time.Sub (Session.ExpiresAt session0) (Now (ticks s0)) in
  json_Marshal_Session session = Ok blob ->
  json_Unmarshal_Session blob = Ok session ->
  security.GetSessionCookie r' (ServerConfig.CookieName (Config.Server cfg))
  = Ok cookie ->
  snd cookie = uuid_String (draws s0) ->
  Now (S (S (ticks s0))) <= time.Add (Now (S (ticks s0))) ttl ->
  Now (S (S (S (ticks s0)))) <= Session.ExpiresAt session0 ->
  let handler :=
    if saml_route then handlers.HandleSAMLCallback cfg providers providerID
    else handlers.HandleOIDCCallback cfg providers providerID in
  let s1 := serve handler r s in
  ResponseWriter.SetCookies (resp s1)
  = [security.CreateSessionCookie ToLower (Config.Server cfg)
       (uuid_String (draws s0)) ttl]
  /\ exists s2 : State,
       middleware.RequireAuth (Config.Server cfg) providers next r' (begin s1)
       = next (Request.set_Context session r') s2
       /\ data s2 = data s1
       /\ resp s2 = ResponseWriter.empty.
Proof.
  intros Hprov Hreg Hcb session ttl Hblob Hback Hcookie Hvalue Hlive Hvalid
    handler s1.
  assert (Hpid : Session.ProviderID session0 = auth.ID provider).
  { apply (callback_provider_id provider r (begin s)). now rewrite Hcb. }
  assert (Hresp : resp s0 = ResponseWriter.empty).
  { pose proof (callback_sets_no_cookie provider r (begin s)) as Hsame.
    now rewrite Hcb in Hsame. }
  assert (Hl : time.After (Now (S (S (ticks s0))))
                 (time.Add (Now (S (ticks s0))) ttl) = false)
    by (unfold time.After; apply Z.ltb_ge; lia).
  assert (Hv : time.After (Now (S (S (S (ticks s0)))))
                 (Session.ExpiresAt session0) = false)
    by (unfold time.After; apply Z.ltb_ge; lia).
  assert (Hs1 : exists (evs : list Event) (w : ResponseWriter.t),
            s1 = mkState
                   (<["session:" ++ uuid_String (draws s0) :=
                        cacheItem.mk blob (time.Add (Now (S (ticks s0))) ttl)]>
                      (data s0))
                   (S (S (ticks s0))) (S (draws s0)) evs w
            /\ ResponseWriter.SetCookies w
               = [security.CreateSessionCookie ToLower (Config.Server cfg)
                    (uuid_String (draws s0)) ttl]).
  { subst s1 handler. unfold serve.
    destruct saml_route;
      unfold handlers.HandleSAMLCallback, handlers.HandleOIDCCallback;
      rewrite Hprov; unfold bind at 1; rewrite Hcb;
      unfold handlers.issue_session; run;
      fold session; rewrite Hblob; run.
    all: try destruct (negb _); run.
    all: do 2 eexists; split; [reflexivity|].
    all: autorewrite with cookies; now rewrite Hresp. }
  destruct Hs1 as (evs & w & Hs1 & Hcookies).
  assert (Hdata : data s1
                  = <["session:" ++ uuid_String (draws s0) :=
                        cacheItem.mk blob (time.Add (Now (S (ticks s0))) ttl)]>
                      (data s0)) by now rewrite Hs1.
  assert (Hticks : ticks s1 = S (S (ticks s0))) by now rewrite Hs1.
  split; [now rewrite Hs1|].
  unfold middleware.RequireAuth. rewrite Hcookie, Hvalue. run.
  rewrite Hdata, lookup_insert_eq. run. rewrite Hticks, Hl. run.
  rewrite Hback. cbn [Session.set_ID Session.ProviderID session].
  rewrite Hpid, Hreg.
  unfold auth.ValidateSession, oidc.ValidateSession, saml.ValidateSession.
  assert (Hsame : forall x, String.eqb x x = true)
    by (intros x; now apply String.eqb_eq).
  destruct provider as [p|p]; run; rewrite Hpid, Hsame; run; rewrite Hv; run.
  all: eexists; split; [reflexivity|]; split; reflexivity.
Qed.

(** Scenario S1 to the end: the request with the cookie of the new session
    reaches the handler behind the middleware with that session. *)
Lemma X24_witness :
  let s0 := serve (handlers.Select_ServeHTTP (L := Tour.lib) Demo.cfg
                     Demo.providers) Demo.select_post (Demo.state0 ∅) in
  let s1 := serve (handlers.HandleOIDCCallback (L := Tour.lib) Demo.cfg
                     Demo.providers "azure") Tour.callback_req s0 in
  exists s2 : State,
    middleware.RequireAuth (L := Tour.lib) (Config.Server Demo.cfg)
      Demo.providers (ReverseProxy.ServeHTTP (L := Tour.lib) Demo.backend)
      Tour.dashboard_req (begin s1)
    = ReverseProxy.ServeHTTP (L := Tour.lib) Demo.backend
        (Request.set_Context Tour.session Tour.dashboard_req) s2.
Proof.
  intros s0 s1.
  destruct (X24_login_grants_access (L := Tour.lib) Demo.cfg Demo.providers
              "azure" false
              (ReverseProxy.ServeHTTP (L := Tour.lib) Demo.backend)
              Tour.callback_req Tour.dashboard_req s0
              (OIDCProvider Demo.azure)
              (Session.mk "id-xx" "azure" "oidc" Demo.alice (Demo.clock 3)
                 (Demo.T0 + time.Hour) "at-new" "rt-1" "idt-new"
                 (Demo.T0 + time.Hour) "" "id-xxx")
              (snd (auth.HandleCallback (L := Tour.lib) (OIDCProvider Demo.azure)
                      Tour.callback_req (begin s0)))
              Tour.session_blob ("sso-session", "id-xxxx"))
    as (_ & s2 & Hrun & _).
  - reflexivity.
  - reflexivity.
  - vm_compute. reflexivity.
  - vm_compute. reflexivity.
  - vm_compute. reflexivity.
  - reflexivity.
  - vm_compute. reflexivity.
  - vm_compute. discriminate.
  - vm_compute. discriminate.
  - exists s2. exact Hrun.
Defined.

(** ** Validation accepts the valid configurations *)

Section Validation.
Context {L : Lib}.

Lemma among2 (x a b : string) :
  (negb (String.eqb x a) && negb (String.eqb x b))%bool = false <-> x ∈ [a; b].
Proof.
  rewrite !elem_of_cons, elem_of_nil.
  destruct (String.eqb x a) eqn:Ea;
    [apply String.eqb_eq in Ea|apply String.eqb_neq in Ea];
    destruct (String.eqb x b) eqn:Eb;
    [apply String.eqb_eq in Eb|apply String.eqb_neq in Eb
    |apply String.eqb_eq in Eb|apply String.eqb_neq in Eb];
    cbn; intuition congruence.
Qed.

Lemma among3 (x a b c : string) :
  (negb (String.eqb x a) && negb (String.eqb x b) && negb (String.eqb x c))%bool
  = false <-> x ∈ [a; b; c].
Proof.
  rewrite elem_of_cons, <- among2.
  destruct (String.eqb x a) eqn:Ea;
    [apply String.eqb_eq in Ea|apply String.eqb_neq in Ea]; cbn;
    intuition congruence.
Qed.

Lemma among4 (x a b c d : string) :
  (negb (String.eqb x a) && negb (String.eqb x b) && negb (String.eqb x c)
   && negb (String.eqb x d))%bool = false <-> x ∈ [a; b; c; d].
Proof.
  rewrite elem_of_cons, <- among3.
  destruct (String.eqb x a) eqn:Ea;
    [apply String.eqb_eq in Ea|apply String.eqb_neq in Ea]; cbn;
    intuition congruence.
Qed.

Lemma validateServer_iff (c : Config.t) :
  validation.validateServer c = Ok tt <-> server_ok (Config.Server c).
Proof.
  unfold validation.validateServer, server_ok, parses.
  destruct (ServerConfig.Port (Config.Server c) <? 1) eqn:Hlo;
    [apply Z.ltb_lt in Hlo|apply Z.ltb_ge in Hlo]; cbn [orb].
  { split; [discriminate|lia]. }
  destruct (65535 <? ServerConfig.Port (Config.Server c)) eqn:Hhi;
    [apply Z.ltb_lt in Hhi|apply Z.ltb_ge in Hhi].
  { split; [discriminate|lia]. }
  destruct (String.eqb (ServerConfig.BaseURL (Config.Server c)) "") eqn:Hb;
    [apply String.eqb_eq in Hb|apply String.eqb_neq in Hb].
  { split; [discriminate|tauto]. }
  destruct (url_Parse (ServerConfig.BaseURL (Config.Server c))) as [u|e].
  2: { split; [discriminate|]. intros (_ & _ & (? & [=]) & _). }
  rewrite <- among3.
  destruct (negb _ && negb _ && negb _)%bool.
  { split; [discriminate|]. intros (_ & _ & _ & [=] & _). }
  destruct (ServerConfig.SessionTTL (Config.Server c) <? time.Minute) eqn:Ht;
    [apply Z.ltb_lt in Ht|apply Z.ltb_ge in Ht].
  { split; [discriminate|lia]. }
  split; [|reflexivity]. intros _. repeat split; eauto; lia.
Qed.

Lemma validateBackend_iff (c : Config.t) :
  validation.validateBackend c = Ok tt <-> backend_ok (Config.Backend c).
Proof.
  unfold validation.validateBackend, backend_ok, parses.
  destruct (String.eqb (BackendConfig.URL (Config.Backend c)) "") eqn:Hb;
    [apply String.eqb_eq in Hb|apply String.eqb_neq in Hb].
  { split; [discriminate|tauto]. }
  destruct (url_Parse (BackendConfig.URL (Config.Backend c))) as [u|e].
  2: { split; [discriminate|]. intros (_ & (? & [=]) & _). }
  destruct (BackendConfig.Timeout (Config.Backend c) <? 0) eqn:Ht;
    [apply Z.ltb_lt in Ht|apply Z.ltb_ge in Ht].
  { split; [discriminate|lia]. }
  split; [|reflexivity]. intros _. repeat split; eauto.
Qed.

Lemma validateCache_iff (c : Config.t) :
  validation.validateCache c = Ok tt <-> cache_ok (Config.Cache c).
Proof.
  unfold validation.validateCache, cache_ok.
  destruct (String.eqb (CacheConfig.Type_ (Config.Cache c)) "memory") eqn:Em;
    [apply String.eqb_eq in Em|apply String.eqb_neq in Em];
    destruct (String.eqb (CacheConfig.Type_ (Config.Cache c)) "redis") eqn:Er;
    [apply String.eqb_eq in Er|apply String.eqb_neq in Er
    |apply String.eqb_eq in Er|apply String.eqb_neq in Er]; cbn.
  - congruence.
  - tauto.
  - destruct (CacheConfig.Redis (Config.Cache c)) as [redis|].
    + destruct (String.eqb (RedisConfig.Address redis) "") eqn:Ea;
        [apply String.eqb_eq in Ea|apply String.eqb_neq in Ea].
      * split; [discriminate|]. intros [?|(_ & r & [= <-] & ?)]; congruence.
      * split; [|reflexivity]. intros _. right. eauto.
    + split; [discriminate|]. intros [?|(_ & r & [=] & _)]. congruence.
  - split; [discriminate|]. intros [?|[? _]]; congruence.
Qed.

Lemma validateLogging_iff (c : Config.t) :
  validation.validateLogging c = Ok tt <-> logging_ok (Config.Logging c).
Proof.
  unfold validation.validateLogging, logging_ok.
  rewrite <- among4, <- among2.
  destruct (negb _ && negb _ && negb _ && negb _)%bool.
  { split; [discriminate|]. intros [[=] _]. }
  destruct (negb _ && negb _)%bool.
  { split; [discriminate|]. intros [_ [=]]. }
  tauto.
Qed.

Lemma validateOIDCConfig_iff (id : string) (cfg : option OIDCConfig.t) :
  validation.validateOIDCConfig id cfg = Ok tt
  <-> exists o, cfg = Some o /\ oidc_ok o.
Proof.
  destruct cfg as [o|]; [|split; [discriminate|intros (? & [=] & _)]].
  transitivity (oidc_ok o);
    [|split; [eauto|intros (? & [= <-] & ?); assumption]].
  unfold validation.validateOIDCConfig, oidc_ok, parses.
  destruct (String.eqb (OIDCConfig.Issuer o) "") eqn:Ei;
    [apply String.eqb_eq in Ei|apply String.eqb_neq in Ei].
  { split; [discriminate|tauto]. }
  destruct (url_Parse (OIDCConfig.Issuer o)) as [u|e].
  2: { split; [discriminate|]. intros (_ & (? & [=]) & _). }
  destruct (String.eqb (OIDCConfig.ClientID o) "") eqn:Ec;
    [apply String.eqb_eq in Ec|apply String.eqb_neq in Ec].
  { split; [discriminate|tauto]. }
  destruct (String.eqb (OIDCConfig.ClientSecret o) "") eqn:Es;
    [apply String.eqb_eq in Es|apply String.eqb_neq in Es].
  { split; [discriminate|tauto]. }
  destruct (OIDCConfig.Scopes o) as [|scope scopes].
  { split; [discriminate|]. intros (_ & _ & _ & _ & Hin). inversion Hin. }
  cbn [List.length Nat.eqb].
  destruct (existsb _ _) eqn:Hopen; cbn [negb].
  - apply existsb_exists in Hopen as (x & Hx & Heq).
    apply String.eqb_eq in Heq. subst x.
    split; [|reflexivity]. intros _.
    repeat split; eauto. now apply list_elem_of_In.
  - split; [discriminate|]. intros (_ & _ & _ & _ & Hin).
    assert (existsb (fun scope0 => String.eqb scope0 "openid") (scope :: scopes)
            = true); [|congruence].
    apply existsb_exists. exists "openid". split; [|reflexivity].
    now apply list_elem_of_In.
Qed.

Lemma validateSAMLConfig_iff (id : string) (cfg : option SAMLConfig.t) :
  validation.validateSAMLConfig id cfg = Ok tt
  <-> exists m, cfg = Some m /\ saml_ok m.
Proof.
  destruct cfg as [m|]; [|split; [discriminate|intros (? & [=] & _)]].
  transitivity (saml_ok m);
    [|split; [eauto|intros (? & [= <-] & ?); assumption]].
  unfold validation.validateSAMLConfig, saml_ok, parses.
  destruct (String.eqb (SAMLConfig.IDPMetadataURL m) "") eqn:Eu;
    [apply String.eqb_eq in Eu|apply String.eqb_neq in Eu];
    (destruct (String.eqb (SAMLConfig.IDPMetadataXML m) "") eqn:Ex;
     [apply String.eqb_eq in Ex|apply String.eqb_neq in Ex]); cbn [andb negb].
  1: { split; [discriminate|]. intros ([?|?] & _); congruence. }
  all: try (destruct (url_Parse (SAMLConfig.IDPMetadataURL m)) as [u|e] eqn:Hu;
            [|split; [discriminate|];
              intros (_ & Hp & _); destruct (Hp Eu) as (? & [=])]).
  all: destruct (String.eqb (SAMLConfig.SPEntityID m) "") eqn:Es;
    [apply String.eqb_eq in Es|apply String.eqb_neq in Es];
    [split; [discriminate|tauto]|].
  all: destruct (String.eqb (SAMLConfig.ACSURL m) "") eqn:Ea;
    [apply String.eqb_eq in Ea|apply String.eqb_neq in Ea];
    [split; [discriminate|tauto]|].
  all: destruct (url_Parse (SAMLConfig.ACSURL m)) as [a|e];
    [|split; [discriminate|]; intros (_ & _ & _ & _ & (? & [=]) & _)].
  all: destruct (String.eqb (SAMLConfig.CertificatePath m) "") eqn:Ec;
    [apply String.eqb_eq in Ec|apply String.eqb_neq in Ec];
    [split; [discriminate|tauto]|].
  all: destruct (String.eqb (SAMLConfig.PrivateKeyPath m) "") eqn:Ek;
    [apply String.eqb_eq in Ek|apply String.eqb_neq in Ek];
    [split; [discriminate|tauto]|].
  all: split; [|reflexivity]; intros _; repeat split; eauto.
  all: try (intros; congruence).
Qed.

(** The checks the loop makes on one provider, the id checks apart. *)
Lemma provider_checks (p : ProviderConfig.t) (k : Result unit) :
  ProviderConfig.ID p <> "" ->
  (if String.eqb (ProviderConfig.Name p) ""
   then Err ("provider " ++ ProviderConfig.ID p ++ ": name is required")
   else if (negb (String.eqb (ProviderConfig.Type_ p) "oidc")
            && negb (String.eqb (ProviderConfig.Type_ p) "saml"))%bool
   then Err ("provider " ++ ProviderConfig.ID p ++ ": invalid type: "
             ++ ProviderConfig.Type_ p ++ " (must be oidc or saml)")
   else
     match (if String.eqb (ProviderConfig.Type_ p) "oidc"
            then validation.validateOIDCConfig (ProviderConfig.ID p)
                   (ProviderConfig.OIDC p)
            else Ok tt) with
     | Err e => Err e
     | Ok _ =>
         match (if String.eqb (ProviderConfig.Type_ p) "saml"
                then validation.validateSAMLConfig (ProviderConfig.ID p)
                       (ProviderConfig.SAML p)
                else Ok tt) with
         | Err e => Err e
         | Ok _ =>
             if Nat.eqb (size (ProviderConfig.HeaderMappings p)) 0
             then Err ("provider " ++ ProviderConfig.ID p
                       ++ ": at least one header mapping is required")
             else k
         end
     end) = Ok tt
  <-> provider_ok p /\ k = Ok tt.
Proof.
  intros Hid. unfold provider_ok.
  destruct (String.eqb (ProviderConfig.Name p) "") eqn:En;
    [apply String.eqb_eq in En|apply String.eqb_neq in En].
  { split; [discriminate|tauto]. }
  pose proof (validateOIDCConfig_iff (ProviderConfig.ID p) (ProviderConfig.OIDC p))
    as Hoidc.
  pose proof (validateSAMLConfig_iff (ProviderConfig.ID p) (ProviderConfig.SAML p))
    as Hsaml.
  assert (Hmap : Nat.eqb (size (ProviderConfig.HeaderMappings p)) 0 = true
                 <-> ProviderConfig.HeaderMappings p = ∅)
    by (rewrite Nat.eqb_eq; apply map_size_empty_iff).
  destruct (String.eqb (ProviderConfig.Type_ p) "oidc") eqn:Eo;
    [apply String.eqb_eq in Eo|apply String.eqb_neq in Eo];
    (destruct (String.eqb (ProviderConfig.Type_ p) "saml") eqn:Es;
     [apply String.eqb_eq in Es|apply String.eqb_neq in Es]); cbn [negb andb].
  - congruence.
  - destruct (validation.validateOIDCConfig _ _) as [[]|e].
    + destruct (Nat.eqb (size (ProviderConfig.HeaderMappings p)) 0) eqn:Hm.
      * split; [discriminate|]. intros [(_ & _ & Hne & _) _]. tauto.
      * split.
        -- intros ->. split; [|reflexivity]. repeat split; try assumption.
           ++ intros Hempty. apply Hmap in Hempty. congruence.
           ++ left. split; [assumption|]. now apply Hoidc.
        -- tauto.
    + split; [discriminate|].
      intros [(_ & _ & _ & [[_ Hok]|[? _]]) _]; [|congruence].
      apply Hoidc in Hok. discriminate.
  - destruct (validation.validateSAMLConfig _ _) as [[]|e].
    + destruct (Nat.eqb (size (ProviderConfig.HeaderMappings p)) 0) eqn:Hm.
      * split; [discriminate|]. intros [(_ & _ & Hne & _) _]. tauto.
      * split.
        -- intros ->. split; [|reflexivity]. repeat split; try assumption.
           ++ intros Hempty. apply Hmap in Hempty. congruence.
           ++ right. split; [assumption|]. now apply Hsaml.
        -- tauto.
    + split; [discriminate|].
      intros [(_ & _ & _ & [[? _]|[_ Hok]]) _]; [congruence|].
      apply Hsaml in Hok. discriminate.
  - split; [discriminate|].
    intros [(_ & _ & _ & [[? _]|[? _]]) _]; congruence.
Qed.

Lemma seen_insert (ids : gmap string bool) (id k : string) :
  default false (<[id := true]> ids !! k) = false
  <-> k <> id /\ default false (ids !! k) = false.
Proof.
  destruct (decide (k = id)) as [->|Hne].
  - rewrite lookup_insert_eq. cbn. split; [discriminate|tauto].
  - rewrite lookup_insert_ne by congruence. tauto.
Qed.

Lemma providers_loop_iff (providers : list ProviderConfig.t) :
  forall (i : nat) (ids : gmap string bool),
    validation.validateProviders_loop i ids providers = Ok tt
    <-> Forall provider_ok providers
        /\ NoDup (ProviderConfig.ID <$> providers)
        /\ Forall (fun p => default false (ids !! ProviderConfig.ID p) = false)
                  providers.
Proof.
  induction providers as [|p rest IH]; intros i ids.
  { cbn. split; [|reflexivity]. intros _.
    repeat split; constructor. }
  cbn [validation.validateProviders_loop].
  rewrite fmap_cons, NoDup_cons, !Forall_cons.
  destruct (String.eqb (ProviderConfig.ID p) "") eqn:Ei;
    [apply String.eqb_eq in Ei|apply String.eqb_neq in Ei].
  { split; [discriminate|]. intros ([(? & _) _] & _). congruence. }
  destruct (default false (ids !! ProviderConfig.ID p)) eqn:Hseen.
  { split; [discriminate|]. intros (_ & _ & [? _]). congruence. }
  rewrite (provider_checks p _ Ei), IH.
  assert (Hrest : Forall (fun p0 => default false
                            (<[ProviderConfig.ID p := true]> ids
                               !! ProviderConfig.ID p0) = false) rest
                  <-> (ProviderConfig.ID p ∉ (ProviderConfig.ID <$> rest))
                      /\ Forall (fun p0 => default false
                                   (ids !! ProviderConfig.ID p0) = false) rest).
  { rewrite !Forall_forall, list_elem_of_fmap. split.
    - intros Hall. split.
      + intros (p0 & Heq & Hin). apply Hall, seen_insert in Hin.
        destruct Hin as [Hne _]. congruence.
      + intros p0 Hin. apply Hall, seen_insert in Hin. tauto.
    - intros [Hnot Hall] p0 Hin. apply seen_insert. split; [|now apply Hall].
      intros Heq. apply Hnot. eauto. }
  rewrite Hrest. tauto.
Qed.

Lemma validateProviders_iff (c : Config.t) :
  validation.validateProviders c = Ok tt
  <-> Config.Providers c <> []
      /\ NoDup (ProviderConfig.ID <$> Config.Providers c)
      /\ Forall provider_ok (Config.Providers c).
Proof.
  unfold validation.validateProviders.
  destruct (Config.Providers c) as [|p rest] eqn:Hps.
  { cbn. split; [discriminate|tauto]. }
  cbn [List.length Nat.eqb]. rewrite providers_loop_iff.
  assert (Hfresh : Forall (fun p0 : ProviderConfig.t =>
                             default false ((∅ : gmap string bool)
                                              !! ProviderConfig.ID p0) = false)
                          (p :: rest)).
  { apply Forall_forall. intros p0 _. now rewrite lookup_empty. }
  split; [intros (? & ? & _)|intros (_ & ? & ?)]; repeat split; auto.
Qed.

Lemma Validate_valid (c : Config.t) :
  validation.Validate c = Ok tt <-> valid c.
Proof.
  unfold validation.Validate, valid.
  rewrite <- validateServer_iff, <- validateBackend_iff, <- validateCache_iff,
    <- validateLogging_iff.
  pose proof (validateProviders_iff c) as Hp.
  destruct (validation.validateServer c) as [[]|e];
    [|split; [discriminate|intros ([=] & _)]].
  destruct (validation.validateBackend c) as [[]|e];
    [|split; [discriminate|intros (_ & [=] & _)]].
  destruct (validation.validateCache c) as [[]|e];
    [|split; [discriminate|intros (_ & _ & [=] & _)]].
  destruct (validation.validateProviders c) as [[]|e].
  2: { split; [discriminate|]. intros (_ & _ & _ & H1 & H2 & H3 & _).
       assert (Err e = Ok tt) by (apply Hp; auto). discriminate. }
  destruct (validation.validateLogging c) as [[]|e];
    [|split; [discriminate|intros (_ & _ & _ & _ & _ & _ & [=])]].
  split; [|reflexivity]. intros _.
  destruct (proj1 Hp eq_refl) as (? & ? & ?). repeat split; auto.
Qed.

End Validation.

(** X25.  [Validate] accepts exactly the valid configurations: port,
    base URL, SameSite and session lifetime of the server; URL and timeout
    of the backend; kind and address of the cache; at least one provider,
    the ids pairwise distinct, each provider with id, name, header mappings
    and the settings of its kind ([openid] among the OIDC scopes); level and
    format of the log. *)
Theorem X25_validate_accepts_valid {L : Lib} (c : Config.t) :
  validation.Validate c = Ok tt <-> valid c.
Proof. apply Validate_valid. Qed.

(** X26.  For a validated configuration the session cookie carries the
    configured SameSite mode: the fall-back to [Lax] in
    [CreateSessionCookie] is taken for [lax] only. *)
Theorem X26_valid_same_site_honoured {L : Lib}
    (c : Config.t) (sessionID : string) (maxAge : time.Duration) :
  validation.Validate c = Ok tt ->
  let cookie :=
    security.CreateSessionCookie ToLower (Config.Server c) sessionID maxAge in
  match Cookie.SameSite_ cookie with
  | SameSiteLaxMode =>
      ToLower (ServerConfig.CookieSameSite (Config.Server c)) = "lax"
  | SameSiteStrictMode =>
      ToLower (ServerConfig.CookieSameSite (Config.Server c)) = "strict"
  | SameSiteNoneMode =>
      ToLower (ServerConfig.CookieSameSite (Config.Server c)) = "none"
  end.
Proof.
  intros Hvalid cookie. subst cookie.
  unfold validation.Validate in Hvalid.
  destruct (validation.validateServer c) as [[]|e] eqn:Hserver; [|discriminate].
  apply validateServer_iff in Hserver as (_ & _ & _ & Hsite & _).
  unfold security.CreateSessionCookie. cbn [Cookie.SameSite_].
  destruct (String.eqb (ToLower _) "strict") eqn:Es;
    [now apply String.eqb_eq in Es|apply String.eqb_neq in Es].
  destruct (String.eqb (ToLower _) "none") eqn:En;
    [now apply String.eqb_eq in En|apply String.eqb_neq in En].
  rewrite !elem_of_cons, elem_of_nil in Hsite. intuition congruence.
Qed.

(** The loaded configuration is valid; its cookies are [Lax]. *)
Lemma X26_witness :
  validation.Validate (L := Demo.lib) Tour.loaded = Ok tt
  /\ Cookie.SameSite_
       (security.CreateSessionCookie Demo.lower (Config.Server Tour.loaded)
          "id" time.Hour)
     = SameSiteLaxMode.
Proof.
  assert (Hvalid : validation.Validate (L := Demo.lib) Tour.loaded = Ok tt)
    by (vm_compute; reflexivity).
  split; [exact Hvalid|].
  pose proof (X26_valid_same_site_honoured (L := Demo.lib) Tour.loaded "id"
                time.Hour Hvalid) as Hsite.
  cbv zeta in Hsite.
  destruct (Cookie.SameSite_ _);
    [reflexivity|vm_compute in Hsite; discriminate
    |vm_compute in Hsite; discriminate].
Defined.

(** ** Defaults *)

Lemma default_string_twice (d s : string) :
  d <> "" -> default_string d (default_string d s) = default_string d s.
Proof.
  intros Hd. unfold default_string.
  destruct (String.eqb s "") eqn:Es; [|now rewrite Es].
  apply String.eqb_neq in Hd. now rewrite Hd.
Qed.

Lemma default_Z_twice (d n : Z) :
  d <> 0 -> default_Z d (default_Z d n) = default_Z d n.
Proof.
  intros Hd. unfold default_Z.
  destruct (n =? 0) eqn:En; [|now rewrite En].
  apply Z.eqb_neq in Hd. now rewrite Hd.
Qed.

(** X27.  [setDefaults] is idempotent: applying it to its own result
    changes nothing. *)
Theorem X27_setDefaults_idempotent (c : Config.t) :
  config.setDefaults (config.setDefaults c) = config.setDefaults c.
Proof.
  destruct c as [server backend cache providers logging ui].
  unfold config.setDefaults. cbn [Config.Server Config.Backend Config.Cache
    Config.Providers Config.Logging Config.UI].
  f_equal.
  - destruct server. unfold config.setDefaults_Server. cbn.
    rewrite !default_string_twice, !default_Z_twice by (discriminate || (cbv; discriminate)).
    now destruct CookieHTTPOnly.
  - destruct backend. unfold config.setDefaults_Backend. cbn.
    now rewrite default_Z_twice by (cbv; discriminate).
  - destruct cache as [ty redis]. unfold config.setDefaults_Cache. cbn.
    rewrite default_string_twice by discriminate. f_equal.
    destruct (String.eqb (default_string "memory" ty) "redis"); [|reflexivity].
    destruct redis as [[]|]; [|reflexivity]. cbn.
    unfold config.setDefaults_Redis. cbn.
    now rewrite !default_Z_twice by discriminate.
  - destruct logging. unfold config.setDefaults_Logging. cbn.
    now rewrite !default_string_twice by discriminate.
  - destruct ui as [[enable|] ? ? ? ?]; unfold config.setDefaults_UI; cbn;
      now rewrite !default_string_twice by discriminate.
Qed.

(** X28.  The defaults are valid: for a file that names a base URL and a
    backend URL that parse and leaves port, SameSite, session lifetime,
    backend timeout, cache kind, log level and log format out, validation
    after [setDefaults] can fail only on the providers ([ToLower] leaving
    the default words [lax], [info] and [json] as they are). *)
Theorem X28_defaults_pass_validation {L : Lib} (c : Config.t) :
  ToLower "lax" = "lax" ->
  ToLower "info" = "info" ->
  ToLower "json" = "json" ->
  ServerConfig.Port (Config.Server c) = 0 ->
  ServerConfig.CookieSameSite (Config.Server c) = "" ->
  ServerConfig.SessionTTL (Config.Server c) = 0 ->
  CacheConfig.Type_ (Config.Cache c) = "" ->
  LoggingConfig.Level (Config.Logging c) = "" ->
  LoggingConfig.Format (Config.Logging c) = "" ->
  ServerConfig.BaseURL (Config.Server c) <> "" ->
  parses (ServerConfig.BaseURL (Config.Server c)) ->
  BackendConfig.URL (Config.Backend c) <> "" ->
  parses (BackendConfig.URL (Config.Backend c)) ->
  BackendConfig.Timeout (Config.Backend c) = 0 ->
  validation.Validate (config.setDefaults c)
  = match validation.validateProviders c with
    | Err e => Err ("providers config: " ++ e)
    | Ok _ => Ok tt
    end.
Proof.
  intros Hlax Hinfo Hjson Hport Hsite Httl Hcache Hlevel Hformat
    Hbase [u Hu] Hback [b Hb] Htimeout.
  apply String.eqb_neq in Hbase, Hback.
  unfold validation.Validate, validation.validateServer,
    validation.validateBackend, validation.validateCache,
    validation.validateLogging, validation.validateProviders.
  unfold config.setDefaults, config.setDefaults_Server,
    config.setDefaults_Backend, config.setDefaults_Cache,
    config.setDefaults_Logging.
  cbn [Config.Server Config.Backend Config.Cache Config.Providers
       Config.Logging ServerConfig.Port ServerConfig.BaseURL
       ServerConfig.CookieSameSite ServerConfig.SessionTTL
       BackendConfig.URL BackendConfig.Timeout CacheConfig.Type_
       LoggingConfig.Level LoggingConfig.Format].
  rewrite Hport, Hsite, Httl, Hcache, Hlevel, Hformat, Htimeout.
  rewrite Hbase, Hback, Hu, Hb.
  unfold default_string, default_Z.
  cbn [String.eqb Ascii.eqb Bool.eqb Z.eqb].
  rewrite Hlax, Hinfo, Hjson.
  cbn. reflexivity.
Qed.

(** A file that names the base URL, the backend and two providers passes
    validation once the defaults are in. *)
Lemma X28_witness :
  validation.Validate (L := Demo.lib) (config.setDefaults Tour.minimal_file)
  = Ok tt.
Proof.
  rewrite (X28_defaults_pass_validation (L := Demo.lib) Tour.minimal_file).
  - vm_compute. reflexivity.
  - reflexivity.
  - reflexivity.
  - reflexivity.
  - reflexivity.
  - reflexivity.
  - reflexivity.
  - reflexivity.
  - reflexivity.
  - reflexivity.
  - discriminate.
  - eexists. reflexivity.
  - discriminate.
  - eexists. reflexivity.
  - reflexivity.
Defined.

(** ** Start-up: the provider registry *)

Section Registry.
Context {L : Lib}.
Variable Getenv : string -> string.
Variable ReadFile : string -> Result bytes.
Variable yaml_Unmarshal : bytes -> Result Config.t.
Variable Ping : RedisConfig.t -> Result unit.
Variable Discover : string -> Result (string -> string -> list string -> oidc.Client).
Variable Certificate PrivateKey EntityDescriptor : Type.
Variable pem_Decode : bytes -> option bytes.
Variable x509_ParseCertificate : bytes -> Result Certificate.
Variable x509_ParsePKCS1PrivateKey : bytes -> Result PrivateKey.
Variable x509_ParsePKCS8PrivateKey : bytes -> Result (option PrivateKey).
Variable xml_Unmarshal : string -> Result EntityDescriptor.
Variable http_NewRequest : string -> Result unit.
Variable http_Do : string -> Result (Z * string).
Variable xml_Decode : string -> Result EntityDescriptor.
Variable service :
  saml.ServiceProvider Certificate PrivateKey EntityDescriptor -> saml.Calls.

Let loop :=
  main.run_providers ReadFile Discover Certificate PrivateKey EntityDescriptor
    pem_Decode x509_ParseCertificate x509_ParsePKCS1PrivateKey
    x509_ParsePKCS8PrivateKey xml_Unmarshal http_NewRequest http_Do xml_Decode
    service.

Lemma oidc_new_built (pc : ProviderConfig.t) (p : oidc.Provider) :
  ProviderConfig.Type_ pc = "oidc" ->
  oidc.NewProvider Discover pc = Ok p ->
  built_from pc (OIDCProvider p).
Proof.
  intros Hty. unfold oidc.NewProvider.
  destruct (ProviderConfig.OIDC pc) as [o|]; [|discriminate].
  destruct (Discover (OIDCConfig.Issuer o)) as [d|e]; [|discriminate].
  intros [= <-]. repeat split. now rewrite Hty.
Qed.

Lemma saml_new_built (pc : ProviderConfig.t) (baseURL : string)
    (p : saml.Provider) :
  ProviderConfig.Type_ pc = "saml" ->
  saml.NewProvider Certificate PrivateKey EntityDescriptor ReadFile pem_Decode
    x509_ParseCertificate x509_ParsePKCS1PrivateKey x509_ParsePKCS8PrivateKey
    xml_Unmarshal http_NewRequest http_Do xml_Decode service pc baseURL = Ok p ->
  built_from pc (SAMLProvider p).
Proof.
  intros Hty. unfold saml.NewProvider.
  repeat (case_match; try discriminate).
  intros [= <-]. repeat split. now rewrite Hty.
Qed.

Lemma registry_step (baseURL : string) (pc : ProviderConfig.t)
    (rest : list ProviderConfig.t) (acc out : gmap string Provider) :
  loop baseURL (pc :: rest) acc = Ok out ->
  exists p,
    built_from pc p
    /\ loop baseURL rest (<[ProviderConfig.ID pc := p]> acc) = Ok out.
Proof.
  unfold loop. cbn [main.run_providers]. intros Hloop.
  destruct (String.eqb (ProviderConfig.Type_ pc) "oidc") eqn:Eo.
  - apply String.eqb_eq in Eo.
    destruct (oidc.NewProvider Discover pc) as [p|e] eqn:Hnew; [|discriminate].
    exists (OIDCProvider p). split; [now apply oidc_new_built|exact Hloop].
  - destruct (String.eqb (ProviderConfig.Type_ pc) "saml") eqn:Es;
      [|discriminate].
    apply String.eqb_eq in Es.
    destruct (saml.NewProvider _ _ _ _ _ _ _ _ _ _ _ _ _ pc baseURL)
      as [p|e] eqn:Hnew; [|discriminate].
    exists (SAMLProvider p).
    split; [now apply (saml_new_built pc baseURL)|exact Hloop].
Qed.

Lemma loop_registry (baseURL : string) (l : list ProviderConfig.t) :
  forall acc out : gmap string Provider,
    loop baseURL l acc = Ok out ->
    (forall id p,
       out !! id = Some p ->
       acc !! id = Some p
       \/ exists pc, pc ∈ l /\ ProviderConfig.ID pc = id /\ built_from pc p)
    /\ (forall id, id ∉ (ProviderConfig.ID <$> l) -> out !! id = acc !! id)
    /\ (NoDup (ProviderConfig.ID <$> l) ->
        forall pc, pc ∈ l ->
                   exists p, out !! ProviderConfig.ID pc = Some p
                             /\ built_from pc p).
Proof.
  induction l as [|pc rest IH]; intros acc out Hloop.
  { cbn in Hloop. injection Hloop as <-. repeat split; auto.
    intros _ pc Hin. inversion Hin. }
  destruct (registry_step baseURL pc rest acc out Hloop) as (p & Hbuilt & Hrest).
  destruct (IH _ _ Hrest) as (Hfrom & Hframe & Hall).
  split; [|split].
  - intros id p' Hout. destruct (Hfrom id p' Hout) as [Hacc|(pc' & Hin & Hid & Hb)].
    + destruct (decide (ProviderConfig.ID pc = id)) as [<-|Hne].
      * rewrite lookup_insert_eq in Hacc. injection Hacc as <-.
        right. exists pc. split; [apply list_elem_of_here|auto].
      * rewrite lookup_insert_ne in Hacc by exact Hne. now left.
    + right. exists pc'. split; [now apply list_elem_of_further|auto].
  - intros id Hnot. rewrite fmap_cons in Hnot.
    apply not_elem_of_cons in Hnot as [Hne Hnot].
    rewrite (Hframe id Hnot). now rewrite lookup_insert_ne.
  - rewrite fmap_cons, NoDup_cons. intros [Hfresh Hnodup] pc' Hin.
    apply elem_of_cons in Hin as [->|Hin].
    + exists p. split; [|exact Hbuilt].
      rewrite (Hframe _ Hfresh). apply lookup_insert_eq.
    + now apply Hall.
Qed.

(** X29.  When [run] gets as far as building the server, the
    configuration has passed [Validate] and the registry mirrors its
    provider list: every registered provider is stored under its own id and
    was built from an entry of the list, with that entry's name, kind and
    header mappings, and every entry of the list is registered under its
    id. *)
Theorem X29_registry_matches_config (configPath : string) (cfg : Config.t)
    (providers : gmap string Provider) :
  main.run Getenv ReadFile yaml_Unmarshal Ping Discover Certificate PrivateKey
    EntityDescriptor pem_Decode x509_ParseCertificate x509_ParsePKCS1PrivateKey
    x509_ParsePKCS8PrivateKey xml_Unmarshal http_NewRequest http_Do xml_Decode
    service configPath = Ok (cfg, providers) ->
  validation.Validate cfg = Ok tt
  /\ (forall id p,
        providers !! id = Some p ->
        auth.ID p = id
        /\ exists pc, pc ∈ Config.Providers cfg /\ built_from pc p)
  /\ (forall pc,
        pc ∈ Config.Providers cfg ->
        exists p, providers !! ProviderConfig.ID pc = Some p /\ built_from pc p).
Proof.
  unfold main.run.
  destruct (config.Load _ _ _ configPath) as [c|e]; [|discriminate].
  destruct (validation.Validate c) as [[]|e] eqn:Hvalid; [|discriminate].
  destruct (cache.New Ping (Config.Cache c)) as [kind|e]; [|discriminate].
  destruct (main.run_providers _ _ _ _ _ _ _ _ _ _ _ _ _ _ _ _ ∅)
    as [out|e] eqn:Hloop; [|discriminate].
  intros [= <- <-]. split; [exact Hvalid|].
  change (loop (ServerConfig.BaseURL (Config.Server c)) (Config.Providers c) ∅
          = Ok out) in Hloop.
  destruct (loop_registry _ _ _ _ Hloop) as (Hfrom & _ & Hall).
  apply Validate_valid in Hvalid as (_ & _ & _ & _ & Hnodup & _).
  split.
  - intros id p Hp. destruct (Hfrom id p Hp) as [Hempty|(pc & Hin & Hid & Hb)].
    + now rewrite lookup_empty in Hempty.
    + split; [|eauto]. destruct Hb as [Hpid _]. congruence.
  - now apply Hall.
Qed.

(** X30.  The service provider a SAML provider is built on: entity id and
    ACS URL are the configured ones, responses that no request of its own
    preceded are accepted ([AllowIDPInitiated]), the metadata URL is the
    path of the provider's metadata route under the base URL, and the IdP
    metadata comes from the inline XML when there is one and from a GET of
    the metadata URL, answered 200, otherwise. *)
Theorem X30_saml_service_provider (pc : ProviderConfig.t) (baseURL : string)
    (p : saml.Provider) :
  saml.NewProvider Certificate PrivateKey EntityDescriptor ReadFile pem_Decode
    x509_ParseCertificate x509_ParsePKCS1PrivateKey x509_ParsePKCS8PrivateKey
    xml_Unmarshal http_NewRequest http_Do xml_Decode service pc baseURL = Ok p ->
  exists (m : SAMLConfig.t)
         (sp : saml.ServiceProvider Certificate PrivateKey EntityDescriptor),
    ProviderConfig.SAML pc = Some m
    /\ saml.AllowIDPInitiated _ _ _ sp = true
    /\ saml.EntityID _ _ _ sp = SAMLConfig.SPEntityID m
    /\ saml.AcsURL _ _ _ sp = SAMLConfig.ACSURL m
    /\ saml.MetadataURL _ _ _ sp
       = baseURL ++ "/auth/saml/" ++ saml.id p ++ "/metadata"
    /\ saml.ParseResponse p = saml.sp_ParseResponse (service sp)
    /\ saml.Metadata p = saml.sp_Metadata (service sp)
    /\ (SAMLConfig.IDPMetadataXML m <> "" ->
        xml_Unmarshal (SAMLConfig.IDPMetadataXML m)
        = Ok (saml.IDPMetadata _ _ _ sp))
    /\ (SAMLConfig.IDPMetadataXML m = "" ->
        exists body, http_Do (SAMLConfig.IDPMetadataURL m) = Ok (200, body)
                     /\ xml_Decode body = Ok (saml.IDPMetadata _ _ _ sp))
    /\ (forall (cfg : Config.t) (providers : gmap string Provider),
          ("/auth/saml/" ++ saml.id p ++ "/metadata")
          ∈ (fst <$> server.provider_routes cfg providers
                       (saml.id p, SAMLProvider p))).
Proof.
  unfold saml.NewProvider.
  destruct (ProviderConfig.SAML pc) as [m|]; [|discriminate].
  destruct (ReadFile (SAMLConfig.CertificatePath m)); [|discriminate].
  destruct (ReadFile (SAMLConfig.PrivateKeyPath m)); [|discriminate].
  destruct (pem_Decode _); [|discriminate].
  destruct (x509_ParseCertificate _) as [cert|]; [|discriminate].
  destruct (pem_Decode _); [|discriminate].
  destruct (saml.parse_key _ _ _ _) as [key|]; [|discriminate].
  destruct (saml.fetchIDPMetadata _ _ _ _ _ m) as [metadata|e] eqn:Hfetch;
    [|discriminate].
  destruct (url_Parse (SAMLConfig.ACSURL m)); [|discriminate].
  destruct (url_Parse _); [|discriminate].
  intros [= <-]. exists m.
  exists (saml.mkServiceProvider _ _ _ (SAMLConfig.SPEntityID m) key cert
            (baseURL ++ "/auth/saml/" ++ ProviderConfig.ID pc ++ "/metadata")
            (SAMLConfig.ACSURL m) metadata true).
  cbn. repeat split.
  - intros Hxml. unfold saml.fetchIDPMetadata in Hfetch.
    apply String.eqb_neq in Hxml. rewrite Hxml in Hfetch. cbn in Hfetch.
    destruct (xml_Unmarshal _); [|discriminate]. congruence.
  - intros Hxml. unfold saml.fetchIDPMetadata in Hfetch.
    rewrite Hxml in Hfetch. cbn in Hfetch.
    destruct (negb _); [|discriminate].
    destruct (http_NewRequest _); [|discriminate].
    destruct (http_Do _) as [[status body]|]; [|discriminate].
    destruct (status =? 200) eqn:Hstatus; [|discriminate].
    apply Z.eqb_eq in Hstatus. subst status. cbn in Hfetch.
    destruct (xml_Decode body) eqn:Hdec; [|discriminate].
    exists body. split; congruence.
  - intros cfg providers. cbn.
    do 2 apply list_elem_of_further. apply list_elem_of_here.
Qed.

End Registry.

(** The start-up of the tour builds both providers, each under its id. *)
Lemma X29_witness :
  exists cfg providers,
    Tour.start "/etc/sso-switch/config.yaml" = Ok (cfg, providers)
    /\ (exists p, providers !! "azure" = Some p /\ auth.Type_ p = "oidc")
    /\ (exists p, providers !! "okta" = Some p /\ auth.Type_ p = "saml").
Proof.
  destruct (Tour.start "/etc/sso-switch/config.yaml") as [[cfg providers]|e]
    eqn:Hstart; [|vm_compute in Hstart; discriminate].
  exists cfg, providers. split; [reflexivity|].
  destruct (X29_registry_matches_config (L := Tour.lib) _ _ _ _ _ _ _ _ _ _ _ _
              _ _ _ _ _ _ cfg providers Hstart) as (_ & _ & Hall).
  assert (Hcfg : Config.Providers cfg = [Tour.azure_entry; Tour.okta_entry]).
  { vm_compute in Hstart. injection Hstart as <- _. reflexivity. }
  split.
  - destruct (Hall Tour.azure_entry) as (p & Hp & _ & _ & Hty & _).
    + rewrite Hcfg. apply list_elem_of_here.
    + exists p. split; [exact Hp|exact Hty].
  - destruct (Hall Tour.okta_entry) as (p & Hp & _ & _ & Hty & _).
    + rewrite Hcfg. apply list_elem_of_further, list_elem_of_here.
    + exists p. split; [exact Hp|exact Hty].
Defined.

(** The SAML provider of the tour accepts responses that no request of its
    own preceded, and advertises the metadata URL of its route. *)
Lemma X30_witness :
  exists (p : saml.Provider) (sp : saml.ServiceProvider unit unit string),
    Tour.okta_built = Ok p
    /\ saml.AllowIDPInitiated _ _ _ sp = true
    /\ saml.MetadataURL _ _ _ sp
       = "https://sso.example.com/auth/saml/okta/metadata"
    /\ saml.IDPMetadata _ _ _ sp = "<EntityDescriptor/>".
Proof.
  destruct Tour.okta_built as [p|e] eqn:Hbuilt;
    [|vm_compute in Hbuilt; discriminate].
  destruct (X30_saml_service_provider (L := Tour.lib) _ _ _ _ _ _ _ _ _ _ _ _ _
              _ _ p Hbuilt)
    as (m & sp & Hm & Hallow & _ & _ & Hurl & _ & _ & Hxml & _).
  exists p, sp. split; [reflexivity|]. split; [exact Hallow|].
  assert (Hid : saml.id p = "okta").
  { vm_compute in Hbuilt. injection Hbuilt as <-. reflexivity. }
  split; [now rewrite Hurl, Hid|].
  vm_compute in Hm. injection Hm as <-.
  assert (Hok : Ok "<EntityDescriptor/>" = Ok (saml.IDPMetadata unit unit string sp))
    by (apply Hxml; discriminate).
  now injection Hok as <-.
Defined.
